(** * Todos REST service: feature flags, repositories, validation pipe and
      error-tracking dispatcher

    A shallow embedding of the parts of the NestJS boilerplate that carry
    behaviour: the feature-flag configuration service with its middleware
    and the choice of the repository, the three Todo repositories (Prisma,
    Drizzle, Mongoose) behind the Todos service and controller, the Zod
    validation pipe with the Todo schemas, the authentication guards, the
    unified error-tracking service with its sanitisers and the exception
    filter, and the response cache.

    Conventions.
    - A JavaScript call that may throw returns an [Outcome]; a call that
      also writes to the Nest [Logger] returns the log lines it produced,
      in order, next to its outcome.
    - [undefined] and [null] are both [None].
    - A [Date] is its epoch-millisecond value.
    - Values read from the environment of a call ([new Date()],
      [createId()]) are explicit arguments of the embedded function.
    - Strings are taken to hold ASCII characters where the code trims them,
      lowers their case or takes them apart. *)

From Stdlib Require Import ZArith Lia Ascii String.
From stdpp Require Import base option list strings pretty gmap sorting.

Open Scope string_scope.
Open Scope list_scope.
Open Scope Z_scope.

(** ** Outcomes and logging *)

Inductive Outcome (E A : Type) : Type :=
| Return (a : A)
| Throw (e : E).
Arguments Return {E A} a.
Arguments Throw {E A} e.

Definition isThrow {E A} (o : Outcome E A) : bool :=
  match o with Throw _ => true | Return _ => false end.

Inductive LogLevel : Type := LogInfo | LogError | LogDebug.

Record LogLine : Type := mkLog { level : LogLevel; text : string }.

(** A computation that logs and may throw: the lines logged so far and the
    outcome.  Nothing is logged after a throw. *)
Definition Logged (E A : Type) : Type := list LogLine * Outcome E A.

Definition ret {E A} (a : A) : Logged E A := ([], Return a).
Definition throw {E A} (e : E) : Logged E A := ([], Throw e).
Definition logLine {E} (lv : LogLevel) (s : string) : Logged E unit :=
  ([mkLog lv s], Return tt).

Definition bind {E A B} (m : Logged E A) (k : A -> Logged E B) : Logged E B :=
  match m with
  | (l1, Return a) => let '(l2, o) := k a in (l1 ++ l2, o)
  | (l1, Throw e) => (l1, Throw e)
  end.

Notation "'let!' x ':=' m 'in' k" := (bind m (fun x => k))
  (at level 10, x name, m at level 100, k at level 200).
Notation "'do!' m 'in' k" := (bind m (fun _ => k))
  (at level 10, m at level 100, k at level 200).

Definition outcome {E A} (m : Logged E A) : Outcome E A := snd m.

(** ** Strings *)

Definition dquote : string := String (Ascii.ascii_of_nat 34) EmptyString.
Definition newline : string := String (Ascii.ascii_of_nat 10) EmptyString.

(** [Array.prototype.join]. *)
Fixpoint join (sep : string) (l : list string) : string :=
  match l with
  | [] => EmptyString
  | [x] => x
  | x :: rest => x +:+ sep +:+ join sep rest
  end.

(** [String.prototype.includes]: [needle] occurs in [hay]. *)
Fixpoint includes (hay needle : string) : bool :=
  String.prefix needle hay ||
  match hay with
  | EmptyString => false
  | String _ rest => includes rest needle
  end.

(** [Array.prototype.includes] on strings. *)
Definition arrayIncludes (l : list string) (x : string) : bool :=
  bool_decide (x ∈ l).

(** ** Feature flags (feature-providers.enum.ts, feature-flags.config.ts) *)

Module FeatureFlags.

(** String enums: at run time a provider is its string value. *)
Module DatabaseProvider.
Definition PRISMA_POSTGRESQL := "prisma-postgresql".
Definition DRIZZLE_POSTGRESQL := "drizzle-postgresql".
Definition MONGOOSE_MONGODB := "mongoose-mongodb".
End DatabaseProvider.

Module ErrorTrackingProvider.
Definition BUGSNAG := "bugsnag".
Definition SENTRY := "sentry".
Definition POSTHOG := "posthog".
Definition NONE := "none".
End ErrorTrackingProvider.

Module AuthProvider.
Definition COMPOSITE := "composite".
Definition BEARER_ONLY := "bearer-only".
Definition API_KEY_ONLY := "api-key-only".
Definition NONE := "none".
End AuthProvider.

Module CacheProvider.
Definition REDIS := "redis".
Definition MEMORY := "memory".
Definition NONE := "none".
End CacheProvider.

Module DocumentationProvider.
Definition SWAGGER := "swagger".
Definition NONE := "none".
End DocumentationProvider.

Module LoggingProvider.
Definition DETAILED := "detailed".
Definition BASIC := "basic".
Definition NONE := "none".
End LoggingProvider.

Module PerformanceProvider.
Definition FULL := "full".
Definition BASIC := "basic".
Definition NONE := "none".
End PerformanceProvider.

(** [VALID_PROVIDERS]: [Object.values] of each enum, in declaration
    order. *)
Module VALID_PROVIDERS.
Definition DATABASE : list string :=
  [DatabaseProvider.PRISMA_POSTGRESQL; DatabaseProvider.DRIZZLE_POSTGRESQL;
   DatabaseProvider.MONGOOSE_MONGODB].
Definition ERROR_TRACKING : list string :=
  [ErrorTrackingProvider.BUGSNAG; ErrorTrackingProvider.SENTRY;
   ErrorTrackingProvider.POSTHOG; ErrorTrackingProvider.NONE].
Definition AUTH : list string :=
  [AuthProvider.COMPOSITE; AuthProvider.BEARER_ONLY;
   AuthProvider.API_KEY_ONLY; AuthProvider.NONE].
Definition CACHE : list string :=
  [CacheProvider.REDIS; CacheProvider.MEMORY; CacheProvider.NONE].
Definition DOCUMENTATION : list string :=
  [DocumentationProvider.SWAGGER; DocumentationProvider.NONE].
Definition LOGGING : list string :=
  [LoggingProvider.DETAILED; LoggingProvider.BASIC; LoggingProvider.NONE].
Definition PERFORMANCE : list string :=
  [PerformanceProvider.FULL; PerformanceProvider.BASIC;
   PerformanceProvider.NONE].
End VALID_PROVIDERS.

Record FeatureFlagsConfig : Type := mkConfig {
  database : string;
  errorTracking : string;
  auth : string;
  cache : string;
  documentation : string;
  logging : string;
  performance : string
}.

(** The configuration the [ConfigService] serves: the variables that are
    set, with their values. *)
Abbreviation Env := (gmap string string).

(** [configService.get(key, defaultValue)]: the value when the variable is
    defined, the default otherwise. *)
Definition configGetOr (env : Env) (key default : string) : string :=
  match env !! key with
  | Some v => v
  | None => default
  end.

(** [configService.get(key)]. *)
Definition configGet (env : Env) (key : string) : option string := env !! key.

(** JavaScript truthiness of an optional string: [undefined] and the empty
    string are falsy. *)
Definition truthy (v : option string) : bool :=
  match v with
  | None => false
  | Some s => negb (bool_decide (s = EmptyString))
  end.

Definition truthyStr (s : string) : bool := negb (bool_decide (s = EmptyString)).

Definition invalidProviderMessage (envVar value : string)
    (validOptions : list string) : string :=
  "Invalid " +:+ envVar +:+ ": " +:+ dquote +:+ value +:+ dquote +:+
  ". Valid options: " +:+ join ", " validOptions.

Definition getValidatedProvider (env : Env) (envVar : string)
    (validOptions : list string) (defaultValue : string)
    : Logged string string :=
  let value := configGetOr env envVar defaultValue in
  if negb (arrayIncludes validOptions value) then
    let error := invalidProviderMessage envVar value validOptions in
    do! logLine LogError error in
    throw error
  else ret value.

(** [Object.entries(config)], in insertion order. *)
Definition entries (config : FeatureFlagsConfig) : list (string * string) :=
  [("database", database config); ("errorTracking", errorTracking config);
   ("auth", auth config); ("cache", cache config);
   ("documentation", documentation config); ("logging", logging config);
   ("performance", performance config)].

Definition noProviderMessage (feature : string) : string :=
  "Feature " +:+ dquote +:+ feature +:+ dquote +:+ " has no provider selected".

Definition MONGODB_URL_REQUIRED : string :=
  "MONGODB_URL is required when using mongoose-mongodb database provider".
Definition DATABASE_URL_REQUIRED : string :=
  "DATABASE_URL is required when using PostgreSQL database providers".
Definition REDIS_HOST_REQUIRED : string :=
  "REDIS_HOST is required when using redis cache provider".

(** The [forEach] over the entries: one error per falsy provider. *)
Definition missingProviderErrors (config : FeatureFlagsConfig) : list string :=
  flat_map (fun '(feature, provider) =>
              if negb (truthyStr provider) then [noProviderMessage feature]
              else [])
           (entries config).

(** The three cross-field [if] blocks, each pushing at most one error. *)
Definition mongoErrors (env : Env) (config : FeatureFlagsConfig) : list string :=
  if bool_decide (database config = DatabaseProvider.MONGOOSE_MONGODB) then
    if negb (truthy (configGet env "MONGODB_URL")) then [MONGODB_URL_REQUIRED]
    else []
  else [].

Definition postgresErrors (env : Env) (config : FeatureFlagsConfig) : list string :=
  if arrayIncludes [DatabaseProvider.PRISMA_POSTGRESQL;
                    DatabaseProvider.DRIZZLE_POSTGRESQL] (database config) then
    if negb (truthy (configGet env "DATABASE_URL")) then [DATABASE_URL_REQUIRED]
    else []
  else [].

Definition redisErrors (env : Env) (config : FeatureFlagsConfig) : list string :=
  if bool_decide (cache config = CacheProvider.REDIS) then
    if negb (truthy (configGet env "REDIS_HOST")) then [REDIS_HOST_REQUIRED]
    else []
  else [].

Definition crossFieldErrors (env : Env) (config : FeatureFlagsConfig)
    : list string :=
  mongoErrors env config ++ postgresErrors env config ++ redisErrors env config.

(** The [errors] array just before the final length test. *)
Definition collectErrors (env : Env) (config : FeatureFlagsConfig) : list string :=
  missingProviderErrors config ++ crossFieldErrors env config.

Definition validationFailedMessage (errors : list string) : string :=
  "Feature flag validation failed:" +:+ newline +:+
  join newline (map (fun e => "  - " +:+ e) errors).

Definition VALIDATION_PASSED : string := "✅ Feature flag validation passed".

Definition validateConfiguration (env : Env) (config : FeatureFlagsConfig)
    : Logged string unit :=
  let errors := collectErrors env config in
  if (0 <? Z.of_nat (length errors))%Z then
    let errorMessage := validationFailedMessage errors in
    do! logLine LogError errorMessage in
    throw errorMessage
  else logLine LogInfo VALIDATION_PASSED.

(** The object literal of [loadAndValidateConfig]: its seven properties are
    evaluated in source order, the first throw ends the evaluation. *)
Definition readProviders (env : Env) : Logged string FeatureFlagsConfig :=
  let! database := getValidatedProvider env "DATABASE_PROVIDER"
                VALID_PROVIDERS.DATABASE DatabaseProvider.PRISMA_POSTGRESQL in
  let! errorTracking := getValidatedProvider env "ERROR_TRACKING_PROVIDER"
                VALID_PROVIDERS.ERROR_TRACKING ErrorTrackingProvider.NONE in
  let! auth := getValidatedProvider env "AUTH_PROVIDER"
                VALID_PROVIDERS.AUTH AuthProvider.COMPOSITE in
  let! cache := getValidatedProvider env "CACHE_PROVIDER"
                VALID_PROVIDERS.CACHE CacheProvider.REDIS in
  let! documentation := getValidatedProvider env "DOCUMENTATION_PROVIDER"
                VALID_PROVIDERS.DOCUMENTATION DocumentationProvider.SWAGGER in
  let! logging := getValidatedProvider env "LOGGING_PROVIDER"
                VALID_PROVIDERS.LOGGING LoggingProvider.BASIC in
  let! performance := getValidatedProvider env "PERFORMANCE_PROVIDER"
                VALID_PROVIDERS.PERFORMANCE PerformanceProvider.BASIC in
  ret (mkConfig database errorTracking auth cache documentation logging
                performance).

Definition loadAndValidateConfig (env : Env) : Logged string FeatureFlagsConfig :=
  let! config := readProviders env in
  do! validateConfiguration env config in
  ret config.

(** [new FeatureFlagsService(configService)]: the service is its validated
    configuration. *)
Definition FeatureFlagsService_new (env : Env) : Logged string FeatureFlagsConfig :=
  loadAndValidateConfig env.

Definition getErrorTrackingProvider (config : FeatureFlagsConfig) : string :=
  errorTracking config.

Definition isErrorTrackingEnabled (config : FeatureFlagsConfig) : bool :=
  negb (bool_decide (errorTracking config = ErrorTrackingProvider.NONE)).

(** *** Vocabulary for the statements about start-up *)

(** One enumerated option: its variable, its legal values, its default. *)
Record ProviderOption : Type := mkOption {
  envVar : string;
  validOptions : list string;
  defaultValue : string
}.

Definition DATABASE_OPTION : ProviderOption :=
  mkOption "DATABASE_PROVIDER" VALID_PROVIDERS.DATABASE
           DatabaseProvider.PRISMA_POSTGRESQL.
Definition ERROR_TRACKING_OPTION : ProviderOption :=
  mkOption "ERROR_TRACKING_PROVIDER" VALID_PROVIDERS.ERROR_TRACKING
           ErrorTrackingProvider.NONE.
Definition AUTH_OPTION : ProviderOption :=
  mkOption "AUTH_PROVIDER" VALID_PROVIDERS.AUTH AuthProvider.COMPOSITE.
Definition CACHE_OPTION : ProviderOption :=
  mkOption "CACHE_PROVIDER" VALID_PROVIDERS.CACHE CacheProvider.REDIS.
Definition DOCUMENTATION_OPTION : ProviderOption :=
  mkOption "DOCUMENTATION_PROVIDER" VALID_PROVIDERS.DOCUMENTATION
           DocumentationProvider.SWAGGER.
Definition LOGGING_OPTION : ProviderOption :=
  mkOption "LOGGING_PROVIDER" VALID_PROVIDERS.LOGGING LoggingProvider.BASIC.
Definition PERFORMANCE_OPTION : ProviderOption :=
  mkOption "PERFORMANCE_PROVIDER" VALID_PROVIDERS.PERFORMANCE
           PerformanceProvider.BASIC.

(** The options in the order [loadAndValidateConfig] reads them. *)
Definition PROVIDER_OPTIONS : list ProviderOption :=
  [DATABASE_OPTION; ERROR_TRACKING_OPTION; AUTH_OPTION; CACHE_OPTION;
   DOCUMENTATION_OPTION; LOGGING_OPTION; PERFORMANCE_OPTION].

Definition optionValue (env : Env) (o : ProviderOption) : string :=
  configGetOr env (envVar o) (defaultValue o).

Definition isInvalid (env : Env) (o : ProviderOption) : bool :=
  negb (arrayIncludes (validOptions o) (optionValue env o)).

Definition readOption (env : Env) (o : ProviderOption) : Logged string string :=
  getValidatedProvider env (envVar o) (validOptions o) (defaultValue o).

(** The options whose value lies outside the legal set, in reading order. *)
Definition invalidOptions (env : Env) : list ProviderOption :=
  List.filter (isInvalid env) PROVIDER_OPTIONS.

Definition optionError (env : Env) (o : ProviderOption) : string :=
  invalidProviderMessage (envVar o) (optionValue env o) (validOptions o).

(** The error of a failed construction names every invalid option. *)
Definition listsEveryInvalidOption (env : Env) : Prop :=
  exists logs msg,
    FeatureFlagsService_new env = (logs, Throw msg) /\
    Forall (fun o => includes msg (envVar o) = true) (invalidOptions env).

(** The provider each option selects, before any validation. *)
Definition selectedProviders (env : Env) : FeatureFlagsConfig :=
  mkConfig (optionValue env DATABASE_OPTION)
           (optionValue env ERROR_TRACKING_OPTION)
           (optionValue env AUTH_OPTION)
           (optionValue env CACHE_OPTION)
           (optionValue env DOCUMENTATION_OPTION)
           (optionValue env LOGGING_OPTION)
           (optionValue env PERFORMANCE_OPTION).

(** [key] is unset or empty. *)
Definition unset (env : Env) (key : string) : Prop :=
  truthy (configGet env key) = false.

Definition mongoUrlMissing (env : Env) : Prop :=
  optionValue env DATABASE_OPTION = DatabaseProvider.MONGOOSE_MONGODB /\
  unset env "MONGODB_URL".

Definition databaseUrlMissing (env : Env) : Prop :=
  (optionValue env DATABASE_OPTION = DatabaseProvider.PRISMA_POSTGRESQL \/
   optionValue env DATABASE_OPTION = DatabaseProvider.DRIZZLE_POSTGRESQL) /\
  unset env "DATABASE_URL".

Definition redisHostMissing (env : Env) : Prop :=
  optionValue env CACHE_OPTION = CacheProvider.REDIS /\
  unset env "REDIS_HOST".

Definition missingCombination (env : Env) : Prop :=
  mongoUrlMissing env \/ databaseUrlMissing env \/ redisHostMissing env.

(** The construction fails with one error that lists every violated
    cross-field rule. *)
Definition aggregatesViolatedRules (env : Env) : Prop :=
  exists logs msg,
    FeatureFlagsService_new env = (logs, Throw msg) /\
    (mongoUrlMissing env -> includes msg MONGODB_URL_REQUIRED = true) /\
    (databaseUrlMissing env -> includes msg DATABASE_URL_REQUIRED = true) /\
    (redisHostMissing env -> includes msg REDIS_HOST_REQUIRED = true).

(** *** Sample environments *)

(** Two options outside their legal sets. *)
Definition twoInvalidEnv : Env :=
  {[ "DATABASE_PROVIDER" := "mysql"; "CACHE_PROVIDER" := "memcached" ]}.

(** MongoDB selected with no MONGODB_URL, and a cache provider outside the
    legal set. *)
Definition mongoWithoutUrlBadCacheEnv : Env :=
  {[ "DATABASE_PROVIDER" := "mongoose-mongodb"; "CACHE_PROVIDER" := "memcached" ]}.

(** Nothing set: the defaults select PostgreSQL through Prisma and a Redis
    cache, and neither connection setting is present. *)
Definition emptyEnv : Env := ∅.

End FeatureFlags.

(** ** The Todo entity (todo.entity.ts) *)

(** Epoch milliseconds. *)
Definition Date : Type := Z.

(** A JSON value, as a request body or a metadata entry holds it.  Numbers
    are kept integral; objects keep their entries in order. *)
#[local] Unset Elimination Schemes.
Inductive Json : Type :=
| JNull
| JBool (b : bool)
| JNumber (n : Z)
| JString (s : string)
| JArray (items : list Json)
| JObject (entries : list (string * Json)).
#[local] Set Elimination Schemes.

(** [Record<string, any>]. *)
Definition Metadata : Type := list (string * Json).

Module Todo.
Record t : Type := mk {
  id : string;
  title : string;
  description : option string;
  completed : bool;
  priority : option string;
  dueDate : option Date;
  tags : list string;
  metadata : option Metadata;
  createdAt : Date;
  updatedAt : Date
}.
End Todo.

Module CreateTodoInput.
Record t : Type := mk {
  title : string;
  description : option string;
  completed : option bool;
  priority : option string;
  dueDate : option Date;
  tags : option (list string);
  metadata : option Metadata
}.
End CreateTodoInput.

Module UpdateTodoInput.
Record t : Type := mk {
  title : option string;
  description : option string;
  completed : option bool;
  priority : option string;
  dueDate : option Date;
  tags : option (list string);
  metadata : option Metadata
}.

(** The empty patch [{}]. *)
Definition empty : t := mk None None None None None None None.
End UpdateTodoInput.

(** What a repository call can reject with. *)
Inductive RepoError : Type :=
| PrismaRecordNotFound              (* PrismaClientKnownRequestError P2025 *)
| MongooseValidationError (path : string)
| JsError (message : string).       (* new Error(message) *)

(** Is the rejection a not-found condition. *)
Definition isNotFound (e : RepoError) : bool :=
  match e with
  | PrismaRecordNotFound => true
  | JsError m => includes m "not found"
  | MongooseValidationError _ => false
  end.

(** ** Ordering by creation time *)

Section OrderBy.
Context {A : Type} (createdAt : A -> Date).

(** [a] may stand before [b] in a newest-first listing. *)
Definition newestFirst (a b : A) : Prop := createdAt b <= createdAt a.
(** [a] may stand before [b] in an oldest-first listing. *)
Definition oldestFirst (a b : A) : Prop := createdAt a <= createdAt b.

#[global] Instance newestFirst_dec : RelDecision newestFirst.
Proof. intros a b. unfold newestFirst. apply _. Defined.
#[global] Instance oldestFirst_dec : RelDecision oldestFirst.
Proof. intros a b. unfold oldestFirst. apply _. Defined.

(** Sorting on the creation time, descending ([ORDER BY ... DESC],
    [sort({createdAt: -1})]) and ascending ([ORDER BY ...] without a
    direction).  The order a database gives to rows with equal keys is not
    specified; this one is a merge sort's. *)
Definition orderByDesc (rows : list A) : list A := merge_sort newestFirst rows.
Definition orderByAsc (rows : list A) : list A := merge_sort oldestFirst rows.
End OrderBy.

(** The two tag lists share an element. *)
Definition sharesTag (recordTags queryTags : list string) : Prop :=
  exists tag, tag ∈ recordTags /\ tag ∈ queryTags.

#[global] Instance sharesTag_dec recordTags queryTags :
  Decision (sharesTag recordTags queryTags).
Proof.
  refine (cast_if (decide (Exists (fun tag => tag ∈ queryTags) recordTags)));
    unfold sharesTag; rewrite Exists_exists in *; assumption.
Defined.

(** ** DrizzleTodoRepository (drizzle-todo.repository.ts, drizzle/schema.ts) *)

Module Drizzle.

(** The [todos] table: its rows, in physical order. *)
Definition Table : Type := list Todo.t.

(** [eq(todos.id, id)]. *)
Definition idEq (id : string) (row : Todo.t) : bool :=
  bool_decide (Todo.id row = id).

(** The first element of an array destructuring [[x] = rows]. *)
Definition first {A} (rows : list A) : option A := head rows.

(** [create]: the row is built in the repository and inserted; a column left
    [undefined] takes the default of schema.ts ([priority] defaults to
    ['medium'], the nullable columns to NULL).  [id] is what [createId()]
    returned, [createdNow] and [updatedNow] what the two [new Date()]
    returned. *)
Definition create (data : CreateTodoInput.t) (id : string)
    (createdNow updatedNow : Date) (table : Table) : Table * option Todo.t :=
  let newTodo :=
    Todo.mk id
      (CreateTodoInput.title data)
      (CreateTodoInput.description data)
      (default false (CreateTodoInput.completed data))
      (Some (default "medium" (CreateTodoInput.priority data)))
      (CreateTodoInput.dueDate data)
      (default [] (CreateTodoInput.tags data))
      (CreateTodoInput.metadata data)
      createdNow updatedNow in
  (table ++ [newTodo], first [newTodo]).

Definition findAll (table : Table) : list Todo.t :=
  orderByAsc Todo.createdAt table.

(** [(result as Todo) || null]. *)
Definition findById (id : string) (table : Table) : option Todo.t :=
  match first (List.filter (idEq id) table) with
  | Some result => Some result
  | None => None
  end.

(** [.set({...data, updatedAt: new Date()})]: a key that is [undefined]
    leaves its column alone. *)
Definition set (data : UpdateTodoInput.t) (now : Date) (row : Todo.t) : Todo.t :=
  Todo.mk (Todo.id row)
    (default (Todo.title row) (UpdateTodoInput.title data))
    (from_option Some (Todo.description row) (UpdateTodoInput.description data))
    (default (Todo.completed row) (UpdateTodoInput.completed data))
    (from_option Some (Todo.priority row) (UpdateTodoInput.priority data))
    (from_option Some (Todo.dueDate row) (UpdateTodoInput.dueDate data))
    (default (Todo.tags row) (UpdateTodoInput.tags data))
    (from_option Some (Todo.metadata row) (UpdateTodoInput.metadata data))
    (Todo.createdAt row)
    now.

(** [update]: every row matching the [where] is rewritten; [returning()]
    gives the rewritten rows and the first of them, possibly [undefined],
    is returned. *)
Definition update (id : string) (data : UpdateTodoInput.t) (now : Date)
    (table : Table) : Table * option Todo.t :=
  let table' := map (fun row => if idEq id row then set data now row else row) table in
  (table', first (List.filter (idEq id) table')).

(** [delete]: the matching rows are removed; [returning()] gives them and
    the first of them, possibly [undefined], is returned. *)
Definition delete (id : string) (table : Table) : Table * option Todo.t :=
  (List.filter (fun row => negb (idEq id row)) table,
   first (List.filter (idEq id) table)).

Definition deleteAll (table : Table) : Table := [].

Definition findByCompleted (completed : bool) (table : Table) : list Todo.t :=
  orderByAsc Todo.createdAt
    (List.filter (fun row => bool_decide (Todo.completed row = completed)) table).

(** [tags.some(tag => todo.tags.includes(tag))], over all rows in creation
    order. *)
Definition findByTags (tags : list string) (table : Table) : list Todo.t :=
  List.filter
    (fun todo => existsb (fun tag => arrayIncludes (Todo.tags todo) tag) tags)
    (orderByAsc Todo.createdAt table).

End Drizzle.

(** ** PrismaTodoRepository (prisma-todo.repository.ts, prisma migration) *)

Module Prisma.

Definition Table : Type := list Todo.t.

Definition idEq (id : string) (row : Todo.t) : bool :=
  bool_decide (Todo.id row = id).

(** The [where] clauses the repository builds. *)
Inductive Where : Type :=
| WhereCompleted (completed : bool)
| WhereTagsHasSome (tags : list string).

(** [hasSome]: at least one of the given values is in the column's list. *)
Definition matches (w : Where) (row : Todo.t) : bool :=
  match w with
  | WhereCompleted c => bool_decide (Todo.completed row = c)
  | WhereTagsHasSome tags =>
      existsb (fun tag => arrayIncludes (Todo.tags row) tag) tags
  end.

(** [prisma.todo.findMany({ where, orderBy: { createdAt: 'desc' } })]. *)
Definition todo_findMany (w : option Where) (table : Table) : list Todo.t :=
  orderByDesc Todo.createdAt
    (match w with
     | Some w => List.filter (matches w) table
     | None => table
     end).

(** [prisma.todo.findUnique({ where: { id } })]: the row or [null]. *)
Definition todo_findUnique (id : string) (table : Table) : option Todo.t :=
  head (List.filter (idEq id) table).

(** Modelled from the spec: schema.prisma is not among the sources; the
    migration gives the columns and their defaults ([completed] false,
    [priority] 'medium', [createdAt] the current time) and leaves [id] and
    [updatedAt] to the client, for which the spec says that both are
    system-assigned at creation.
    [prisma.todo.create({ data })]. *)
Definition todo_create (data : CreateTodoInput.t) (id : string)
    (createdNow updatedNow : Date) (table : Table) : Table * Todo.t :=
  let created :=
    Todo.mk id
      (CreateTodoInput.title data)
      (CreateTodoInput.description data)
      (default false (CreateTodoInput.completed data))
      (Some (default "medium" (CreateTodoInput.priority data)))
      (CreateTodoInput.dueDate data)
      (default [] (CreateTodoInput.tags data))
      (CreateTodoInput.metadata data)
      createdNow updatedNow in
  (table ++ [created], created).

(** [data] holds no field, as [{}] does: an update with such data writes no
    column. *)
Definition writesNothing (data : UpdateTodoInput.t) : bool :=
  match data with
  | UpdateTodoInput.mk None None None None None None None => true
  | _ => false
  end.

(** The row after an update with [data]: the fields [data] holds replace the
    row's, and the client stamps [updatedAt] with the clock reading when it
    writes the row; with data that hold no field it writes nothing, and the
    row stays as it is, [updatedAt] included. *)
Definition applyData (data : UpdateTodoInput.t) (now : Date) (row : Todo.t)
    : Todo.t :=
  Todo.mk (Todo.id row)
    (default (Todo.title row) (UpdateTodoInput.title data))
    (from_option Some (Todo.description row) (UpdateTodoInput.description data))
    (default (Todo.completed row) (UpdateTodoInput.completed data))
    (from_option Some (Todo.priority row) (UpdateTodoInput.priority data))
    (from_option Some (Todo.dueDate row) (UpdateTodoInput.dueDate data))
    (default (Todo.tags row) (UpdateTodoInput.tags data))
    (from_option Some (Todo.metadata row) (UpdateTodoInput.metadata data))
    (Todo.createdAt row)
    (if writesNothing data then Todo.updatedAt row else now).

(** [prisma.todo.update({ where: { id }, data })]: rejects when no row has
    the id.  The repository hands [data] on as it is and sets no [updatedAt]
    of its own, so the column is the client's to refresh (see [applyData]);
    schema.prisma is not among the sources. *)
Definition todo_update (id : string) (data : UpdateTodoInput.t) (now : Date)
    (table : Table) : Outcome RepoError (Table * Todo.t) :=
  match todo_findUnique id table with
  | None => Throw PrismaRecordNotFound
  | Some row =>
      Return (map (fun r => if idEq id r then applyData data now r else r) table,
              applyData data now row)
  end.

(** [prisma.todo.delete({ where: { id } })]: rejects when no row has the
    id. *)
Definition todo_delete (id : string) (table : Table)
    : Outcome RepoError (Table * Todo.t) :=
  match todo_findUnique id table with
  | None => Throw PrismaRecordNotFound
  | Some row => Return (List.filter (fun r => negb (idEq id r)) table, row)
  end.

(** The repository: each method forwards to the client and re-exposes the
    row with [metadata] cast, which changes no value. *)
Definition withMetadata (row : Todo.t) : Todo.t :=
  Todo.mk (Todo.id row) (Todo.title row) (Todo.description row)
    (Todo.completed row) (Todo.priority row) (Todo.dueDate row)
    (Todo.tags row) (Todo.metadata row) (Todo.createdAt row)
    (Todo.updatedAt row).

Definition create (data : CreateTodoInput.t) (id : string)
    (createdNow updatedNow : Date) (table : Table) : Table * Todo.t :=
  let data' :=
    CreateTodoInput.mk
      (CreateTodoInput.title data) (CreateTodoInput.description data)
      (CreateTodoInput.completed data) (CreateTodoInput.priority data)
      (CreateTodoInput.dueDate data)
      (Some (default [] (CreateTodoInput.tags data)))
      (CreateTodoInput.metadata data) in
  let '(table', created) := todo_create data' id createdNow updatedNow table in
  (table', withMetadata created).

Definition findAll (table : Table) : list Todo.t :=
  map withMetadata (todo_findMany None table).

Definition findById (id : string) (table : Table) : option Todo.t :=
  match todo_findUnique id table with
  | None => None
  | Some todo => Some (withMetadata todo)
  end.

Definition update (id : string) (data : UpdateTodoInput.t) (now : Date)
    (table : Table) : Outcome RepoError (Table * Todo.t) :=
  match todo_update id data now table with
  | Throw e => Throw e
  | Return (table', updated) => Return (table', withMetadata updated)
  end.

Definition delete (id : string) (table : Table)
    : Outcome RepoError (Table * Todo.t) :=
  match todo_delete id table with
  | Throw e => Throw e
  | Return (table', deleted) => Return (table', withMetadata deleted)
  end.

Definition deleteAll (table : Table) : Table := [].

Definition findByCompleted (completed : bool) (table : Table) : list Todo.t :=
  map withMetadata (todo_findMany (Some (WhereCompleted completed)) table).

Definition findByTags (tags : list string) (table : Table) : list Todo.t :=
  map withMetadata (todo_findMany (Some (WhereTagsHasSome tags)) table).

End Prisma.

(** ** MongooseTodoRepository (mongoose-todo.repository.ts, todo.schema.ts) *)

(** [String.prototype.trim], on the ASCII white space and line terminators
    (a string being its bytes here, the wider Unicode spaces are left in
    place). *)
Definition isWhiteSpace (c : ascii) : bool :=
  let n := Ascii.nat_of_ascii c in
  ((n =? 32) || ((9 <=? n) && (n <=? 13)))%nat.

Fixpoint trimStart (s : string) : string :=
  match s with
  | EmptyString => EmptyString
  | String c rest => if isWhiteSpace c then trimStart rest else s
  end.

Fixpoint trimEnd (s : string) : string :=
  match s with
  | EmptyString => EmptyString
  | String c rest =>
      match trimEnd rest with
      | EmptyString => if isWhiteSpace c then EmptyString else String c EmptyString
      | rest' => String c rest'
      end
  end.

Definition trim (s : string) : string := trimEnd (trimStart s).

Module TodoDocument.
Record t : Type := mk {
  cuid : string;
  title : string;
  description : option string;
  completed : bool;
  priority : string;
  tags : list string;
  dueDate : option Date;
  createdAt : Date;
  updatedAt : Date
}.
End TodoDocument.

Module Mongoose.

(** The [todos] collection: its documents, in natural order. *)
Definition Collection : Type := list TodoDocument.t.

Definition PRIORITIES : list string := ["low"; "medium"; "high"].

(** The validators of [TodoSchema] on the paths a write touches: [required]
    and [maxlength] on [title], [maxlength] on [description], [enum] on
    [priority].  The first failing path is reported. *)
Definition validateTitle (title : string) : option RepoError :=
  if bool_decide (title = EmptyString) then Some (MongooseValidationError "title")
  else if (255 <? String.length title)%nat then Some (MongooseValidationError "title")
  else None.

Definition validateDescription (description : option string) : option RepoError :=
  match description with
  | Some d =>
      if (1000 <? String.length d)%nat then Some (MongooseValidationError "description")
      else None
  | None => None
  end.

Definition validatePriority (priority : string) : option RepoError :=
  if arrayIncludes PRIORITIES priority then None
  else Some (MongooseValidationError "priority").

Definition firstError (checks : list (option RepoError)) : option RepoError :=
  head (omap id checks).

(** [{ cuid: id }]. *)
Definition cuidEq (id : string) (doc : TodoDocument.t) : bool :=
  bool_decide (TodoDocument.cuid doc = id).

(** The filters the repository builds. *)
Inductive Filter : Type :=
| All                                   (* find() / {} *)
| ByCuid (id : string)                  (* { cuid: id } *)
| ByCompleted (completed : bool)        (* { completed } *)
| ByTagsIn (tags : list string).        (* { tags: { $in: tags } } *)

(** On an array path, [$in] holds when some element of the document's array
    is one of the given values. *)
Definition matches (f : Filter) (doc : TodoDocument.t) : bool :=
  match f with
  | All => true
  | ByCuid id => cuidEq id doc
  | ByCompleted c => bool_decide (TodoDocument.completed doc = c)
  | ByTagsIn tags =>
      existsb (fun tag => arrayIncludes tags tag) (TodoDocument.tags doc)
  end.

(** [todoModel.find(filter).sort({ createdAt: -1 }).exec()]. *)
Definition find_sorted (f : Filter) (coll : Collection) : list TodoDocument.t :=
  orderByDesc TodoDocument.createdAt (List.filter (matches f) coll).

(** [todoModel.findOne(filter).exec()]: the first match or [null]. *)
Definition findOne (f : Filter) (coll : Collection) : option TodoDocument.t :=
  head (List.filter (matches f) coll).

Definition mapDocumentToEntity (doc : TodoDocument.t) : Todo.t :=
  Todo.mk (TodoDocument.cuid doc)
    (TodoDocument.title doc)
    (TodoDocument.description doc)
    (TodoDocument.completed doc)
    (Some (TodoDocument.priority doc))
    (TodoDocument.dueDate doc)
    (TodoDocument.tags doc)
    None
    (TodoDocument.createdAt doc)
    (TodoDocument.updatedAt doc).

(** [create]: the document is built from the input under the schema ([cuid]
    defaults to [createId()], [priority] to 'medium', the strings are
    trimmed, [metadata] is no path of the schema and is dropped); [save()]
    validates it and stamps both times with one clock reading. *)
Definition create (data : CreateTodoInput.t) (id : string) (now : Date)
    (coll : Collection) : Outcome RepoError (Collection * Todo.t) :=
  let created :=
    TodoDocument.mk id
      (trim (CreateTodoInput.title data))
      (trim <$> CreateTodoInput.description data)
      (default false (CreateTodoInput.completed data))
      (default "medium" (CreateTodoInput.priority data))
      (default [] (CreateTodoInput.tags data))
      (CreateTodoInput.dueDate data)
      now now in
  match firstError [validateTitle (TodoDocument.title created);
                    validateDescription (TodoDocument.description created);
                    validatePriority (TodoDocument.priority created)] with
  | Some e => Throw e
  | None => Return (coll ++ [created], mapDocumentToEntity created)
  end.

Definition findAll (coll : Collection) : list Todo.t :=
  map mapDocumentToEntity (find_sorted All coll).

Definition findById (id : string) (coll : Collection) : option Todo.t :=
  match findOne (ByCuid id) coll with
  | None => None
  | Some todo => Some (mapDocumentToEntity todo)
  end.

(** [{ $set: data }] under the schema, with the [updatedAt] stamp that
    [timestamps: true] adds to every update. *)
Definition applySet (data : UpdateTodoInput.t) (now : Date) (doc : TodoDocument.t)
    : TodoDocument.t :=
  TodoDocument.mk (TodoDocument.cuid doc)
    (from_option trim (TodoDocument.title doc) (UpdateTodoInput.title data))
    (from_option (fun d => Some (trim d)) (TodoDocument.description doc)
       (UpdateTodoInput.description data))
    (default (TodoDocument.completed doc) (UpdateTodoInput.completed data))
    (default (TodoDocument.priority doc) (UpdateTodoInput.priority data))
    (default (TodoDocument.tags doc) (UpdateTodoInput.tags data))
    (from_option Some (TodoDocument.dueDate doc) (UpdateTodoInput.dueDate data))
    (TodoDocument.createdAt doc)
    now.

(** [runValidators: true]: the validators of the paths the update sets. *)
Definition validateUpdate (data : UpdateTodoInput.t) : option RepoError :=
  firstError [from_option (fun t => validateTitle (trim t)) None
                (UpdateTodoInput.title data);
              validateDescription (trim <$> UpdateTodoInput.description data);
              from_option validatePriority None (UpdateTodoInput.priority data)].

(** Replace the first document that matches. *)
Fixpoint replaceFirst (p : TodoDocument.t -> bool)
    (f : TodoDocument.t -> TodoDocument.t) (coll : Collection) : Collection :=
  match coll with
  | [] => []
  | doc :: rest => if p doc then f doc :: rest else doc :: replaceFirst p f rest
  end.

(** Remove the first document that matches. *)
Fixpoint removeFirst (p : TodoDocument.t -> bool) (coll : Collection) : Collection :=
  match coll with
  | [] => []
  | doc :: rest => if p doc then rest else doc :: removeFirst p rest
  end.

(** [findOneAndUpdate({ cuid: id }, { $set: data }, { new: true,
    runValidators: true })]: the updated document, or [null] when none
    matches. *)
Definition findOneAndUpdate (id : string) (data : UpdateTodoInput.t) (now : Date)
    (coll : Collection) : Outcome RepoError (Collection * option TodoDocument.t) :=
  match validateUpdate data with
  | Some e => Throw e
  | None =>
      match findOne (ByCuid id) coll with
      | None => Return (coll, None)
      | Some doc =>
          Return (replaceFirst (cuidEq id) (applySet data now) coll,
                  Some (applySet data now doc))
      end
  end.

(** [findOneAndDelete({ cuid: id })]: the removed document, or [null]. *)
Definition findOneAndDelete (id : string) (coll : Collection)
    : Collection * option TodoDocument.t :=
  (removeFirst (cuidEq id) coll, findOne (ByCuid id) coll).

Definition notFoundMessage (id : string) : string :=
  "Todo with id " +:+ id +:+ " not found".

Definition update (id : string) (data : UpdateTodoInput.t) (now : Date)
    (coll : Collection) : Outcome RepoError (Collection * Todo.t) :=
  match findOneAndUpdate id data now coll with
  | Throw e => Throw e
  | Return (coll', None) => Throw (JsError (notFoundMessage id))
  | Return (coll', Some updated) => Return (coll', mapDocumentToEntity updated)
  end.

Definition delete (id : string) (coll : Collection)
    : Outcome RepoError (Collection * Todo.t) :=
  match findOneAndDelete id coll with
  | (coll', None) => Throw (JsError (notFoundMessage id))
  | (coll', Some deleted) => Return (coll', mapDocumentToEntity deleted)
  end.

Definition deleteAll (coll : Collection) : Collection := [].

Definition findByCompleted (completed : bool) (coll : Collection) : list Todo.t :=
  map mapDocumentToEntity (find_sorted (ByCompleted completed) coll).

Definition findByTags (tags : list string) (coll : Collection) : list Todo.t :=
  map mapDocumentToEntity (find_sorted (ByTagsIn tags) coll).

End Mongoose.

(** ** Zod: issues, the validation pipe and the Todo schemas *)

Module Zod.

(** Zod's issue codes, those the Todo schemas can raise. *)
Inductive IssueCode : Type :=
| invalid_type | invalid_enum_value | too_small | too_big | invalid_date.

(** The message of an issue: the one the schema gives, or Zod's own text. *)
Inductive IssueMessage : Type :=
| Custom (message : string)
| BuiltIn.

Record ZodIssue : Type := mkIssue {
  path : list string;
  message : IssueMessage;
  code : IssueCode
}.

(** What [schema.parse] can throw. *)
Inductive ParseFailure : Type :=
| ZodError (issues : list ZodIssue)
| OtherError.

End Zod.

(** *** ZodValidationPipe (zod-validation.pipe.ts) *)

Module ZodValidationPipe.
Import Zod.

(** Nest's [Paramtype]. *)
Inductive Paramtype : Type := body | query | param | custom.

#[global] Instance Paramtype_eq_dec : EqDecision Paramtype.
Proof. solve_decision. Defined.

Record ArgumentMetadata : Type := mkMetadata {
  type : Paramtype;
  data : option string
}.

Record FormattedError : Type := mkFormatted {
  field : string;
  errMessage : IssueMessage;
  errCode : IssueCode
}.

Inductive BadRequestException : Type :=
| BadRequestObject (message : string) (errors : list FormattedError) (statusCode : Z)
| BadRequestText (message : string).

(** What [transform] hands on: the value it was given, or the schema's
    output. *)
Inductive Transformed (V P : Type) : Type :=
| Untouched (value : V)
| Parsed (parsedValue : P).
Arguments Untouched {V P} value.
Arguments Parsed {V P} parsedValue.

Section Pipe.
Context {V P : Type}.
(** [this.schema.parse]. *)
Variable schema_parse : V -> Outcome ParseFailure P.

Definition formatIssue (err : ZodIssue) : FormattedError :=
  mkFormatted (join "." (path err)) (message err) (code err).

Definition transform (value : V) (metadata : ArgumentMetadata)
    : Outcome BadRequestException (Transformed V P) :=
  if negb (bool_decide (type metadata = body)) then Return (Untouched value)
  else
    match schema_parse value with
    | Return parsedValue => Return (Parsed parsedValue)
    | Throw (ZodError issues) =>
        Throw (BadRequestObject "Validation failed" (map formatIssue issues) 400)
    | Throw OtherError => Throw (BadRequestText "Validation failed")
    end.

End Pipe.

(** A schema that rejects every value. *)
Definition rejectAll (value : Json) : Outcome ParseFailure Json :=
  Throw (ZodError [mkIssue [] BuiltIn invalid_type]).

End ZodValidationPipe.

(** *** CreateTodoSchema (todo-schemas.ts) *)

Module CreateTodoDto.
Record t : Type := mk {
  title : string;
  description : option string;
  completed : bool;
  priority : string;
  dueDate : option Date;
  tags : list string;
  metadata : option Metadata
}.

(** A parsed body is passed on as a [CreateTodoInput]. *)
Definition asInput (dto : t) : CreateTodoInput.t :=
  CreateTodoInput.mk (title dto) (description dto) (Some (completed dto))
    (Some (priority dto)) (dueDate dto) (Some (tags dto)) (metadata dto).
End CreateTodoDto.

Module TodoSchemas.
Import Zod.

(** The value of a key of an object, [undefined] when the key is absent
    (the keys of an object are distinct). *)
Fixpoint getField (key : string) (entries : list (string * Json)) : option Json :=
  match entries with
  | [] => None
  | (k, v) :: rest => if bool_decide (k = key) then Some v else getField key rest
  end.

Definition Parser (A : Type) : Type := Outcome (list ZodIssue) A.

Definition issuesOf {A} (r : Parser A) : list ZodIssue :=
  match r with
  | Throw issues => issues
  | Return _ => []
  end.

Definition fail {A} (p : list string) (m : IssueMessage) (c : IssueCode) : Parser A :=
  Throw [mkIssue p m c].

(** [z.string().min(1, ...).max(200, ...)].  (Lengths are counted on the
    string as held here.) *)
Definition parseTitle (v : option Json) : Parser string :=
  match v with
  | Some (JString s) =>
      if (String.length s <? 1)%nat then
        fail ["title"] (Custom "Title is required") too_small
      else if (200 <? String.length s)%nat then
        fail ["title"] (Custom "Title must be less than 200 characters") too_big
      else Return s
  | _ => fail ["title"] BuiltIn invalid_type
  end.

(** [z.string().max(1000, ...).optional()]. *)
Definition parseDescription (v : option Json) : Parser (option string) :=
  match v with
  | None => Return None
  | Some (JString s) =>
      if (1000 <? String.length s)%nat then
        fail ["description"]
             (Custom "Description must be less than 1000 characters") too_big
      else Return (Some s)
  | Some _ => fail ["description"] BuiltIn invalid_type
  end.

(** [z.boolean().default(false)]. *)
Definition parseCompleted (v : option Json) : Parser bool :=
  match v with
  | None => Return false
  | Some (JBool b) => Return b
  | Some _ => fail ["completed"] BuiltIn invalid_type
  end.

(** [z.enum(['low', 'medium', 'high']).default('medium')]. *)
Definition parsePriority (v : option Json) : Parser string :=
  match v with
  | None => Return "medium"
  | Some (JString s) =>
      if arrayIncludes ["low"; "medium"; "high"] s then Return s
      else fail ["priority"] BuiltIn invalid_enum_value
  | Some _ => fail ["priority"] BuiltIn invalid_type
  end.

(** [z.array(z.string())]: one issue per element that is no string. *)
Definition parseTagItems (items : list Json) : Parser (list string) :=
  let issues :=
    flat_map (fun '(i, v) =>
                match v with
                | JString _ => []
                | _ => [mkIssue ["tags"; pretty (i : nat)] BuiltIn invalid_type]
                end)
             (imap pair items) in
  match issues with
  | [] => Return (omap (fun v => match v with JString s => Some s | _ => None end)
                       items)
  | _ => Throw issues
  end.

(** [z.array(z.string()).default([])]. *)
Definition parseTags (v : option Json) : Parser (list string) :=
  match v with
  | None => Return []
  | Some (JArray items) => parseTagItems items
  | Some _ => fail ["tags"] BuiltIn invalid_type
  end.

(** [z.record(z.string(), z.any()).optional()]. *)
Definition parseMetadata (v : option Json) : Parser (option Metadata) :=
  match v with
  | None => Return None
  | Some (JObject entries) => Return (Some entries)
  | Some _ => fail ["metadata"] BuiltIn invalid_type
  end.

Section Schemas.
(** [new Date(value)], when that is a valid date. *)
Variable coerceDate : Json -> option Date.

(** [z.coerce.date().optional()]. *)
Definition parseDueDate (v : option Json) : Parser (option Date) :=
  match v with
  | None => Return None
  | Some j =>
      match coerceDate j with
      | Some d => Return (Some d)
      | None => fail ["dueDate"] BuiltIn invalid_date
      end
  end.

(** [CreateTodoSchema.parse]: every key of the shape is parsed, unknown keys
    are dropped, and the issues of all keys are reported together. *)
Definition CreateTodoSchema_parse (value : Json)
    : Outcome ParseFailure CreateTodoDto.t :=
  match value with
  | JObject entries =>
      let title := parseTitle (getField "title" entries) in
      let description := parseDescription (getField "description" entries) in
      let completed := parseCompleted (getField "completed" entries) in
      let priority := parsePriority (getField "priority" entries) in
      let dueDate := parseDueDate (getField "dueDate" entries) in
      let tags := parseTags (getField "tags" entries) in
      let metadata := parseMetadata (getField "metadata" entries) in
      match title, description, completed, priority, dueDate, tags, metadata with
      | Return t, Return d, Return c, Return p, Return dd, Return tg, Return m =>
          Return (CreateTodoDto.mk t d c p dd tg m)
      | _, _, _, _, _, _, _ =>
          Throw (ZodError (issuesOf title ++ issuesOf description ++
                           issuesOf completed ++ issuesOf priority ++
                           issuesOf dueDate ++ issuesOf tags ++
                           issuesOf metadata))
      end
  | _ => Throw (ZodError [mkIssue [] BuiltIn invalid_type])
  end.

End Schemas.

(** The body omits [key]. *)
Definition omits (key : string) (value : Json) : Prop :=
  match value with
  | JObject entries => getField key entries = None
  | _ => True
  end.

(** The metadata Nest gives the pipe for a [@Body()] argument. *)
Definition bodyArgument : ZodValidationPipe.ArgumentMetadata :=
  ZodValidationPipe.mkMetadata ZodValidationPipe.body None.

End TodoSchemas.

(** ** UnifiedErrorTrackingService (common/error-tracking) *)

Module ErrorTracking.
Import FeatureFlags.

(** A JavaScript [Error], by its message; and a thrown value. *)
Definition Error : Type := string.
Definition Thrown : Type := string.

(** The three injected services. *)
Inductive ServiceId : Type := Bugsnag | Sentry | PostHog.

(** What a call observably does: lines on the Nest logger (with the extra
    argument of [logger.error], if any) and calls forwarded to an injected
    service. *)
Inductive Event : Type :=
| Log (lv : LogLevel) (message : string) (detail : option Thrown)
| CaptureException (service : ServiceId) (error : Error)
                   (metadata : option Metadata).

(** [IErrorTrackingService], as far as [captureException] uses it: the call
    returns ([None]) or throws a value. *)
Record IErrorTrackingService : Type := mkService {
  captureException_impl : Error -> option Metadata -> option Thrown
}.

Section Unified.
Variables bugsnagService sentryService postHogService : IErrorTrackingService.

Definition service (s : ServiceId) : IErrorTrackingService :=
  match s with
  | Bugsnag => bugsnagService
  | Sentry => sentryService
  | PostHog => postHogService
  end.

(** The service object: its [activeService] field. *)
Record UnifiedErrorTrackingService : Type := mkUnified {
  activeService : option ServiceId
}.

(** [initializeService], run by the constructor: the events and the value of
    [activeService] it leaves. *)
Definition initializeService (featureFlags : FeatureFlagsConfig)
    : list Event * option ServiceId :=
  if negb (isErrorTrackingEnabled featureFlags) then
    ([Log LogInfo "Error tracking is disabled via feature flags" None], None)
  else
    let provider := getErrorTrackingProvider featureFlags in
    let initialized :=
      Log LogInfo ("Initialized error tracking with provider: " +:+ provider) None in
    if bool_decide (provider = ErrorTrackingProvider.BUGSNAG) then
      ([initialized], Some Bugsnag)
    else if bool_decide (provider = ErrorTrackingProvider.SENTRY) then
      ([initialized], Some Sentry)
    else if bool_decide (provider = ErrorTrackingProvider.POSTHOG) then
      ([initialized], Some PostHog)
    else
      ([Log LogInfo "No error tracking provider configured" None], None).

Definition UnifiedErrorTrackingService_new (featureFlags : FeatureFlagsConfig)
    : list Event * UnifiedErrorTrackingService :=
  let '(events, active) := initializeService featureFlags in
  (events, mkUnified active).

(** [captureException]: the events of the call and how it ends. *)
Definition captureException (this : UnifiedErrorTrackingService)
    (error : Error) (metadata : option Metadata)
    : list Event * Outcome Thrown unit :=
  match activeService this with
  | None =>
      ([Log LogDebug "No error tracking service available" None], Return tt)
  | Some s =>
      match captureException_impl (service s) error metadata with
      | None => ([CaptureException s error metadata], Return tt)
      | Some err =>
          ([CaptureException s error metadata;
            Log LogError "Failed to capture exception:" (Some err)],
           Return tt)
      end
  end.

End Unified.

(** How a call ended. *)
Definition outcome_of {A} (r : list Event * Outcome Thrown A) : Outcome Thrown A :=
  snd r.

(** Whether the events forward anything to an injected service. *)
Definition forwards (events : list Event) : bool :=
  existsb (fun e => match e with CaptureException _ _ _ => true | _ => false end)
          events.

(** A service whose [captureException] always throws. *)
Definition failingService : IErrorTrackingService :=
  mkService (fun _ _ => Some "network down").

End ErrorTracking.

(** ** Vocabulary for the statements about the repositories *)

(** The records of a Mongoose collection, as the repository exposes them. *)
Definition records (coll : Mongoose.Collection) : list Todo.t :=
  map Mongoose.mapDocumentToEntity coll.


(** The created Todo carries the default of each field the body omitted. *)
Definition defaultsFilled (body : Json) (todo : Todo.t) : Prop :=
  (TodoSchemas.omits "completed" body -> Todo.completed todo = false) /\
  (TodoSchemas.omits "priority" body -> Todo.priority todo = Some "medium") /\
  (TodoSchemas.omits "tags" body -> Todo.tags todo = []).

(** *** Sample data *)

Module Samples.

Definition older : Todo.t :=
  Todo.mk "a" "Write report" None false (Some "medium") None ["work"] None
          1000 1000.

Definition newer : Todo.t :=
  Todo.mk "b" "Buy milk" None false (Some "low") None ["home"; "shop"] None
          2000 2000.

Definition olderDoc : TodoDocument.t :=
  TodoDocument.mk "a" "Write report" None false "medium" ["work"] None 1000 1000.

Definition newerDoc : TodoDocument.t :=
  TodoDocument.mk "b" "Buy milk" None false "low" ["home"; "shop"] None 2000 2000.

(** [{ "title": "Learn X" }]. *)
Definition titleOnly : Json := JObject [("title", JString "Learn X")].

Definition titleOnlyDto : CreateTodoDto.t :=
  CreateTodoDto.mk "Learn X" None false "medium" None [] None.

(** [{ "title": "   " }]. *)
Definition blankTitle : Json := JObject [("title", JString "   ")].

(** A date coercion that accepts epoch numbers only. *)
Definition epochOnly (value : Json) : option Date :=
  match value with
  | JNumber n => Some n
  | _ => None
  end.

End Samples.

(** ** JavaScript objects: own and inherited properties *)

(** The members every plain object inherits from [Object.prototype]. *)
Definition OBJECT_PROTOTYPE_MEMBERS : list string :=
  ["constructor"; "__proto__"; "hasOwnProperty"; "isPrototypeOf";
   "propertyIsEnumerable"; "toLocaleString"; "toString"; "valueOf";
   "__defineGetter__"; "__defineSetter__"; "__lookupGetter__";
   "__lookupSetter__"].

(** What [object[key]] evaluates to on a plain object. *)
Inductive Property (A : Type) : Type :=
| Own (value : A)
| Inherited (name : string)
| Absent.
Arguments Own {A} value.
Arguments Inherited {A} name.
Arguments Absent {A}.

(** The own property of that name, first entry first. *)
Fixpoint ownProperty {A} (own : list (string * A)) (key : string) : option A :=
  match own with
  | [] => None
  | (k, v) :: rest => if bool_decide (k = key) then Some v else ownProperty rest key
  end.

Definition getProperty {A} (own : list (string * A)) (key : string) : Property A :=
  match ownProperty own key with
  | Some v => Own v
  | None =>
      if arrayIncludes OBJECT_PROTOTYPE_MEMBERS key then Inherited key else Absent
  end.

(** ** FeatureFlagsService: accessors and checkers (feature-flags.config.ts) *)

Module FeatureFlagsService.
Import FeatureFlags.

(** [getConfig]: a copy of the configuration. *)
Definition getConfig (config : FeatureFlagsConfig) : FeatureFlagsConfig :=
  mkConfig (database config) (errorTracking config) (auth config) (cache config)
           (documentation config) (logging config) (performance config).

Definition getDatabaseProvider (config : FeatureFlagsConfig) : string :=
  database config.
Definition getAuthProvider (config : FeatureFlagsConfig) : string := auth config.
Definition getCacheProvider (config : FeatureFlagsConfig) : string := cache config.
Definition getDocumentationProvider (config : FeatureFlagsConfig) : string :=
  documentation config.
Definition getLoggingProvider (config : FeatureFlagsConfig) : string :=
  logging config.
Definition getPerformanceProvider (config : FeatureFlagsConfig) : string :=
  performance config.

Definition isCacheEnabled (config : FeatureFlagsConfig) : bool :=
  negb (bool_decide (cache config = CacheProvider.NONE)).
Definition isDocumentationEnabled (config : FeatureFlagsConfig) : bool :=
  negb (bool_decide (documentation config = DocumentationProvider.NONE)).
Definition isAuthEnabled (config : FeatureFlagsConfig) : bool :=
  negb (bool_decide (auth config = AuthProvider.NONE)).
Definition isLoggingEnabled (config : FeatureFlagsConfig) : bool :=
  negb (bool_decide (logging config = LoggingProvider.NONE)).
Definition isPerformanceEnabled (config : FeatureFlagsConfig) : bool :=
  negb (bool_decide (performance config = PerformanceProvider.NONE)).

Definition isThrottlingEnabled (config : FeatureFlagsConfig) : bool :=
  arrayIncludes [PerformanceProvider.BASIC; PerformanceProvider.FULL]
                (performance config).
Definition isCompressionEnabled (config : FeatureFlagsConfig) : bool :=
  arrayIncludes [PerformanceProvider.BASIC; PerformanceProvider.FULL]
                (performance config).
Definition isBenchmarkingEnabled (config : FeatureFlagsConfig) : bool :=
  bool_decide (performance config = PerformanceProvider.FULL).

Definition isBearerAuthEnabled (config : FeatureFlagsConfig) : bool :=
  arrayIncludes [AuthProvider.COMPOSITE; AuthProvider.BEARER_ONLY] (auth config).
Definition isApiKeyAuthEnabled (config : FeatureFlagsConfig) : bool :=
  arrayIncludes [AuthProvider.COMPOSITE; AuthProvider.API_KEY_ONLY] (auth config).

Definition isDetailedLoggingEnabled (config : FeatureFlagsConfig) : bool :=
  bool_decide (logging config = LoggingProvider.DETAILED).
Definition isRequestLoggingEnabled (config : FeatureFlagsConfig) : bool :=
  bool_decide (logging config = LoggingProvider.DETAILED).

(** [PROVIDER_DESCRIPTIONS] (feature-providers.enum.ts), in source order. *)
Definition PROVIDER_DESCRIPTIONS : list (string * string) :=
  [("prisma-postgresql", "Prisma ORM with PostgreSQL database");
   ("drizzle-postgresql", "Drizzle ORM with PostgreSQL database");
   ("mongoose-mongodb", "Mongoose ODM with MongoDB database");
   ("bugsnag", "Bugsnag error monitoring and tracking");
   ("sentry", "Sentry error monitoring with performance insights");
   ("posthog", "PostHog analytics with error tracking");
   ("error-tracking-none", "No error tracking enabled");
   ("composite", "Multiple authentication methods (Bearer + API Key)");
   ("bearer-only", "JWT Bearer token authentication only");
   ("api-key-only", "API key authentication only");
   ("auth-none", "No authentication required");
   ("redis", "Redis-based caching system");
   ("memory", "In-memory caching system");
   ("cache-none", "No caching enabled");
   ("swagger", "Swagger/OpenAPI documentation");
   ("documentation-none", "No API documentation");
   ("detailed", "Detailed logging with request/response data");
   ("logging-basic", "Basic error and warning logging");
   ("logging-none", "No application logging");
   ("full", "All performance features (Throttling + Compression + Benchmarking)");
   ("performance-basic", "Basic performance features (Throttling + Compression)");
   ("performance-none", "No performance optimizations")].

(** What [getProviderDescription] returns: a text, or, for a name every
    object inherits, that inherited member. *)
Inductive Described : Type :=
| Text (text : string)
| Member (name : string).

Definition unknownProvider (provider : string) : string :=
  "Unknown provider: " +:+ provider.

(** [PROVIDER_DESCRIPTIONS[provider] || `Unknown provider: ${provider}`]. *)
Definition getProviderDescription (provider : string) : Described :=
  match getProperty PROVIDER_DESCRIPTIONS provider with
  | Own text =>
      if truthyStr text then Text text else Text (unknownProvider provider)
  | Inherited name => Member name
  | Absent => Text (unknownProvider provider)
  end.

(** The configuration holds a legal value for each of the seven features. *)
Definition legalConfig (config : FeatureFlagsConfig) : Prop :=
  database config ∈ VALID_PROVIDERS.DATABASE /\
  errorTracking config ∈ VALID_PROVIDERS.ERROR_TRACKING /\
  auth config ∈ VALID_PROVIDERS.AUTH /\
  cache config ∈ VALID_PROVIDERS.CACHE /\
  documentation config ∈ VALID_PROVIDERS.DOCUMENTATION /\
  logging config ∈ VALID_PROVIDERS.LOGGING /\
  performance config ∈ VALID_PROVIDERS.PERFORMANCE.

(** Everything set so that the construction succeeds on the defaults. *)
Definition completeEnv : Env :=
  {[ "DATABASE_URL" := "postgresql://localhost:5432/todos";
     "REDIS_HOST" := "localhost" ]}.

End FeatureFlagsService.

(** ** FeatureValidationMiddleware *)

Module FeatureValidationMiddleware.
Import FeatureFlags.

(** One [if] of [validateFeatureConfiguration]. *)
Definition invalidProvider (label : string) (valid : list string) (value : string)
    : list string :=
  if negb (arrayIncludes valid value) then
    ["Invalid " +:+ label +:+ " provider: " +:+ value]
  else [].

(** The [errors] array of [validateFeatureConfiguration]. *)
Definition configurationErrors (config : FeatureFlagsConfig) : list string :=
  invalidProvider "database" VALID_PROVIDERS.DATABASE (database config) ++
  invalidProvider "error tracking" VALID_PROVIDERS.ERROR_TRACKING
                  (errorTracking config) ++
  invalidProvider "auth" VALID_PROVIDERS.AUTH (auth config) ++
  invalidProvider "cache" VALID_PROVIDERS.CACHE (cache config) ++
  invalidProvider "documentation" VALID_PROVIDERS.DOCUMENTATION
                  (documentation config) ++
  invalidProvider "logging" VALID_PROVIDERS.LOGGING (logging config) ++
  invalidProvider "performance" VALID_PROVIDERS.PERFORMANCE (performance config).

(** [validateFeatureConfiguration]: throws [new Error(errors.join('; '))]. *)
Definition validateFeatureConfiguration (config : FeatureFlagsConfig)
    : Outcome string unit :=
  let errors := configurationErrors (FeatureFlagsService.getConfig config) in
  if (0 <? Z.of_nat (length errors))%Z then Throw (join "; " errors)
  else Return tt.

(** [use(req, res, next)].  [next] is the rest of the request pipeline: it
    returns ([None]) or throws an error with a message.  The result is the
    configuration attached to the request, or the [BadRequestException]
    message. *)
Definition use (config : FeatureFlagsConfig) (next : FeatureFlagsConfig -> option string)
    : Logged string FeatureFlagsConfig :=
  let caught (message : string) : Logged string FeatureFlagsConfig :=
    do! logLine LogError ("Feature validation failed: " +:+ message) in
    throw ("Feature configuration error: " +:+ message) in
  match validateFeatureConfiguration config with
  | Throw message => caught message
  | Return _ =>
      let featureFlags := FeatureFlagsService.getConfig config in
      match next featureFlags with
      | Some message => caught message
      | None => ret featureFlags
      end
  end.

Record FeatureRequirement : Type := mkRequirement {
  feature : string;
  allowedProviders : list string;
  errorMessage : option string
}.

(** [`${currentProvider}`]: the text of the looked-up property;
    [memberText] is the text JavaScript gives an inherited member. *)
Definition currentText (memberText : string -> string) (current : Property string)
    : string :=
  match current with
  | Own value => value
  | Inherited name => memberText name
  | Absent => "undefined"
  end.

(** [allowedProviders.includes(currentProvider)]: only an own string value
    can be among the allowed providers. *)
Definition isAllowed (allowed : list string) (current : Property string) : bool :=
  match current with
  | Own value => arrayIncludes allowed value
  | _ => false
  end.

Section ForFeatures.
Variable memberText : string -> string.

Definition requirementErrors (featureFlags : FeatureFlagsConfig)
    (requirement : FeatureRequirement) : list string :=
  let currentProvider := getProperty (entries featureFlags) (feature requirement) in
  if negb (isAllowed (allowedProviders requirement) currentProvider) then
    let errorMsg :=
      match errorMessage requirement with
      | Some message =>
          if truthyStr message then message
          else "Feature " +:+ dquote +:+ feature requirement +:+ dquote +:+
               " must be one of: " +:+ join ", " (allowedProviders requirement) +:+
               ". Current: " +:+ currentText memberText currentProvider
      | None =>
          "Feature " +:+ dquote +:+ feature requirement +:+ dquote +:+
          " must be one of: " +:+ join ", " (allowedProviders requirement) +:+
          ". Current: " +:+ currentText memberText currentProvider
      end in
    [errorMsg]
  else [].

(** The middleware [forFeatures(requirements)] returns, applied to a request
    whose [featureFlags] property is as given: it calls [next()] ([Return])
    or throws a [BadRequestException] with a message. *)
Definition forFeatures (requirements : list FeatureRequirement)
    (featureFlags : option FeatureFlagsConfig) : Outcome string unit :=
  match featureFlags with
  | None => Throw "Feature flags not available in request context"
  | Some featureFlags =>
      let errors := flat_map (requirementErrors featureFlags) requirements in
      if (0 <? Z.of_nat (length errors))%Z then
        Throw ("Feature requirements not met: " +:+ join "; " errors)
      else Return tt
  end.

(** An argument that is one provider or an array of providers. *)
Inductive Providers : Type :=
| One (provider : string)
| Many (providers : list string).

(** [Array.isArray(providers) ? providers : [providers]]. *)
Definition asArray (providers : Providers) : list string :=
  match providers with
  | One provider => [provider]
  | Many providers => providers
  end.

(** Truthiness of the optional argument: a missing argument and the empty
    string are falsy, every array is truthy. *)
Definition given (providers : option Providers) : option Providers :=
  match providers with
  | Some (One provider) => if truthyStr provider then providers else None
  | _ => providers
  end.

Definition orDefault (providers : option Providers) (defaults : list string)
    : list string :=
  match given providers with
  | Some providers => asArray providers
  | None => defaults
  end.

Definition requireDatabase (providers : Providers)
    : option FeatureFlagsConfig -> Outcome string unit :=
  let allowedProviders := asArray providers in
  forFeatures
    [mkRequirement "database" allowedProviders
       (Some ("This endpoint requires database provider to be one of: " +:+
              join ", " allowedProviders))].

Definition requireAuth (providers : option Providers)
    : option FeatureFlagsConfig -> Outcome string unit :=
  forFeatures
    [mkRequirement "auth"
       (orDefault providers
          [AuthProvider.COMPOSITE; AuthProvider.BEARER_ONLY;
           AuthProvider.API_KEY_ONLY])
       (Some "This endpoint requires authentication to be enabled")].

Definition requireCache (providers : option Providers)
    : option FeatureFlagsConfig -> Outcome string unit :=
  forFeatures
    [mkRequirement "cache"
       (orDefault providers [CacheProvider.REDIS; CacheProvider.MEMORY])
       (Some "This endpoint requires caching to be enabled")].

Definition requireErrorTracking (providers : option Providers)
    : option FeatureFlagsConfig -> Outcome string unit :=
  forFeatures
    [mkRequirement "errorTracking"
       (orDefault providers
          [ErrorTrackingProvider.BUGSNAG; ErrorTrackingProvider.SENTRY;
           ErrorTrackingProvider.POSTHOG])
       (Some "This endpoint requires error tracking to be enabled")].

Definition requirePerformance (providers : option Providers)
    : option FeatureFlagsConfig -> Outcome string unit :=
  forFeatures
    [mkRequirement "performance"
       (orDefault providers [PerformanceProvider.BASIC; PerformanceProvider.FULL])
       (Some "This endpoint requires performance features to be enabled")].

End ForFeatures.

(** The requirement is met by the configuration. *)
Definition met (featureFlags : FeatureFlagsConfig) (requirement : FeatureRequirement)
    : Prop :=
  exists value,
    ownProperty (entries featureFlags) (feature requirement) = Some value /\
    value ∈ allowedProviders requirement.

End FeatureValidationMiddleware.

(** ** Repository selection (repository.provider.ts, repository.factory.ts) *)

Module RepositoryProvider.
Import FeatureFlags.

Section Factory.
Context {T : Type}.

(** The repository classes given to the factory; a class that is not given
    is [undefined]. *)
Record RepositoryProviderOptions : Type := mkOptions {
  prismaRepository : option T;
  drizzleRepository : option T;
  mongooseRepository : option T
}.

(** [useFactory] of [createRepositoryProvider]: the [switch] on the database
    provider.  An instance is represented by its class. *)
Definition useFactory (options : RepositoryProviderOptions)
    (databaseProvider : string) : Outcome string T :=
  if bool_decide (databaseProvider = DatabaseProvider.PRISMA_POSTGRESQL) then
    match prismaRepository options with
    | None => Throw "Prisma repository not provided but required for prisma-postgresql provider"
    | Some repository => Return repository
    end
  else if bool_decide (databaseProvider = DatabaseProvider.DRIZZLE_POSTGRESQL) then
    match drizzleRepository options with
    | None => Throw "Drizzle repository not provided but required for drizzle-postgresql provider"
    | Some repository => Return repository
    end
  else if bool_decide (databaseProvider = DatabaseProvider.MONGOOSE_MONGODB) then
    match mongooseRepository options with
    | None => Throw "Mongoose repository not provided but required for mongoose-mongodb provider"
    | Some repository => Return repository
    end
  else Throw ("Unknown database provider: " +:+ databaseProvider).

(** [RepositoryFactoryService.createRepository]: the same [switch], on the
    injected provider. *)
Definition createRepository (databaseProvider : string)
    (prismaRepo drizzleRepo mongooseRepo : option T) : Outcome string T :=
  if bool_decide (databaseProvider = DatabaseProvider.PRISMA_POSTGRESQL) then
    match prismaRepo with
    | None => Throw "Prisma repository not provided but required for prisma-postgresql provider"
    | Some repository => Return repository
    end
  else if bool_decide (databaseProvider = DatabaseProvider.DRIZZLE_POSTGRESQL) then
    match drizzleRepo with
    | None => Throw "Drizzle repository not provided but required for drizzle-postgresql provider"
    | Some repository => Return repository
    end
  else if bool_decide (databaseProvider = DatabaseProvider.MONGOOSE_MONGODB) then
    match mongooseRepo with
    | None => Throw "Mongoose repository not provided but required for mongoose-mongodb provider"
    | Some repository => Return repository
    end
  else Throw ("Unknown database provider: " +:+ databaseProvider).

End Factory.

(** The three repository classes of the Todos module. *)
Inductive TodoRepositoryClass : Type :=
| PrismaTodoRepository | DrizzleTodoRepository | MongooseTodoRepository.

(** The options [TodosModule] passes: all three classes. *)
Definition todoRepositoryOptions : RepositoryProviderOptions :=
  mkOptions (Some PrismaTodoRepository) (Some DrizzleTodoRepository)
            (Some MongooseTodoRepository).

(** The class that belongs to a database provider. *)
Definition classOf (databaseProvider : string) : option TodoRepositoryClass :=
  if bool_decide (databaseProvider = "prisma-postgresql") then Some PrismaTodoRepository
  else if bool_decide (databaseProvider = "drizzle-postgresql") then
    Some DrizzleTodoRepository
  else if bool_decide (databaseProvider = "mongoose-mongodb") then
    Some MongooseTodoRepository
  else None.

End RepositoryProvider.

(** ** ApiError (api-error.ts) *)

Module ApiError.

(** The codes of [ErrorCode] that api-error.ts uses (error-codes.ts itself
    is not among the sources). *)
Inductive ErrorCode : Type :=
| NOT_FOUND | UNAUTHORIZED | FORBIDDEN | VALIDATION_ERROR
| INTERNAL_SERVER_ERROR | TODO_NOT_FOUND.

(** Nest's [HttpStatus]. *)
Module HttpStatus.
Definition BAD_REQUEST : Z := 400.
Definition UNAUTHORIZED : Z := 401.
Definition FORBIDDEN : Z := 403.
Definition NOT_FOUND : Z := 404.
Definition INTERNAL_SERVER_ERROR : Z := 500.
End HttpStatus.

(** An [ApiError]: the code, message and details of its response body, the
    HTTP status, and the time its [timestamp] denotes. *)
Record t : Type := mk {
  code : ErrorCode;
  message : string;
  statusCode : Z;
  details : option Json;
  timestamp : Date
}.

Definition notFound (message : option string) (details : option Json) (now : Date) : t :=
  mk NOT_FOUND (default "Resource not found" message) HttpStatus.NOT_FOUND details now.

Definition unauthorized (message : option string) (details : option Json) (now : Date) : t :=
  mk UNAUTHORIZED (default "Unauthorized" message) HttpStatus.UNAUTHORIZED details now.

Definition forbidden (message : option string) (details : option Json) (now : Date) : t :=
  mk FORBIDDEN (default "Forbidden" message) HttpStatus.FORBIDDEN details now.

Definition validation (message : option string) (details : option Json) (now : Date) : t :=
  mk VALIDATION_ERROR (default "Validation failed" message) HttpStatus.BAD_REQUEST
     details now.

Definition internal (message : option string) (details : option Json) (now : Date) : t :=
  mk INTERNAL_SERVER_ERROR (default "Internal server error" message)
     HttpStatus.INTERNAL_SERVER_ERROR details now.

Definition todoNotFound (id : string) (now : Date) : t :=
  mk TODO_NOT_FOUND ("Todo with ID " +:+ id +:+ " not found") HttpStatus.NOT_FOUND
     (Some (JObject [("todoId", JString id)])) now.

End ApiError.

(** ** ITodoRepository, TodosService, TodosController *)

(** [String.prototype.split(',')]: the pieces between the commas; the empty
    string gives one empty piece. *)
Fixpoint splitComma (s : string) : list string :=
  match s with
  | EmptyString => [EmptyString]
  | String c rest =>
      if bool_decide (c = ","%char) then EmptyString :: splitComma rest
      else
        match splitComma rest with
        | piece :: pieces => String c piece :: pieces
        | [] => [String c EmptyString]
        end
  end.

Module Todos.

(** What a controller method can throw: the [ApiError] of the controller or
    the rejection of the repository. *)
Inductive Failure : Type :=
| Api (error : ApiError.t)
| Repository (error : RepoError).

Section Service.
Context {Store : Type}.

(** [ITodoRepository], over the store a repository works on.  A call
    resolves with the store it leaves and its value ([undefined] included),
    or rejects. *)
Record ITodoRepository : Type := mkRepository {
  repo_create : CreateTodoInput.t -> string -> Date -> Date -> Store ->
                Outcome RepoError (Store * option Todo.t);
  repo_findAll : Store -> list Todo.t;
  repo_findById : string -> Store -> option Todo.t;
  repo_update : string -> UpdateTodoInput.t -> Date -> Store ->
                Outcome RepoError (Store * option Todo.t);
  repo_delete : string -> Store -> Outcome RepoError (Store * option Todo.t);
  repo_deleteAll : Store -> Store;
  repo_findByCompleted : bool -> Store -> list Todo.t;
  repo_findByTags : list string -> Store -> list Todo.t
}.

Variable todoRepository : ITodoRepository.

(** [TodosService]: every method hands its arguments to the repository. *)
Definition service_findById (id : string) (store : Store) : option Todo.t :=
  repo_findById todoRepository id store.
Definition service_findAll (store : Store) : list Todo.t :=
  repo_findAll todoRepository store.
Definition service_findByCompleted (completed : bool) (store : Store) : list Todo.t :=
  repo_findByCompleted todoRepository completed store.
Definition service_findByTags (tags : list string) (store : Store) : list Todo.t :=
  repo_findByTags todoRepository tags store.
Definition service_delete (id : string) (store : Store)
    : Outcome RepoError (Store * option Todo.t) :=
  repo_delete todoRepository id store.
Definition service_update (id : string) (data : UpdateTodoInput.t) (now : Date)
    (store : Store) : Outcome RepoError (Store * option Todo.t) :=
  repo_update todoRepository id data now store.

(** [TodosController.findCompleted]: [status] defaults to ['true']. *)
Definition findCompleted (status : option string) (store : Store) : list Todo.t :=
  let status := default "true" status in
  let completed := bool_decide (status = "true") in
  service_findByCompleted completed store.

(** [TodosController.findByTags]: the comma-separated query, trimmed piece
    by piece; a missing or empty query gives no tag. *)
Definition tagArray (tags : option string) : list string :=
  match tags with
  | Some tags =>
      if FeatureFlags.truthyStr tags then map trim (splitComma tags) else []
  | None => []
  end.

Definition findByTags (tags : option string) (store : Store) : list Todo.t :=
  service_findByTags (tagArray tags) store.

(** [TodosController.findOne]; [now] is the clock reading an [ApiError]
    would be stamped with. *)
Definition findOne (id : string) (now : Date) (store : Store)
    : Outcome Failure Todo.t :=
  match service_findById id store with
  | None => Throw (Api (ApiError.todoNotFound id now))
  | Some todo => Return todo
  end.

(** [TodosController.remove]. *)
Definition remove (id : string) (store : Store)
    : Outcome Failure (Store * option Todo.t) :=
  match service_delete id store with
  | Throw e => Throw (Repository e)
  | Return result => Return result
  end.

End Service.

(** The part of a resolved call the interface shows. *)
Definition resolved {Store} (result : Outcome RepoError (Store * Todo.t))
    : Outcome RepoError (Store * option Todo.t) :=
  match result with
  | Throw e => Throw e
  | Return (store, todo) => Return (store, Some todo)
  end.

(** The three repositories behind the interface. *)
Definition prismaTodoRepository : @ITodoRepository Prisma.Table :=
  mkRepository
    (fun data id createdNow updatedNow table =>
       let '(table', created) := Prisma.create data id createdNow updatedNow table in
       Return (table', Some created))
    Prisma.findAll Prisma.findById
    (fun id data now table => resolved (Prisma.update id data now table))
    (fun id table => resolved (Prisma.delete id table))
    Prisma.deleteAll Prisma.findByCompleted Prisma.findByTags.

Definition drizzleTodoRepository : @ITodoRepository Drizzle.Table :=
  mkRepository
    (fun data id createdNow updatedNow table =>
       Return (Drizzle.create data id createdNow updatedNow table))
    Drizzle.findAll Drizzle.findById
    (fun id data now table => Return (Drizzle.update id data now table))
    (fun id table => Return (Drizzle.delete id table))
    Drizzle.deleteAll Drizzle.findByCompleted Drizzle.findByTags.

Definition mongooseTodoRepository : @ITodoRepository Mongoose.Collection :=
  mkRepository
    (fun data id createdNow _ coll => resolved (Mongoose.create data id createdNow coll))
    Mongoose.findAll Mongoose.findById
    (fun id data now coll => resolved (Mongoose.update id data now coll))
    (fun id coll => resolved (Mongoose.delete id coll))
    Mongoose.deleteAll Mongoose.findByCompleted Mongoose.findByTags.

End Todos.

(** ** Authentication guards (api-key.guard.ts, bearer-token.guard.ts,
       composite-auth.guard.ts) *)

(** [String.prototype.slice(n)]: the string without its first [n]
    characters. *)
Fixpoint sliceFrom (n : nat) (s : string) : string :=
  match n, s with
  | O, _ => s
  | S n', String _ rest => sliceFrom n' rest
  | S _, EmptyString => EmptyString
  end.

Module Auth.
Import FeatureFlags.

(** The request headers, by lower-case name. *)
Abbreviation Headers := (gmap string string).

(** What a guard stores in [request.user]. *)
Inductive User : Type :=
| ApiKeyUser      (* { id: 'api-key-user', type: 'api' } *)
| TokenUser.      (* { id: 'user-123', email: 'user@example.com', role: 'user' } *)

(** [header.startsWith('Bearer ')]. *)
Definition startsWithBearer (header : string) : bool :=
  String.prefix "Bearer " header.

(** A guard returns [true], leaving [request.user] as given here ([None]:
    untouched), or throws an [UnauthorizedException] with a message. *)
Definition Verdict : Type := Outcome string (option User).

Module ApiKeyGuard.

Definition extractApiKey (headers : Headers) : option string :=
  let apiKeyHeader := headers !! "x-api-key" in
  if truthy apiKeyHeader then apiKeyHeader
  else
    match headers !! "authorization" with
    | Some authHeader =>
        if truthyStr authHeader && startsWithBearer authHeader then
          Some (sliceFrom 7 authHeader)
        else None
    | None => None
    end.

Definition canActivate (env : Env) (isPublic : bool) (headers : Headers) : Verdict :=
  if isPublic then Return None
  else
    let apiKey := extractApiKey headers in
    if negb (truthy apiKey) then Throw "API key is missing"
    else
      let validApiKey := configGet env "API_KEY" in
      if negb (bool_decide (apiKey = validApiKey)) then Throw "Invalid API key"
      else Return (Some ApiKeyUser).

End ApiKeyGuard.

Module BearerTokenGuard.

Definition extractTokenFromHeader (headers : Headers) : option string :=
  match headers !! "authorization" with
  | Some authHeader =>
      if negb (truthyStr authHeader) || negb (startsWithBearer authHeader) then None
      else Some (sliceFrom 7 authHeader)
  | None => None
  end.

(** [verifyToken]: reads [JWT_SECRET] and returns a fixed payload. *)
Definition verifyToken (env : Env) (token : string) : User :=
  let secret := configGet env "JWT_SECRET" in
  TokenUser.

Definition canActivate (env : Env) (isPublic : bool) (headers : Headers) : Verdict :=
  if isPublic then Return None
  else
    let token := extractTokenFromHeader headers in
    match token with
    | Some token =>
        if negb (truthyStr token) then Throw "Authorization token is missing"
        else Return (Some (verifyToken env token))
    | None => Throw "Authorization token is missing"
    end.

End BearerTokenGuard.

Module CompositeAuthGuard.

Definition canActivate (env : Env) (isPublic : bool) (headers : Headers) : Verdict :=
  if isPublic then Return None
  else
    let hasApiKey := truthy (headers !! "x-api-key") in
    let hasBearerToken :=
      match headers !! "authorization" with
      | Some authHeader => startsWithBearer authHeader
      | None => false
      end in
    if hasApiKey then ApiKeyGuard.canActivate env isPublic headers
    else if hasBearerToken then BearerTokenGuard.canActivate env isPublic headers
    else Throw "Authentication required".

End CompositeAuthGuard.

(** The request carries a non-empty API key in [x-api-key]. *)
Definition apiKeySent (headers : Headers) (key : string) : Prop :=
  headers !! "x-api-key" = Some key /\ key <> EmptyString.

(** The request carries a non-empty bearer token. *)
Definition bearerSent (headers : Headers) (token : string) : Prop :=
  headers !! "authorization" = Some ("Bearer " +:+ token) /\ token <> EmptyString.

(** A request with a wrong API key and a bearer token. *)
Definition bothSchemes : Headers :=
  {[ "x-api-key" := "wrong"; "authorization" := "Bearer anything" ]}.

Definition bearerOnly : Headers := {[ "authorization" := "Bearer anything" ]}.

Definition keyEnv : Env := {[ "API_KEY" := "s3cret" ]}.

End Auth.

(** ** Sanitising what is reported

    [sanitizeBody] and [sanitizeHeaders] of [UnifiedErrorTrackingService]
    ([BugsnagExceptionFilter] has the same two functions, word for word). *)

Module Sanitize.
Import FeatureFlags Auth.

(** [String.prototype.toLowerCase], for keys of ASCII characters. *)
Definition toLowerCaseChar (c : ascii) : ascii :=
  let n := nat_of_ascii c in
  if ((65 <=? n) && (n <=? 90))%nat then Ascii.ascii_of_nat (n + 32) else c.

Fixpoint toLowerCase (s : string) : string :=
  match s with
  | EmptyString => EmptyString
  | String c rest => String (toLowerCaseChar c) (toLowerCase rest)
  end.

Definition REDACTED : Json := JString "[REDACTED]".

Definition sensitiveKeys : list string :=
  ["password"; "token"; "secret"; "apiKey"; "authorization"].

(** [sensitiveKeys.some((sensitive) => lowerKey.includes(sensitive))]. *)
Definition isSensitive (key : string) : bool :=
  let lowerKey := toLowerCase key in
  existsb (fun sensitive => includes lowerKey sensitive) sensitiveKeys.

(** [typeof value === 'object']: objects, arrays and [null]. *)
Definition isObject (value : Json) : bool :=
  match value with
  | JNull | JArray _ | JObject _ => true
  | JBool _ | JNumber _ | JString _ => false
  end.

(** One turn of the loop over the keys of the copy: what the key holds
    afterwards, [sanitized] being [sanitizeBody] of the value. *)
Definition sanitizeValue (key : string) (value sanitized : Json) : Json :=
  if isSensitive key then REDACTED
  else if isObject value then sanitized
  else value.

(** [sanitizeBody].  A body that is falsy or no object is returned as it is;
    the copy [{ ...body }] of an array is an object with the indices as
    keys. *)
Fixpoint sanitizeBody (body : Json) : Json :=
  match body with
  | JArray items =>
      JObject
        ((fix indexed (index : nat) (items : list Json) : list (string * Json) :=
            match items with
            | [] => []
            | item :: rest =>
                (pretty index, sanitizeValue (pretty index) item (sanitizeBody item))
                  :: indexed (S index) rest
            end) 0%nat items)
  | JObject entries =>
      JObject
        ((fix each (entries : list (string * Json)) : list (string * Json) :=
            match entries with
            | [] => []
            | (key, value) :: rest =>
                (key, sanitizeValue key value (sanitizeBody value)) :: each rest
            end) entries)
  | JNull | JBool _ | JNumber _ | JString _ => body
  end.

Definition allowedHeaders : list string :=
  ["content-type"; "content-length"; "user-agent"; "accept"; "accept-language";
   "accept-encoding"; "referer"; "origin"].

(** [sanitizeHeaders]: the safe headers, in the order they are put in. *)
Definition sanitizeHeaders (headers : option Headers) : list (string * string) :=
  omap (fun header =>
          match headers ≫= (.!! header) with
          | Some value => if truthyStr value then Some (header, value) else None
          | None => None
          end)
       allowedHeaders.

(** The own enumerable properties of an array: its items by index. *)
Definition arrayEntries (items : list Json) : list (string * Json) :=
  imap (fun index item => (pretty index, item)) items.

(** The words of [sensitiveKeys] in lower case. *)
Definition lowerCaseWords : list string :=
  ["password"; "token"; "secret"; "authorization"].

Definition isRedacted (value : Json) : bool :=
  match value with
  | JString s => bool_decide (s = "[REDACTED]")
  | _ => false
  end.

(** Somewhere in [value], at any depth, a sensitive key holds something other
    than the text [[REDACTED]]. *)
Fixpoint exposes (value : Json) : bool :=
  match value with
  | JArray items =>
      (fix any (items : list Json) : bool :=
         match items with
         | [] => false
         | item :: rest => exposes item || any rest
         end) items
  | JObject entries =>
      (fix any (entries : list (string * Json)) : bool :=
         match entries with
         | [] => false
         | (key, held) :: rest =>
             (if isSensitive key then negb (isRedacted held) else exposes held)
             || any rest
         end) entries
  | JNull | JBool _ | JNumber _ | JString _ => false
  end.

(** The loop of [sanitizeBody] on one entry of the copy. *)
Definition sanitizeEntry (entry : string * Json) : string * Json :=
  (entry.1, sanitizeValue entry.1 entry.2 (sanitizeBody entry.2)).

Fixpoint hasChar (c : ascii) (s : string) : bool :=
  match s with
  | EmptyString => false
  | String d rest => bool_decide (c = d) || hasChar c rest
  end.

End Sanitize.

(** ** The other methods of the error-tracking dispatcher
       (unified-error-tracking.service.ts) *)

Module ErrorTrackingMethods.
Import FeatureFlags Auth Sanitize ErrorTracking.

(** The methods of [IErrorTrackingService] beside [captureException], of
    which [captureMessage], [addBreadcrumb] and [flush] are optional.  A call
    returns ([None]) or throws a value; [flush] resolves or rejects. *)
Record OtherMethods : Type := mkOther {
  captureMessage_impl :
    option (string -> string -> option Metadata -> option Thrown);
  setUser_impl : string -> option string -> option string -> option Thrown;
  addBreadcrumb_impl :
    option (string -> option string -> option Metadata -> option Thrown);
  flush_impl : option (option Thrown)
}.

(** What a call of the dispatcher observably does: the events of
    [captureException], and the other calls forwarded to an injected
    service. *)
Inductive Call : Type :=
| Basic (event : Event)
| CaptureMessage (service : ServiceId) (message level : string)
                 (metadata : option Metadata)
| SetUser (service : ServiceId) (userId : string) (email name : option string)
| AddBreadcrumb (service : ServiceId) (message : string) (category : option string)
                (data : option Metadata)
| Flush (service : ServiceId).

(** The service a call is forwarded to, if it is forwarded. *)
Definition addressee (call : Call) : option ServiceId :=
  match call with
  | Basic (CaptureException service _ _) => Some service
  | Basic (Log _ _ _) => None
  | CaptureMessage service _ _ _ => Some service
  | SetUser service _ _ _ => Some service
  | AddBreadcrumb service _ _ _ => Some service
  | Flush service => Some service
  end.

(** The value of [ERROR_TRACKING_PROVIDER] that selects a service. *)
Definition providerOf (service : ServiceId) : string :=
  match service with
  | Bugsnag => ErrorTrackingProvider.BUGSNAG
  | Sentry => ErrorTrackingProvider.SENTRY
  | PostHog => ErrorTrackingProvider.POSTHOG
  end.

(** [try { call } catch (err) { this.logger.error(failure, err) }]. *)
Definition guarded (call : Call) (thrown : option Thrown) (failure : string)
    : list Call :=
  match thrown with
  | None => [call]
  | Some err => [call; Basic (Log LogError failure (Some err))]
  end.

(** An HTTP request, as far as the dispatcher and the exception filter read
    it. *)
Record RequestUser : Type := mkUser {
  user_id : option string;
  user_email : option string
}.

Record Request : Type := mkRequest {
  method : string;
  url : string;
  query : option Json;
  params : option Json;
  body : option Json;
  headers : option Headers;
  ip : option string;
  user : option RequestUser
}.

(** A property of an object literal; one that holds [undefined] is left out,
    as it is when the object is serialised. *)
Definition prop (name : string) (value : option Json) : list (string * Json) :=
  match value with
  | Some value => [(name, value)]
  | None => []
  end.

(** The [ErrorMetadata] that [captureHttpException] puts together;
    [timestamp] is [new Date().toISOString()]. *)
Definition httpMetadata (error : Error) (request : Request)
    (statusCode : option Z) (userId : option string) (timestamp : string)
    : Metadata :=
  [("request",
    JObject ([("method", JString (method request)); ("url", JString (url request))]
             ++ prop "query" (query request)
             ++ prop "params" (params request)
             ++ prop "body" (sanitizeBody <$> body request)
             ++ [("headers",
                  JObject (map (fun header => (header.1, JString header.2))
                               (sanitizeHeaders (headers request))))]
             ++ prop "ip" (JString <$> ip request)
             ++ prop "userAgent"
                     (JString <$> (headers request ≫= (.!! "user-agent")))));
   ("response",
    JObject [("statusCode",
              JNumber (match statusCode with
                       | Some code => if bool_decide (code = 0) then 500 else code
                       | None => 500
                       end));
             ("message", JString error)])]
  ++ prop "user" (match userId with
                  | Some id =>
                      if truthyStr id then Some (JObject [("id", JString id)])
                      else None
                  | None => None
                  end)
  ++ [("timestamp", JString timestamp)].

Section Methods.
Variables bugsnagService sentryService postHogService : IErrorTrackingService.
Variable others : ServiceId -> OtherMethods.

Definition Result : Type := list Call * Outcome Thrown unit.

(** [captureException], in the calls of this module. *)
Definition captureExceptionCalls (this : UnifiedErrorTrackingService)
    (error : Error) (metadata : option Metadata) : Result :=
  let '(events, outcome) :=
    captureException bugsnagService sentryService postHogService
                     this error metadata in
  (map Basic events, outcome).

Definition captureMessage (this : UnifiedErrorTrackingService)
    (message : string) (level : option string) (metadata : option Metadata)
    : Result :=
  let level := default "info" level in
  match activeService this with
  | None =>
      ([Basic (Log LogDebug "No error tracking service available" None)],
       Return tt)
  | Some s =>
      match captureMessage_impl (others s) with
      | Some impl =>
          (guarded (CaptureMessage s message level metadata)
                   (impl message level metadata) "Failed to capture message:",
           Return tt)
      | None =>
          match captureExceptionCalls this message metadata with
          | (calls, Return _) => (calls, Return tt)
          | (calls, Throw err) =>
              (calls ++ [Basic (Log LogError "Failed to capture message:" (Some err))],
               Return tt)
          end
      end
  end.

Definition setUser (this : UnifiedErrorTrackingService)
    (userId : string) (email name : option string) : Result :=
  match activeService this with
  | None => ([], Return tt)
  | Some s =>
      (guarded (SetUser s userId email name)
               (setUser_impl (others s) userId email name) "Failed to set user:",
       Return tt)
  end.

Definition addBreadcrumb (this : UnifiedErrorTrackingService)
    (message : string) (category : option string) (data : option Metadata)
    : Result :=
  match activeService this with
  | None => ([], Return tt)
  | Some s =>
      match addBreadcrumb_impl (others s) with
      | Some impl =>
          (guarded (AddBreadcrumb s message category data)
                   (impl message category data) "Failed to add breadcrumb:",
           Return tt)
      | None => ([], Return tt)
      end
  end.

Definition flush (this : UnifiedErrorTrackingService) : Result :=
  match activeService this with
  | None => ([], Return tt)
  | Some s =>
      match flush_impl (others s) with
      | Some rejected =>
          (guarded (Flush s) rejected "Failed to flush error tracking service:",
           Return tt)
      | None => ([], Return tt)
      end
  end.

Definition captureHttpException (this : UnifiedErrorTrackingService)
    (error : Error) (request : Request) (statusCode : option Z)
    (userId : option string) (timestamp : string) : Result :=
  captureExceptionCalls this error
    (Some (httpMetadata error request statusCode userId timestamp)).

End Methods.

(** The calls that are forwarded to an injected service. *)
Definition forwarded (calls : list Call) : list Call :=
  List.filter (fun call => bool_decide (is_Some (addressee call))) calls.

(** What each method of the dispatcher does, whatever the state of the
    service: it returns, forwards at most one call, and forwards to the
    active service only. *)
Definition wellBehaved (this : UnifiedErrorTrackingService) (result : Result)
    : Prop :=
  result.2 = Return tt /\
  (length (forwarded result.1) <= 1)%nat /\
  (activeService this = None -> forwarded result.1 = []) /\
  Forall (fun c => forall s, addressee c = Some s -> activeService this = Some s)
         result.1.

(** Services that have none of the optional methods, and whose [setUser]
    throws. *)
Definition bareOthers (service : ServiceId) : OtherMethods :=
  mkOther None (fun _ _ _ => Some "not initialised") None None.

Definition sentryConfig : FeatureFlagsConfig :=
  selectedProviders {[ "ERROR_TRACKING_PROVIDER" := "sentry" ]}.

End ErrorTrackingMethods.

(** ** The exception filter (unified-exception.filter.ts) *)

Module UnifiedExceptionFilter.
Import FeatureFlags Auth Sanitize ErrorTracking ErrorTrackingMethods.

(** What a handler threw: an [HttpException] (an [Error] itself), another
    [Error], or a value that is no [Error], by its [String(...)] text;
    [None] for a value that has no string conversion (an object without
    [toString] and [valueOf], as [Object.create(null)]), for which
    [String(...)] throws a [TypeError]. *)
Inductive Exception : Type :=
| IsHttpException (status : Z) (message : string) (stack : option string)
| IsError (message : string) (stack : option string)
| IsOther (text : option string).

(** The body of the response that is sent. *)
Record ErrorBody : Type := mkBody {
  success : bool;
  code : string;
  message : string;
  statusCode : Z;
  timestamp : string;
  path : string;
  stack : option string
}.

(** [response.status(status).send(body)]. *)
Record Sent : Type := mkSent {
  status : Z;
  sent : ErrorBody
}.

Definition statusOf (exception : Exception) : Z :=
  match exception with
  | IsHttpException status _ _ => status
  | IsError _ _ | IsOther _ => ApiError.HttpStatus.INTERNAL_SERVER_ERROR
  end.

Definition messageOf (exception : Exception) : string :=
  match exception with
  | IsHttpException _ message _ => message
  | IsError _ _ | IsOther _ => "Internal server error"
  end.

Definition NOT_CONVERTIBLE : Thrown :=
  "TypeError: Cannot convert object to primitive value".

(** [exception instanceof Error ? exception : new Error(String(exception))],
    by its message; the conversion of a value without one throws. *)
Definition errorOf (exception : Exception) : Outcome Thrown Error :=
  match exception with
  | IsHttpException _ message _ | IsError message _ => Return message
  | IsOther (Some text) => Return text
  | IsOther None => Throw NOT_CONVERTIBLE
  end.

Definition stackOf (exception : Exception) : option string :=
  match exception with
  | IsHttpException _ _ stack | IsError _ stack => stack
  | IsOther _ => None
  end.

Definition isError (exception : Exception) : bool :=
  match exception with
  | IsHttpException _ _ _ | IsError _ _ => true
  | IsOther _ => false
  end.

(** The second argument of [logger.error]: the stack of an [Error], the
    thrown value itself otherwise. *)
Definition logDetail (exception : Exception) : option Thrown :=
  match exception with
  | IsHttpException _ _ stack | IsError _ stack => stack
  | IsOther text => text
  end.

(** [process.env.NODE_ENV !== 'production']. *)
Definition notProduction (env : Env) : bool :=
  negb (bool_decide (env !! "NODE_ENV" = Some "production")).

Definition BAD_STATUS_CODE : Thrown := "FST_ERR_BAD_STATUS_CODE".

(** [response.status(status)]: Fastify's reply refuses a code outside
    100..599 and throws. *)
Definition reply_status (status : Z) : Outcome Thrown Z :=
  if bool_decide (100 <= status <= 599) then Return status
  else Throw BAD_STATUS_CODE.

Section Filter.
Variables bugsnagService sentryService postHogService : IErrorTrackingService.
Variable others : ServiceId -> OtherMethods.

(** [catch]; [trackedAt] and [sentAt] are the two readings of
    [new Date().toISOString()]. *)
Definition catch (this : UnifiedErrorTrackingService) (env : Env)
    (exception : Exception) (request : Request) (trackedAt sentAt : string)
    : list Call * Outcome Thrown Sent :=
  let status := statusOf exception in
  let message := messageOf exception in
  let userId := user request ≫= user_id in
  let userEmail := user request ≫= user_email in
  let '(calls1, outcome1) :=
    if truthy userId
    then setUser others this (default EmptyString userId) userEmail None
    else ([], Return tt) in
  match outcome1 with
  | Throw err => (calls1, Throw err)
  | Return _ =>
      match errorOf exception with
      | Throw err => (calls1, Throw err)
      | Return error =>
          let '(calls2, outcome2) :=
            captureHttpException bugsnagService sentryService postHogService
                                 this error request (Some status) userId
                                 trackedAt in
          match outcome2 with
          | Throw err => (calls1 ++ calls2, Throw err)
          | Return _ =>
              let logged :=
                if notProduction env
                then [Basic (Log LogError
                                 (method request +:+ " " +:+ url request
                                  +:+ " - Status: " +:+ pretty status)
                                 (logDetail exception))]
                else [] in
              match reply_status status with
              | Throw err => (calls1 ++ calls2 ++ logged, Throw err)
              | Return status =>
                  (calls1 ++ calls2 ++ logged,
                   Return
                     (mkSent status
                        (mkBody false
                           (if bool_decide (500 <= status)
                            then "INTERNAL_SERVER_ERROR" else "CLIENT_ERROR")
                           message status sentAt (url request)
                           (if notProduction env && isError exception
                            then stackOf exception else None))))
              end
          end
      end
  end.

End Filter.

(** What [catch] can answer: a thrown value that is an [Error] or has a
    string conversion, with a status Fastify accepts. *)
Definition answerable (exception : Exception) : Prop :=
  exception <> IsOther None /\ 100 <= statusOf exception <= 599.

Definition productionEnv : Env := {[ "NODE_ENV" := "production" ]}.

Definition secretRequest : Request :=
  mkRequest "POST" "/todos" None None
            (Some (JObject [("title", JString "a"); ("password", JString "hunter2")]))
            (Some {[ "authorization" := "Bearer abc"; "accept" := "*/*" ]})
            None (Some (mkUser (Some "u1") None)).

End UnifiedExceptionFilter.

(** ** The response cache (cache.module.ts, cache.interceptor.ts and the
       decorators) *)

Module Cache.
Import FeatureFlags ErrorTracking ErrorTrackingMethods.

(** What the factory of [CacheModule] returns. *)
Record CacheOptions : Type := mkCacheOptions {
  defaultTtl : Z;
  max : Z
}.

Definition useFactory (featureFlags : FeatureFlagsConfig) : CacheOptions :=
  let cacheProvider := FeatureFlagsService.getCacheProvider featureFlags in
  if bool_decide (cacheProvider = CacheProvider.REDIS) then mkCacheOptions 60000 1000
  else if bool_decide (cacheProvider = CacheProvider.MEMORY)
       then mkCacheOptions 60000 1000
  else mkCacheOptions 0 0.

Record CacheableOptions : Type := mkCacheable {
  ttl : option Z;
  keyPrefix : option string
}.

Record CacheInvalidateOptions : Type := mkInvalidate {
  pattern : option string;
  tags : option (list string)
}.

(** The metadata the decorators set on a handler.
    [CACHE_INVALIDATE_METADATA] holds the options object itself, by its own
    properties. *)
Record HandlerMetadata : Type := mkHandlerMetadata {
  CACHE_INVALIDATE_METADATA : option (list (string * Json));
  CACHE_KEY_METADATA : option string;
  CACHE_TTL_METADATA : option Z
}.

Definition undecorated : HandlerMetadata := mkHandlerMetadata None None None.

(** A [CacheInvalidateOptions] as an object. *)
Definition optionsObject (options : CacheInvalidateOptions) : list (string * Json) :=
  prop "pattern" (JString <$> pattern options)
  ++ prop "tags" ((fun tags => JArray (JString <$> tags)) <$> tags options).

(** The decorators; [None] for the options is the call without argument. *)
Definition Cacheable (options : option CacheableOptions)
    (handler : HandlerMetadata) : HandlerMetadata :=
  let options := default (mkCacheable None None) options in
  mkHandlerMetadata (CACHE_INVALIDATE_METADATA handler)
                    (keyPrefix options) (ttl options).

Definition CacheInvalidate (options : option CacheInvalidateOptions)
    (handler : HandlerMetadata) : HandlerMetadata :=
  let options := default (mkInvalidate None None) options in
  mkHandlerMetadata (Some (optionsObject options))
                    (CACHE_KEY_METADATA handler) (CACHE_TTL_METADATA handler).

(** [object[name]], for a name that [Object.prototype] does not have. *)
Definition property (name : string) (object : list (string * Json)) : option Json :=
  snd <$> head (List.filter (fun entry => bool_decide (entry.1 = name)) object).

(** Whether a value is truthy. *)
Definition jsTruthy (value : option Json) : bool :=
  match value with
  | None | Some JNull => false
  | Some (JBool b) => b
  | Some (JNumber n) => negb (bool_decide (n = 0))
  | Some (JString s) => truthyStr s
  | Some (JArray _) | Some (JObject _) => true
  end.

(** What [intercept] observably does: a warning on the console, a call of
    the cache manager, and the call of the route handler. *)
Inductive CacheCall : Type :=
| Warn (text : string)
| Del (key : Json)
| Get (key : string)
| SetKey (key : string) (value : Json) (ttl : Z)
| Handle.

Definition PATTERN_WARNING : string :=
  "Pattern-based cache invalidation is not supported in cache-manager v7".

(** [for (const key of keys) await this.cacheManager.del(key)]: the calls, or
    the [TypeError] for a value that cannot be iterated.  The calls of the
    cache manager are taken to resolve. *)
Definition deleteKeys (keys : option Json) : Outcome Thrown (list CacheCall) :=
  if negb (jsTruthy keys) then Return []
  else
    match keys with
    | Some (JArray items) => Return (Del <$> items)
    | Some (JString s) =>
        Return ((fun c => Del (JString (String c EmptyString)))
                  <$> list_ascii_of_string s)
    | _ => Throw "TypeError: invalidateOptions.keys is not iterable"
    end.

Section Interceptor.
(** [CacheTTL.ONE_MINUTE] of cache.constants.ts, and [JSON.stringify]. *)
Variable ONE_MINUTE : Z.
Variable stringify : Json -> string.

Definition orEmptyObject (value : option Json) : Json :=
  match value with
  | Some value => if jsTruthy (Some value) then value else JObject []
  | None => JObject []
  end.

Definition generateCacheKey (prefix : string) (request : Request) : string :=
  prefix +:+ ":" +:+ method request +:+ ":" +:+ url request +:+ ":"
  +:+ stringify (orEmptyObject (params request)) +:+ ":"
  +:+ stringify (orEmptyObject (query request)).

(** [intercept]: [cached] is what [cacheManager.get] resolves to for a key
    ([None] for [undefined]), [handled] what the route handler emits or
    fails with. *)
Definition intercept (handler : HandlerMetadata) (request : Request)
    (cached : string -> option Json) (handled : Outcome Thrown Json)
    : list CacheCall * Outcome Thrown Json :=
  match CACHE_INVALIDATE_METADATA handler with
  | Some invalidateOptions =>
      let warned :=
        if jsTruthy (property "pattern" invalidateOptions)
        then [Warn PATTERN_WARNING] else [] in
      match deleteKeys (property "keys" invalidateOptions) with
      | Throw err => (warned, Throw err)
      | Return deleted => (warned ++ deleted ++ [Handle], handled)
      end
  | None =>
      let keyPrefix := CACHE_KEY_METADATA handler in
      let ttl :=
        match CACHE_TTL_METADATA handler with
        | Some ttl => if bool_decide (ttl = 0) then ONE_MINUTE else ttl
        | None => ONE_MINUTE
        end in
      if negb (truthy keyPrefix) then ([Handle], handled)
      else
        let cacheKey := generateCacheKey (default EmptyString keyPrefix) request in
        let cachedResponse := cached cacheKey in
        if jsTruthy cachedResponse
        then ([Get cacheKey], Return (default JNull cachedResponse))
        else
          match handled with
          | Return response =>
              ([Get cacheKey; Handle; SetKey cacheKey response ttl],
               Return response)
          | Throw err => ([Get cacheKey; Handle], Throw err)
          end
  end.

End Interceptor.

(** The cache manager as a store: what its calls leave in it, entries not
    expiring. *)
Definition Store : Type := gmap string Json.

Definition perform (store : Store) (call : CacheCall) : Store :=
  match call with
  | SetKey key value _ => <[key := value]> store
  | Del (JString key) => delete key store
  | Del _ | Get _ | Warn _ | Handle => store
  end.

Definition performAll (store : Store) (calls : list CacheCall) : Store :=
  foldl perform store calls.

(** A request against the store: the store afterwards, and the response. *)
Definition serve (ONE_MINUTE : Z) (stringify : Json -> string)
    (handler : HandlerMetadata) (request : Request)
    (handled : Outcome Thrown Json) (store : Store)
    : Store * Outcome Thrown Json :=
  let '(calls, response) :=
    intercept ONE_MINUTE stringify handler request (fun key => store !! key)
              handled in
  (performAll store calls, response).

(** One write after another, each through a handler that carries
    [CacheInvalidate]. *)
Definition serveWrites (ONE_MINUTE : Z) (stringify : Json -> string)
    (writes : list (option CacheInvalidateOptions * Request * Outcome Thrown Json))
    (store : Store) : Store :=
  foldl (fun store write =>
           (serve ONE_MINUTE stringify (CacheInvalidate write.1.1 undecorated)
                  write.1.2 write.2 store).1)
        store writes.

(** Whether the calls touch the cache. *)
Definition touchesCache (call : CacheCall) : bool :=
  match call with
  | Del _ | Get _ | SetKey _ _ _ => true
  | Warn _ | Handle => false
  end.

Definition todosInvalidate : CacheInvalidateOptions :=
  mkInvalidate (Some "todos:*") (Some ["todos"]).

Definition listRequest : Request :=
  mkRequest "GET" "/todos" None None None None None None.

Definition updateRequest : Request :=
  mkRequest "PUT" "/todos/1" None None
            (Some (JObject [("completed", JBool true)])) None None None.

End Cache.

(** ** MongooseTodoRepository: the further queries (mongoose-todo.repository.ts) *)

Module MongooseQueries.
Import Mongoose.

(** [countDocuments()] and [countDocuments({ completed })]. *)
Definition count (coll : Collection) : nat := length coll.

Definition countByCompleted (completed : bool) (coll : Collection) : nat :=
  length (List.filter (matches (ByCompleted completed)) coll).

(** [{ priority }]. *)
Definition priorityIs (priority : string) (doc : TodoDocument.t) : bool :=
  bool_decide (TodoDocument.priority doc = priority).

Definition findByPriority (priority : string) (coll : Collection) : list Todo.t :=
  map mapDocumentToEntity
      (orderByDesc TodoDocument.createdAt (List.filter (priorityIs priority) coll)).

(** [{ dueDate: { $lt: now }, completed: false }]; a document without a due
    date does not match. *)
Definition overdue (now : Date) (doc : TodoDocument.t) : bool :=
  match TodoDocument.dueDate doc with
  | Some due => bool_decide (due < now)
  | None => false
  end
  && bool_decide (TodoDocument.completed doc = false).

(** The key of [sort({ dueDate: 1 })] on documents that have a due date. *)
Definition dueKey (doc : TodoDocument.t) : Date := default 0 (TodoDocument.dueDate doc).

(** [findOverdue]; [now] is the reading of [new Date()]. *)
Definition findOverdue (now : Date) (coll : Collection) : list Todo.t :=
  map mapDocumentToEntity (orderByAsc dueKey (List.filter (overdue now) coll)).

(** [a] may stand before [b] in a listing by due date. *)
Definition dueFirst (a b : Todo.t) : Prop :=
  default 0 (Todo.dueDate a) <= default 0 (Todo.dueDate b).

End MongooseQueries.

(** * Properties *)

(** ** Strings *)

Lemma prefix_app (n rest : string) : String.prefix n (n +:+ rest) = true.
Proof.
  induction n as [|c n IH]; simpl.
  - by destruct rest.
  - destruct (Ascii.ascii_dec c c); [exact IH | congruence].
Qed.

Lemma includes_here (n rest : string) : includes (n +:+ rest) n = true.
Proof.
  pose proof (prefix_app n rest) as H.
  destruct (n +:+ rest); unfold includes; fold includes; by rewrite H.
Qed.

Lemma includes_app_r (a b n : string) :
  includes b n = true -> includes (a +:+ b) n = true.
Proof.
  intros H. induction a as [|c a IH]; simpl; [exact H|].
  rewrite IH. apply orb_true_r.
Qed.

Lemma prefix_refl (n : string) : String.prefix n n = true.
Proof.
  induction n as [|c n IH]; simpl; [done|].
  destruct (Ascii.ascii_dec c c); [exact IH | congruence].
Qed.

Lemma includes_refl (n : string) : includes n n = true.
Proof. destruct n; unfold includes; fold includes; by rewrite prefix_refl. Qed.

Lemma prefix_app_l (n a b : string) :
  String.prefix n a = true -> String.prefix n (a +:+ b) = true.
Proof.
  revert a. induction n as [|c n IH]; intros a H; [by destruct (a +:+ b)|].
  destruct a as [|d a]; simpl in *; [done|].
  destruct (Ascii.ascii_dec c d); [by apply IH | done].
Qed.

Lemma includes_app_l (a b n : string) :
  includes a n = true -> includes (a +:+ b) n = true.
Proof.
  induction a as [|c a IH]; unfold includes; fold includes; intros H.
  - rewrite orb_false_r in H. destruct n; [|done].
    by destruct b.
  - apply orb_true_iff in H as [H|H].
    + change (String c a +:+ b) with (String c (a +:+ b)).
      unfold includes; fold includes.
      change (String c (a +:+ b)) with (String c a +:+ b).
      by rewrite (prefix_app_l _ _ _ H).
    + change (String c a +:+ b) with (String c (a +:+ b)).
      unfold includes; fold includes. rewrite (IH H). apply orb_true_r.
Qed.

Lemma includes_join (sep : string) (pre : string) (l : list string) (e : string) :
  e ∈ l -> includes (join sep (map (fun x => pre +:+ x) l)) e = true.
Proof.
  induction l as [|x l IH]; intros Hin; [by apply elem_of_nil in Hin|].
  apply elem_of_cons in Hin as [->|Hin].
  - destruct l as [|y l]; simpl.
    + apply includes_app_r, includes_refl.
    + apply includes_app_l, includes_app_r, includes_refl.
  - specialize (IH Hin). destruct l as [|y l]; [by apply elem_of_nil in Hin|].
    change (includes ((pre +:+ x) +:+ sep +:+ join sep (map (fun x => pre +:+ x) (y :: l))) e = true).
    by do 2 apply includes_app_r.
Qed.

(** ** Feature flags *)

Section FeatureFlagsFacts.
Import FeatureFlags.
Implicit Types (env : Env) (o : ProviderOption).

Lemma readOption_invalid env o :
  isInvalid env o = true ->
  readOption env o =
    ([mkLog LogError (optionError env o)], Throw (optionError env o)).
Proof.
  unfold readOption, getValidatedProvider, isInvalid, optionValue, optionError.
  by intros ->.
Qed.

Lemma readOption_valid env o :
  isInvalid env o = false ->
  readOption env o = ([], Return (optionValue env o)).
Proof.
  unfold readOption, getValidatedProvider, isInvalid, optionValue.
  by intros ->.
Qed.

(** Reading the seven options stops at the first invalid one. *)
Lemma readProviders_first_invalid env :
  readProviders env =
    match invalidOptions env with
    | [] => ([], Return (selectedProviders env))
    | o :: _ => ([mkLog LogError (optionError env o)], Throw (optionError env o))
    end.
Proof.
  unfold readProviders, invalidOptions, PROVIDER_OPTIONS.
  change (getValidatedProvider env "DATABASE_PROVIDER" _ _)
    with (readOption env DATABASE_OPTION).
  change (getValidatedProvider env "ERROR_TRACKING_PROVIDER" _ _)
    with (readOption env ERROR_TRACKING_OPTION).
  change (getValidatedProvider env "AUTH_PROVIDER" _ _)
    with (readOption env AUTH_OPTION).
  change (getValidatedProvider env "CACHE_PROVIDER" _ _)
    with (readOption env CACHE_OPTION).
  change (getValidatedProvider env "DOCUMENTATION_PROVIDER" _ _)
    with (readOption env DOCUMENTATION_OPTION).
  change (getValidatedProvider env "LOGGING_PROVIDER" _ _)
    with (readOption env LOGGING_OPTION).
  change (getValidatedProvider env "PERFORMANCE_PROVIDER" _ _)
    with (readOption env PERFORMANCE_OPTION).
  cbn [List.filter].
  repeat lazymatch goal with
  | |- context [isInvalid env ?o] =>
      let H := fresh "H" in
      destruct (isInvalid env o) eqn:H;
      [ rewrite (readOption_invalid env o H); reflexivity
      | rewrite (readOption_valid env o H); cbn [bind app] ]
  end.
  reflexivity.
Qed.

Lemma invalidOptions_nil env o :
  invalidOptions env = [] -> o ∈ PROVIDER_OPTIONS -> isInvalid env o = false.
Proof.
  intros Hnil Hin. destruct (isInvalid env o) eqn:E; [|done].
  assert (In o (invalidOptions env)) as HIn.
  { apply filter_In. split; [by apply list_elem_of_In | done]. }
  rewrite Hnil in HIn. destruct HIn.
Qed.

(** Every legal value of every option is a non-empty string. *)
Lemma legal_value_truthy o v :
  o ∈ PROVIDER_OPTIONS -> arrayIncludes (validOptions o) v = true ->
  truthyStr v = true.
Proof.
  intros Ho Hv. apply bool_decide_eq_true in Hv.
  unfold PROVIDER_OPTIONS in Ho.
  repeat (apply elem_of_cons in Ho as [->|Ho]);
    [..|by apply elem_of_nil in Ho];
    cbn in Hv;
    repeat (apply elem_of_cons in Hv as [->|Hv]);
    solve [done | by apply elem_of_nil in Hv].
Qed.

Lemma missingProviderErrors_nil env :
  invalidOptions env = [] -> missingProviderErrors (selectedProviders env) = [].
Proof.
  intros Hnil.
  assert (forall o, o ∈ PROVIDER_OPTIONS -> truthyStr (optionValue env o) = true)
    as Hall.
  { intros o Ho. apply (legal_value_truthy o); [done|].
    pose proof (invalidOptions_nil env o Hnil Ho) as H.
    unfold isInvalid in H. by apply negb_false_iff in H. }
  unfold missingProviderErrors, entries, selectedProviders; cbn.
  rewrite !Hall; [done|unfold PROVIDER_OPTIONS; set_solver..].
Qed.

Lemma validateConfiguration_throws env config :
  collectErrors env config <> [] ->
  validateConfiguration env config =
    ([mkLog LogError (validationFailedMessage (collectErrors env config))],
     Throw (validationFailedMessage (collectErrors env config))).
Proof.
  intros Hne. unfold validateConfiguration.
  destruct (collectErrors env config) as [|e errs]; [done|].
  reflexivity.
Qed.

Lemma includes_validationFailedMessage errors e :
  e ∈ errors -> includes (validationFailedMessage errors) e = true.
Proof.
  intros Hin. unfold validationFailedMessage.
  do 2 apply includes_app_r. by apply includes_join.
Qed.

Lemma mongoUrlMissing_error env :
  mongoUrlMissing env ->
  MONGODB_URL_REQUIRED ∈ crossFieldErrors env (selectedProviders env).
Proof.
  intros [Hdb Hurl]. unfold crossFieldErrors, mongoErrors; cbn [database selectedProviders].
  rewrite Hdb, bool_decide_eq_true_2 by done.
  unfold unset in Hurl. rewrite Hurl. set_solver.
Qed.

Lemma databaseUrlMissing_error env :
  databaseUrlMissing env ->
  DATABASE_URL_REQUIRED ∈ crossFieldErrors env (selectedProviders env).
Proof.
  intros [Hdb Hurl]. unfold crossFieldErrors, postgresErrors;
    cbn [database selectedProviders].
  unfold unset in Hurl. rewrite Hurl.
  destruct Hdb as [-> | ->]; cbn; set_solver.
Qed.

Lemma redisHostMissing_error env :
  redisHostMissing env ->
  REDIS_HOST_REQUIRED ∈ crossFieldErrors env (selectedProviders env).
Proof.
  intros [Hc Hhost]. unfold crossFieldErrors, redisErrors;
    cbn [cache selectedProviders].
  rewrite Hc, bool_decide_eq_true_2 by done.
  unfold unset in Hhost. rewrite Hhost. set_solver.
Qed.

Lemma missingCombination_errors env :
  missingCombination env -> crossFieldErrors env (selectedProviders env) <> [].
Proof.
  intros [H | [H | H]] Hnil;
    [apply mongoUrlMissing_error in H | apply databaseUrlMissing_error in H
    | apply redisHostMissing_error in H];
    rewrite Hnil in H; by apply elem_of_nil in H.
Qed.

(** C1, as the claim words it, fails: with two options outside their legal
    sets the construction throws the error of the first one read, and that
    error does not mention the second. *)
Lemma c1_second_invalid_option_not_listed :
  invalidOptions twoInvalidEnv = [DATABASE_OPTION; CACHE_OPTION] /\
  outcome (FeatureFlagsService_new twoInvalidEnv) =
    Throw (invalidProviderMessage "DATABASE_PROVIDER" "mysql"
             ["prisma-postgresql"; "drizzle-postgresql"; "mongoose-mongodb"]) /\
  ~ listsEveryInvalidOption twoInvalidEnv.
Proof.
  split; [by vm_compute|]. split; [by vm_compute|].
  intros (logs & msg & Hnew & Hall).
  vm_compute in Hnew. injection Hnew as _ <-.
  assert (invalidOptions twoInvalidEnv = [DATABASE_OPTION; CACHE_OPTION]) as E
    by (by vm_compute).
  rewrite E in Hall. apply Forall_cons in Hall as [_ Hall].
  apply Forall_cons in Hall as [Hcache _].
  vm_compute in Hcache. discriminate.
Qed.

(** C1, amended: when one or more enumerated options hold a value outside
    the legal set, constructing the service throws (after logging it) the
    error of the first such option in reading order; that error names the
    option, and no configuration is produced. *)
Theorem c1_invalid_option_aborts_with_first_error env o rest :
  invalidOptions env = o :: rest ->
  FeatureFlagsService_new env =
    ([mkLog LogError (optionError env o)], Throw (optionError env o)) /\
  includes (optionError env o) (envVar o) = true.
Proof.
  intros Hinv. split.
  - unfold FeatureFlagsService_new, loadAndValidateConfig.
    by rewrite readProviders_first_invalid, Hinv.
  - unfold optionError, invalidProviderMessage.
    apply includes_app_r, includes_here.
Qed.

Lemma c1_invalid_option_aborts_witness :
  FeatureFlagsService_new twoInvalidEnv =
    ([mkLog LogError (optionError twoInvalidEnv DATABASE_OPTION)],
     Throw (optionError twoInvalidEnv DATABASE_OPTION)) /\
  includes (optionError twoInvalidEnv DATABASE_OPTION) "DATABASE_PROVIDER" = true.
Proof.
  apply (c1_invalid_option_aborts_with_first_error
           twoInvalidEnv DATABASE_OPTION [CACHE_OPTION]).
  vm_compute. reflexivity.
Defined.

(** C8, as the claim words it, fails: with MongoDB selected, no MONGODB_URL
    and an illegal CACHE_PROVIDER, the construction does fail, but with the
    error of the illegal option, thrown before the cross-field rules are
    looked at; the violated rule is not in it. *)
Lemma c8_illegal_option_hides_violated_rule :
  mongoUrlMissing mongoWithoutUrlBadCacheEnv /\
  outcome (FeatureFlagsService_new mongoWithoutUrlBadCacheEnv) =
    Throw (invalidProviderMessage "CACHE_PROVIDER" "memcached"
             ["redis"; "memory"; "none"]) /\
  ~ aggregatesViolatedRules mongoWithoutUrlBadCacheEnv.
Proof.
  assert (mongoUrlMissing mongoWithoutUrlBadCacheEnv) as Hmongo
    by (split; by vm_compute).
  split; [exact Hmongo|]. split; [by vm_compute|].
  intros (logs & msg & Hnew & Hm & _).
  specialize (Hm Hmongo). vm_compute in Hnew. injection Hnew as _ <-.
  vm_compute in Hm. discriminate.
Qed.

(** C8, amended: whenever a required combination is missing (MongoDB
    selected and MONGODB_URL unset or empty, a PostgreSQL provider selected
    and DATABASE_URL unset or empty, Redis selected and REDIS_HOST unset or
    empty), constructing the service throws; and when all seven enumerated
    options are legal, so that the cross-field validation is reached, the
    single error thrown and logged is the aggregate of all violated rules,
    each of them listed in it. *)
Theorem c8_missing_combination_aborts_aggregated env :
  missingCombination env ->
  isThrow (outcome (FeatureFlagsService_new env)) = true /\
  (invalidOptions env = [] ->
   let msg :=
     validationFailedMessage (crossFieldErrors env (selectedProviders env)) in
   FeatureFlagsService_new env = ([mkLog LogError msg], Throw msg) /\
   (mongoUrlMissing env -> includes msg MONGODB_URL_REQUIRED = true) /\
   (databaseUrlMissing env -> includes msg DATABASE_URL_REQUIRED = true) /\
   (redisHostMissing env -> includes msg REDIS_HOST_REQUIRED = true)).
Proof.
  intros Hmiss. pose proof (missingCombination_errors env Hmiss) as Hne.
  assert (collectErrors env (selectedProviders env) <> []) as Hcoll.
  { unfold collectErrors. intros H. by apply app_eq_nil in H as [_ H]. }
  split.
  - unfold FeatureFlagsService_new, loadAndValidateConfig.
    rewrite readProviders_first_invalid.
    destruct (invalidOptions env) as [|o rest]; [|done].
    cbn [bind app]. by rewrite validateConfiguration_throws.
  - intros Hvalid msg. split; [|repeat split].
    + unfold FeatureFlagsService_new, loadAndValidateConfig.
      rewrite readProviders_first_invalid, Hvalid. cbn [bind app].
      rewrite validateConfiguration_throws by done.
      unfold collectErrors. by rewrite missingProviderErrors_nil.
    + intros H. by apply includes_validationFailedMessage, mongoUrlMissing_error.
    + intros H. by apply includes_validationFailedMessage, databaseUrlMissing_error.
    + intros H. by apply includes_validationFailedMessage, redisHostMissing_error.
Qed.

Lemma c8_missing_combination_witness :
  let msg := validationFailedMessage [DATABASE_URL_REQUIRED; REDIS_HOST_REQUIRED] in
  isThrow (outcome (FeatureFlagsService_new emptyEnv)) = true /\
  FeatureFlagsService_new emptyEnv = ([mkLog LogError msg], Throw msg) /\
  includes msg DATABASE_URL_REQUIRED = true /\
  includes msg REDIS_HOST_REQUIRED = true.
Proof.
  assert (databaseUrlMissing emptyEnv) as Hdb.
  { split; [left; reflexivity | reflexivity]. }
  assert (redisHostMissing emptyEnv) as Hredis.
  { split; reflexivity. }
  destruct (c8_missing_combination_aborts_aggregated emptyEnv) as [Hthrow Hagg].
  { right. left. exact Hdb. }
  destruct Hagg as (Hnew & _ & Hd & Hr); [vm_compute; reflexivity|].
  split; [exact Hthrow|]. split; [exact Hnew|].
  split; [exact (Hd Hdb) | exact (Hr Hredis)].
Defined.

End FeatureFlagsFacts.

(** ** Ordering *)

Section OrderByFacts.
Context {A : Type} (createdAt : A -> Date).

#[local] Instance newestFirst_total : Total (newestFirst createdAt).
Proof. intros a b. unfold newestFirst. lia. Qed.
#[local] Instance oldestFirst_total : Total (oldestFirst createdAt).
Proof. intros a b. unfold oldestFirst. lia. Qed.
#[local] Instance newestFirst_trans : Transitive (newestFirst createdAt).
Proof. intros a b c. unfold newestFirst. lia. Qed.
#[local] Instance oldestFirst_trans : Transitive (oldestFirst createdAt).
Proof. intros a b c. unfold oldestFirst. lia. Qed.

Lemma orderByDesc_perm (rows : list A) : orderByDesc createdAt rows ≡ₚ rows.
Proof. apply merge_sort_Permutation. Qed.

Lemma orderByAsc_perm (rows : list A) : orderByAsc createdAt rows ≡ₚ rows.
Proof. apply merge_sort_Permutation. Qed.

Lemma orderByDesc_sorted (rows : list A) :
  StronglySorted (newestFirst createdAt) (orderByDesc createdAt rows).
Proof. apply StronglySorted_merge_sort; apply _. Qed.

Lemma orderByAsc_sorted (rows : list A) :
  StronglySorted (oldestFirst createdAt) (orderByAsc createdAt rows).
Proof. apply StronglySorted_merge_sort; apply _. Qed.

End OrderByFacts.

(** ** Repositories *)

Section RepositoryFacts.
Import Samples.
Implicit Types (id : string) (row todo : Todo.t) (doc : TodoDocument.t).

Lemma withMetadata_id row : Prisma.withMetadata row = row.
Proof. by destruct row. Qed.

Lemma map_withMetadata (rows : list Todo.t) : map Prisma.withMetadata rows = rows.
Proof.
  induction rows as [|r rows IH]; [done|].
  cbn [map]. by rewrite withMetadata_id, IH.
Qed.

(** No row with the id: the [where] selects nothing. *)
Lemma filter_id_absent id (rows : list Todo.t) :
  id ∉ map Todo.id rows ->
  List.filter (fun r => bool_decide (Todo.id r = id)) rows = [].
Proof.
  induction rows as [|r rows IH]; intros Hnot; [done|].
  cbn [map] in Hnot. apply not_elem_of_cons in Hnot as [Hne Hrest].
  cbn [List.filter]. rewrite bool_decide_eq_false_2 by congruence. by apply IH.
Qed.

Lemma findOne_cuid_absent id (coll : Mongoose.Collection) :
  id ∉ map TodoDocument.cuid coll ->
  Mongoose.findOne (Mongoose.ByCuid id) coll = None.
Proof.
  unfold Mongoose.findOne.
  induction coll as [|d coll IH]; intros Hnot; [done|].
  cbn [map] in Hnot. apply not_elem_of_cons in Hnot as [Hne Hrest].
  cbn [List.filter Mongoose.matches]. unfold Mongoose.cuidEq at 1.
  rewrite bool_decide_eq_false_2 by congruence. by apply IH.
Qed.

(** *** findAll *)

(** Prisma and Mongoose list every record, newest first. *)
Lemma prisma_findAll_newest_first (table : Prisma.Table) :
  Prisma.findAll table ≡ₚ table /\
  StronglySorted (newestFirst Todo.createdAt) (Prisma.findAll table).
Proof.
  unfold Prisma.findAll, Prisma.todo_findMany. rewrite map_withMetadata.
  split; [apply orderByDesc_perm | apply orderByDesc_sorted].
Qed.

Lemma StronglySorted_map_entity (docs : list TodoDocument.t) :
  StronglySorted (newestFirst TodoDocument.createdAt) docs ->
  StronglySorted (newestFirst Todo.createdAt) (map Mongoose.mapDocumentToEntity docs).
Proof.
  induction 1 as [|d docs Hs IH Hall]; cbn [map]; constructor; [done|].
  apply Forall_map. eapply Forall_impl; [exact Hall|]. by intros d'.
Qed.

Lemma mongoose_findAll_newest_first (coll : Mongoose.Collection) :
  Mongoose.findAll coll ≡ₚ records coll /\
  StronglySorted (newestFirst Todo.createdAt) (Mongoose.findAll coll).
Proof.
  unfold Mongoose.findAll, Mongoose.find_sorted, records. split.
  - apply fmap_Permutation. rewrite orderByDesc_perm.
    clear. induction coll as [|d coll IH]; [done|]. cbn. by rewrite IH.
  - apply StronglySorted_map_entity, orderByDesc_sorted.
Qed.

(** Drizzle lists every record, oldest first. *)
Lemma drizzle_findAll_oldest_first (table : Drizzle.Table) :
  Drizzle.findAll table ≡ₚ table /\
  StronglySorted (oldestFirst Todo.createdAt) (Drizzle.findAll table).
Proof. split; [apply orderByAsc_perm | apply orderByAsc_sorted]. Qed.

(** C3 fails on the Drizzle repository: with a record created at 2000 and
    one created at 1000 in the table, [findAll] returns the older one first,
    which is not a newest-first listing (the query orders by [createdAt]
    without a direction, hence ascending). *)
Lemma c3_drizzle_findAll_returns_oldest_first :
  Drizzle.findAll [newer; older] = [older; newer] /\
  ~ Sorted (newestFirst Todo.createdAt) (Drizzle.findAll [newer; older]).
Proof.
  assert (Drizzle.findAll [newer; older] = [older; newer]) as E by by vm_compute.
  split; [exact E|]. rewrite E. intros Hs.
  apply Sorted_inv in Hs as [_ Hhd]. apply HdRel_inv in Hhd.
  unfold newestFirst in Hhd. cbn in Hhd. lia.
Qed.

(** *** delete *)

Lemma prisma_delete_absent id (table : Prisma.Table) :
  id ∉ map Todo.id table -> Prisma.delete id table = Throw PrismaRecordNotFound.
Proof.
  intros Hnot. unfold Prisma.delete, Prisma.todo_delete, Prisma.todo_findUnique.
  unfold Prisma.idEq. by rewrite filter_id_absent.
Qed.

Lemma mongoose_delete_absent id (coll : Mongoose.Collection) :
  id ∉ map TodoDocument.cuid coll ->
  Mongoose.delete id coll = Throw (JsError (Mongoose.notFoundMessage id)) /\
  isNotFound (JsError (Mongoose.notFoundMessage id)) = true.
Proof.
  intros Hnot. split.
  - unfold Mongoose.delete, Mongoose.findOneAndDelete.
    by rewrite findOne_cuid_absent.
  - cbn [isNotFound]. unfold Mongoose.notFoundMessage.
    do 2 apply includes_app_r. by vm_compute.
Qed.

Lemma drizzle_delete_absent id (table : Drizzle.Table) :
  id ∉ map Todo.id table -> Drizzle.delete id table = (table, None).
Proof.
  intros Hnot. unfold Drizzle.delete, Drizzle.idEq.
  rewrite filter_id_absent by done. f_equal.
  induction table as [|r table IH]; [done|].
  cbn [map] in Hnot. apply not_elem_of_cons in Hnot as [Hne Hrest].
  cbn [List.filter]. rewrite bool_decide_eq_false_2 by congruence.
  cbn [negb]. by rewrite IH.
Qed.

(** C2 fails on the Drizzle repository: deleting an id that no row has
    resolves with [undefined] and leaves the table as it was; nothing is
    thrown.  (Prisma and Mongoose reject, see the two lemmas above.) *)
Lemma c2_drizzle_delete_absent_resolves_undefined :
  Drizzle.findById "missing" [older; newer] = None /\
  Drizzle.delete "missing" [older; newer] = ([older; newer], None).
Proof. split; by vm_compute. Qed.

(** *** findById *)

(** C5: on each of the three repositories, [findById] of an id that no
    stored record has returns [null]; the method has no throwing path. *)
Theorem c5_findById_absent_returns_null id
    (ptable : Prisma.Table) (dtable : Drizzle.Table) (coll : Mongoose.Collection) :
  id ∉ map Todo.id ptable ->
  id ∉ map Todo.id dtable ->
  id ∉ map TodoDocument.cuid coll ->
  Prisma.findById id ptable = None /\
  Drizzle.findById id dtable = None /\
  Mongoose.findById id coll = None.
Proof.
  intros Hp Hd Hm. repeat split.
  - unfold Prisma.findById, Prisma.todo_findUnique, Prisma.idEq.
    by rewrite filter_id_absent.
  - unfold Drizzle.findById, Drizzle.idEq. by rewrite filter_id_absent.
  - unfold Mongoose.findById. by rewrite findOne_cuid_absent.
Qed.

Lemma c5_findById_absent_witness :
  Prisma.findById "missing" [older; newer] = None /\
  Drizzle.findById "missing" [older; newer] = None /\
  Mongoose.findById "missing" [olderDoc] = None.
Proof.
  apply (c5_findById_absent_returns_null "missing" [older; newer] [older; newer]
           [olderDoc]); compute_done.
Defined.

(** *** update with the empty patch *)

(** Under a unique key, the first row selected by the key of [x] is [x]. *)
Lemma head_filter_key {A} (key : A -> string) (l : list A) (x : A) :
  NoDup (map key l) -> x ∈ l ->
  head (List.filter (fun y => bool_decide (key y = key x)) l) = Some x.
Proof.
  induction l as [|y l IH]; intros Hnd Hin; [by apply elem_of_nil in Hin|].
  cbn [map] in Hnd. apply NoDup_cons in Hnd as [Hy Hnd].
  cbn [List.filter]. apply elem_of_cons in Hin as [->|Hin].
  - by rewrite bool_decide_eq_true_2.
  - rewrite bool_decide_eq_false_2; [by apply IH|].
    intros E. apply Hy. rewrite E. apply list_elem_of_fmap. by exists x.
Qed.

(** Rewriting the selected rows with a function that keeps the key rewrites
    the selection. *)
Lemma filter_key_rewrite {A} (key : A -> string) (g : A -> A) (k : string)
    (l : list A) :
  (forall y, key (g y) = key y) ->
  List.filter (fun y => bool_decide (key y = k))
    (map (fun y => if bool_decide (key y = k) then g y else y) l) =
  map g (List.filter (fun y => bool_decide (key y = k)) l).
Proof.
  intros Hg. induction l as [|y l IH]; [done|].
  cbn [map List.filter]. destruct (bool_decide (key y = k)) eqn:E.
  - rewrite Hg, E. cbn [map]. by rewrite IH.
  - by rewrite E, IH.
Qed.

Lemma head_map {A B} (f : A -> B) (l : list A) : head (map f l) = f <$> head l.
Proof. by destruct l. Qed.











(** *** findByTags *)

Lemma List_filter_stdpp {A} (p : A -> bool) (P : A -> Prop)
    `{!forall x, Decision (P x)} (l : list A) :
  (forall x, p x = true <-> P x) -> List.filter p l = filter P l.
Proof.
  intros Hp. induction l as [|x l IH]; [done|].
  cbn [List.filter]. rewrite filter_cons, IH.
  destruct (p x) eqn:E; case_decide as HP; try done.
  - by apply Hp in E.
  - apply Hp in HP. congruence.
Qed.

Lemma arrayIncludes_spec (l : list string) (x : string) :
  arrayIncludes l x = true <-> x ∈ l.
Proof. unfold arrayIncludes. apply bool_decide_eq_true. Qed.

(** The callback of Drizzle's in-memory filter and Prisma's [hasSome]. *)
Lemma some_query_tag_included (recordTags tags : list string) :
  existsb (fun tag => arrayIncludes recordTags tag) tags = true <->
  sharesTag recordTags tags.
Proof.
  rewrite existsb_exists. unfold sharesTag. split.
  - intros (tag & Hin & Hinc). exists tag.
    split; [by apply arrayIncludes_spec | by apply list_elem_of_In].
  - intros (tag & Hrec & Hq). exists tag.
    split; [by apply list_elem_of_In | by apply arrayIncludes_spec].
Qed.

(** Mongo's [$in] on an array path. *)
Lemma some_record_tag_in (recordTags tags : list string) :
  existsb (fun tag => arrayIncludes tags tag) recordTags = true <->
  sharesTag recordTags tags.
Proof.
  rewrite existsb_exists. unfold sharesTag. split.
  - intros (tag & Hin & Hinc). exists tag.
    split; [by apply list_elem_of_In | by apply arrayIncludes_spec].
  - intros (tag & Hrec & Hq). exists tag.
    split; [by apply list_elem_of_In | by apply arrayIncludes_spec].
Qed.

Lemma filter_entities (P : Todo.t -> Prop) `{!forall x, Decision (P x)}
    (docs : list TodoDocument.t) :
  filter P (map Mongoose.mapDocumentToEntity docs) =
  map Mongoose.mapDocumentToEntity
      (filter (fun d => P (Mongoose.mapDocumentToEntity d)) docs).
Proof.
  induction docs as [|d docs IH]; [done|].
  cbn [map]. rewrite !filter_cons, IH. by case_decide.
Qed.

Lemma no_tag_shared_with_nil (recordTags : list string) : ~ sharesTag recordTags [].
Proof. intros (tag & _ & H). by apply elem_of_nil in H. Qed.

Lemma filter_none {A} (P : A -> Prop) `{!forall x, Decision (P x)} (l : list A) :
  (forall x, ~ P x) -> filter P l = [].
Proof.
  intros HP. induction l as [|x l IH]; [done|].
  rewrite filter_cons, IH. case_decide; [by destruct (HP x)|done].
Qed.

Lemma drizzle_findByTags_spec (tags : list string) (table : Drizzle.Table) :
  Drizzle.findByTags tags table =
    filter (fun todo => sharesTag (Todo.tags todo) tags)
           (orderByAsc Todo.createdAt table).
Proof.
  unfold Drizzle.findByTags. apply List_filter_stdpp.
  intros todo. apply some_query_tag_included.
Qed.

Lemma prisma_findByTags_spec (tags : list string) (table : Prisma.Table) :
  Prisma.findByTags tags table =
    orderByDesc Todo.createdAt
      (filter (fun todo => sharesTag (Todo.tags todo) tags) table).
Proof.
  unfold Prisma.findByTags, Prisma.todo_findMany. rewrite map_withMetadata.
  f_equal. apply List_filter_stdpp.
  intros todo. apply some_query_tag_included.
Qed.

Lemma mongoose_findByTags_spec (tags : list string) (coll : Mongoose.Collection) :
  Mongoose.findByTags tags coll =
    map Mongoose.mapDocumentToEntity
      (orderByDesc TodoDocument.createdAt
         (filter (fun d => sharesTag (Todo.tags (Mongoose.mapDocumentToEntity d)) tags)
                 coll)).
Proof.
  unfold Mongoose.findByTags, Mongoose.find_sorted. do 2 f_equal.
  apply List_filter_stdpp. intros d. apply some_record_tag_in.
Qed.

(** C7: on each repository, [findByTags] returns exactly the stored records
    whose tag list shares at least one element with the given list, each
    once (any-match); in particular, for the empty list each of the three
    returns no record. *)
Theorem c7_findByTags_any_match (tags : list string)
    (ptable : Prisma.Table) (dtable : Drizzle.Table) (coll : Mongoose.Collection) :
  Prisma.findByTags tags ptable ≡ₚ
    filter (fun todo => sharesTag (Todo.tags todo) tags) ptable /\
  Drizzle.findByTags tags dtable ≡ₚ
    filter (fun todo => sharesTag (Todo.tags todo) tags) dtable /\
  Mongoose.findByTags tags coll ≡ₚ
    filter (fun todo => sharesTag (Todo.tags todo) tags) (records coll) /\
  Prisma.findByTags [] ptable = [] /\
  Drizzle.findByTags [] dtable = [] /\
  Mongoose.findByTags [] coll = [].
Proof.
  split; [|split; [|split; [|split; [|split]]]].
  - rewrite prisma_findByTags_spec. apply orderByDesc_perm.
  - rewrite drizzle_findByTags_spec. by rewrite orderByAsc_perm.
  - rewrite mongoose_findByTags_spec. unfold records. rewrite filter_entities.
    apply fmap_Permutation, orderByDesc_perm.
  - rewrite prisma_findByTags_spec.
    rewrite (filter_none (fun todo => sharesTag (Todo.tags todo) []))
      by (intros todo; apply no_tag_shared_with_nil).
    by vm_compute.
  - rewrite drizzle_findByTags_spec.
    apply filter_none. intros todo. apply no_tag_shared_with_nil.
  - rewrite mongoose_findByTags_spec.
    rewrite (filter_none
               (fun d => sharesTag (Todo.tags (Mongoose.mapDocumentToEntity d)) []))
      by (intros d; apply no_tag_shared_with_nil).
    by vm_compute.
Qed.

(** Any-match, not all-match: a record tagged [home] and [shop] is found by
    a query for [shop] and [garden], on each repository. *)
Lemma findByTags_one_common_tag_suffices :
  Prisma.findByTags ["shop"; "garden"] [older; newer] = [newer] /\
  Drizzle.findByTags ["shop"; "garden"] [older; newer] = [newer] /\
  Mongoose.findByTags ["shop"; "garden"] [olderDoc; newerDoc] =
    [Mongoose.mapDocumentToEntity newerDoc].
Proof. repeat split; by vm_compute. Qed.

End RepositoryFacts.

(** ** Validation pipe and creation *)

Section PipeFacts.
Import Zod ZodValidationPipe.
Context {V P : Type}.
Implicit Types (schema : V -> Outcome ParseFailure P) (metadata : ArgumentMetadata).

(** The pipe rejects only what the schema rejects, and only bodies. *)
Lemma transform_rejects_bodies_only schema (value : V) metadata e :
  transform schema value metadata = Throw e ->
  type metadata = body /\ isThrow (schema value) = true.
Proof.
  unfold transform. case_bool_decide as Hty; cbn [negb]; [|done].
  destruct (schema value) as [parsed|[issues|]]; by intros.
Qed.

(** C10: for an argument whose metadata type is not ['body'], [transform]
    returns the value it was given, whatever the schema would say of it; so
    the pipe throws its 400 error for body arguments only. *)
Theorem c10_transform_skips_non_body schema (value : V) metadata :
  type metadata <> body ->
  transform schema value metadata = Return (Untouched value) /\
  (forall e, transform schema value metadata <> Throw e).
Proof.
  intros Hty.
  assert (transform schema value metadata = Return (Untouched value)) as E.
  { unfold transform. by rewrite bool_decide_eq_false_2. }
  split; [exact E|]. intros e. by rewrite E.
Qed.

End PipeFacts.

Lemma c10_transform_skips_non_body_witness :
  ZodValidationPipe.transform ZodValidationPipe.rejectAll (JString "42")
    (ZodValidationPipe.mkMetadata ZodValidationPipe.param (Some "id"))
  = Return (ZodValidationPipe.Untouched (JString "42")) /\
  (forall e,
      ZodValidationPipe.transform ZodValidationPipe.rejectAll (JString "42")
        (ZodValidationPipe.mkMetadata ZodValidationPipe.param (Some "id"))
      <> Throw e).
Proof.
  apply (c10_transform_skips_non_body ZodValidationPipe.rejectAll (JString "42")
           (ZodValidationPipe.mkMetadata ZodValidationPipe.param (Some "id"))).
  simpl. discriminate.
Defined.

Lemma trimStart_length (s : string) : (String.length (trimStart s) <= String.length s)%nat.
Proof.
  induction s as [|c s IH]; cbn [trimStart]; [done|].
  destruct (isWhiteSpace c); cbn [String.length] in *; lia.
Qed.

Lemma trimEnd_length (s : string) : (String.length (trimEnd s) <= String.length s)%nat.
Proof.
  induction s as [|c s IH]; cbn [trimEnd]; [done|].
  destruct (trimEnd s) as [|c' s'] eqn:E.
  - destruct (isWhiteSpace c); cbn [String.length] in *; lia.
  - cbn [String.length] in *. lia.
Qed.

Lemma trim_length (s : string) : (String.length (trim s) <= String.length s)%nat.
Proof.
  unfold trim. pose proof (trimEnd_length (trimStart s)).
  pose proof (trimStart_length s). lia.
Qed.

Lemma validateTitle_ok (title : string) :
  title <> EmptyString -> (String.length title <= 255)%nat ->
  Mongoose.validateTitle title = None.
Proof.
  intros Hne Hlen. unfold Mongoose.validateTitle.
  rewrite bool_decide_eq_false_2 by done.
  by rewrite (proj2 (Nat.ltb_ge _ _) Hlen).
Qed.

Lemma validateDescription_ok (description : option string) :
  (forall d, description = Some d -> (String.length d <= 1000)%nat) ->
  Mongoose.validateDescription description = None.
Proof.
  intros Hlen. destruct description as [d|]; [|done].
  unfold Mongoose.validateDescription.
  by rewrite (proj2 (Nat.ltb_ge _ _) (Hlen d eq_refl)).
Qed.

Lemma validatePriority_ok (priority : string) :
  arrayIncludes Mongoose.PRIORITIES priority = true ->
  Mongoose.validatePriority priority = None.
Proof. intros H. unfold Mongoose.validatePriority. by rewrite H. Qed.

(** [Mongoose.create], with the document written out. *)
Lemma mongoose_create_eq (data : CreateTodoInput.t) (id : string) (now : Date)
    (coll : Mongoose.Collection) :
  Mongoose.create data id now coll =
    let created :=
      TodoDocument.mk id (trim (CreateTodoInput.title data))
        (trim <$> CreateTodoInput.description data)
        (default false (CreateTodoInput.completed data))
        (default "medium" (CreateTodoInput.priority data))
        (default [] (CreateTodoInput.tags data))
        (CreateTodoInput.dueDate data) now now in
    match Mongoose.firstError
            [Mongoose.validateTitle (trim (CreateTodoInput.title data));
             Mongoose.validateDescription (trim <$> CreateTodoInput.description data);
             Mongoose.validatePriority (default "medium" (CreateTodoInput.priority data))]
    with
    | Some e => Throw e
    | None => Return (coll ++ [created], Mongoose.mapDocumentToEntity created)
    end.
Proof. reflexivity. Qed.

Section CreateFacts.
Import Zod ZodValidationPipe TodoSchemas.
Variable coerceDate : Json -> option Date.

Lemma transform_body_parsed (value : Json) dto :
  transform (CreateTodoSchema_parse coerceDate) value bodyArgument
    = Return (Parsed dto) ->
  CreateTodoSchema_parse coerceDate value = Return dto.
Proof.
  unfold transform, bodyArgument. cbn.
  destruct (CreateTodoSchema_parse coerceDate value) as [d|[issues|]];
    by intros [= ->].
Qed.

(** A parsed body: the fields of the result are the results of the
    field parsers. *)
Lemma CreateTodoSchema_parse_inv (value : Json) dto :
  CreateTodoSchema_parse coerceDate value = Return dto ->
  exists entries,
    value = JObject entries /\
    parseTitle (getField "title" entries) = Return (CreateTodoDto.title dto) /\
    parseDescription (getField "description" entries)
      = Return (CreateTodoDto.description dto) /\
    parseCompleted (getField "completed" entries)
      = Return (CreateTodoDto.completed dto) /\
    parsePriority (getField "priority" entries)
      = Return (CreateTodoDto.priority dto) /\
    parseTags (getField "tags" entries) = Return (CreateTodoDto.tags dto).
Proof.
  destruct value as [| | | | |entries]; try done.
  unfold CreateTodoSchema_parse. intros H. exists entries.
  destruct (parseTitle _) as [t|]; [|done].
  destruct (parseDescription _) as [d|]; [|done].
  destruct (parseCompleted _) as [c|]; [|done].
  destruct (parsePriority _) as [p|]; [|done].
  destruct (parseDueDate _ _) as [dd|]; [|done].
  destruct (parseTags _) as [tg|]; [|done].
  destruct (parseMetadata _) as [m|]; [|done].
  by injection H as <-.
Qed.

Lemma parsed_defaults (value : Json) dto :
  CreateTodoSchema_parse coerceDate value = Return dto ->
  (omits "completed" value -> CreateTodoDto.completed dto = false) /\
  (omits "priority" value -> CreateTodoDto.priority dto = "medium") /\
  (omits "tags" value -> CreateTodoDto.tags dto = []).
Proof.
  intros H. apply CreateTodoSchema_parse_inv in H
    as (entries & -> & _ & _ & Hc & Hp & Ht).
  cbn [omits]. repeat split; intros Ho; rewrite Ho in *; cbn in *; congruence.
Qed.

Lemma parsed_bounds (value : Json) dto :
  CreateTodoSchema_parse coerceDate value = Return dto ->
  (String.length (CreateTodoDto.title dto) <= 200)%nat /\
  (forall d, CreateTodoDto.description dto = Some d -> (String.length d <= 1000)%nat) /\
  arrayIncludes Mongoose.PRIORITIES (CreateTodoDto.priority dto) = true.
Proof.
  intros H. apply CreateTodoSchema_parse_inv in H
    as (entries & -> & Ht & Hd & _ & Hp & _).
  repeat split.
  - unfold parseTitle in Ht. repeat case_match; simplify_eq.
    by apply Nat.ltb_ge.
  - intros d Hdesc. unfold parseDescription in Hd. rewrite Hdesc in Hd.
    repeat case_match; simplify_eq. by apply Nat.ltb_ge.
  - unfold parsePriority in Hp. repeat case_match; simplify_eq.
    + assumption.
    + rewrite <- Hp. by vm_compute.
Qed.

(** C4: when the body passes [CreateTodoSchema] and is handed to [create],
    the Todo each repository returns has [completed = false] if the body
    omitted [completed], [priority = 'medium'] if it omitted [priority], and
    [tags = []] if it omitted [tags].  Prisma and Drizzle always return one;
    Mongoose returns one whenever the title is not blank. *)
Theorem c4_create_fills_defaults (body : Json) (dto : CreateTodoDto.t)
    (id : string) (createdNow updatedNow : Date)
    (ptable : Prisma.Table) (dtable : Drizzle.Table) (coll : Mongoose.Collection) :
  transform (CreateTodoSchema_parse coerceDate) body bodyArgument
    = Return (Parsed dto) ->
  let input := CreateTodoDto.asInput dto in
  defaultsFilled body (snd (Prisma.create input id createdNow updatedNow ptable)) /\
  (exists todo,
      snd (Drizzle.create input id createdNow updatedNow dtable) = Some todo /\
      defaultsFilled body todo) /\
  (forall coll' todo,
      Mongoose.create input id createdNow coll = Return (coll', todo) ->
      defaultsFilled body todo) /\
  (trim (CreateTodoDto.title dto) <> EmptyString ->
   exists coll' todo, Mongoose.create input id createdNow coll = Return (coll', todo)).
Proof.
  intros Hpipe input. apply transform_body_parsed in Hpipe.
  destruct (parsed_defaults body dto Hpipe) as (Hc & Hp & Ht).
  destruct (parsed_bounds body dto Hpipe) as (Htitle & Hdesc & Hprio).
  assert (Mongoose.firstError
            [Mongoose.validateTitle (trim (CreateTodoDto.title dto));
             Mongoose.validateDescription (trim <$> CreateTodoDto.description dto);
             Mongoose.validatePriority (CreateTodoDto.priority dto)] = None
          \/ trim (CreateTodoDto.title dto) = EmptyString) as Hvalid.
  { destruct (decide (trim (CreateTodoDto.title dto) = EmptyString)) as [|Hne];
      [by right|left].
    pose proof (trim_length (CreateTodoDto.title dto)) as Hlen.
    rewrite validateTitle_ok by (done || lia).
    rewrite validatePriority_ok by done.
    rewrite validateDescription_ok; [done|].
    intros d Hd. destruct (CreateTodoDto.description dto) as [d'|]; [|done].
    injection Hd as <-. pose proof (trim_length d'). specialize (Hdesc d' eq_refl).
    lia. }
  split; [|split; [|split]].
  - unfold defaultsFilled. cbn. repeat split; intros Ho; auto.
    by rewrite Hp.
  - eexists. split; [reflexivity|].
    unfold defaultsFilled. cbn. repeat split; intros Ho; auto.
    by rewrite Hp.
  - intros coll' todo. rewrite mongoose_create_eq.
    case_match; [done|]. intros [= _ <-].
    unfold defaultsFilled. cbn. repeat split; intros Ho; auto.
    by rewrite Hp.
  - intros Hne. destruct Hvalid as [Hvalid|]; [|done].
    rewrite mongoose_create_eq. subst input.
    cbn [CreateTodoDto.asInput CreateTodoInput.title CreateTodoInput.description
         CreateTodoInput.priority default from_option Datatypes.id].
    rewrite Hvalid. by eexists _, _.
Qed.

End CreateFacts.

Lemma c4_create_fills_defaults_witness :
  let input := CreateTodoDto.asInput Samples.titleOnlyDto in
  defaultsFilled Samples.titleOnly
    (snd (Prisma.create input "c" 3000 3000 [Samples.older])) /\
  (exists todo,
      snd (Drizzle.create input "c" 3000 3000 [Samples.older]) = Some todo /\
      defaultsFilled Samples.titleOnly todo) /\
  (forall coll' todo,
      Mongoose.create input "c" 3000 [Samples.olderDoc] = Return (coll', todo) ->
      defaultsFilled Samples.titleOnly todo) /\
  (trim (CreateTodoDto.title Samples.titleOnlyDto) <> EmptyString ->
   exists coll' todo,
     Mongoose.create input "c" 3000 [Samples.olderDoc] = Return (coll', todo)).
Proof.
  apply (c4_create_fills_defaults Samples.epochOnly Samples.titleOnly
           Samples.titleOnlyDto "c" 3000 3000 [Samples.older] [Samples.older]
           [Samples.olderDoc]).
  vm_compute. reflexivity.
Defined.

(** ** Error tracking *)

Section ErrorTrackingFacts.
Import FeatureFlags ErrorTracking.
Variables bugsnagService sentryService postHogService : IErrorTrackingService.

#[local] Abbreviation capture :=
  (captureException bugsnagService sentryService postHogService).

(** With error tracking off, or a provider that is none of the three, the
    constructor leaves no active service. *)
Lemma no_provider_no_active_service (featureFlags : FeatureFlagsConfig) :
  errorTracking featureFlags ∉
    [ErrorTrackingProvider.BUGSNAG; ErrorTrackingProvider.SENTRY;
     ErrorTrackingProvider.POSTHOG] ->
  activeService (snd (UnifiedErrorTrackingService_new featureFlags)) = None.
Proof.
  intros Hnot. unfold UnifiedErrorTrackingService_new, initializeService.
  destruct (negb (isErrorTrackingEnabled featureFlags)); [done|].
  unfold getErrorTrackingProvider.
  repeat (case_bool_decide as E;
          [exfalso; apply Hnot; rewrite E; set_solver | clear E]).
  done.
Qed.

(** C9: [captureException] on the unified service returns normally for every
    error, metadata and state of the service, however the constructor chose
    the active provider.  With no active provider, nothing is forwarded and
    the call only writes a debug line; with one, the error is forwarded to
    it, and a value it throws is logged at error level and goes no
    further. *)
Theorem c9_captureException_never_throws
    (this : UnifiedErrorTrackingService) (error : Error)
    (metadata : option Metadata) :
  outcome_of (capture this error metadata) = Return tt /\
  (activeService this = None ->
   fst (capture this error metadata)
     = [Log LogDebug "No error tracking service available" None] /\
   forwards (fst (capture this error metadata)) = false) /\
  (forall s thrown,
      activeService this = Some s ->
      captureException_impl (service bugsnagService sentryService postHogService s)
        error metadata = Some thrown ->
      fst (capture this error metadata)
        = [CaptureException s error metadata;
           Log LogError "Failed to capture exception:" (Some thrown)]).
Proof.
  unfold captureException, outcome_of.
  destruct (activeService this) as [s|].
  - destruct (captureException_impl _ error metadata) as [thrown|] eqn:E.
    + split; [done|]. split; [done|].
      intros s' thrown' [= <-]. rewrite E. by intros [= <-].
    + split; [done|]. split; [done|].
      intros s' thrown' [= <-]. by rewrite E.
  - split; [done|]. split; [done|]. done.
Qed.

End ErrorTrackingFacts.

Lemma c9_captureException_witness :
  let this := ErrorTracking.mkUnified (Some ErrorTracking.Sentry) in
  let call :=
    ErrorTracking.captureException ErrorTracking.failingService
      ErrorTracking.failingService ErrorTracking.failingService
      this "boom" None in
  ErrorTracking.outcome_of call = Return tt /\
  fst call =
    [ErrorTracking.CaptureException ErrorTracking.Sentry "boom" None;
     ErrorTracking.Log LogError "Failed to capture exception:"
       (Some "network down")].
Proof.
  destruct (c9_captureException_never_throws ErrorTracking.failingService
              ErrorTracking.failingService ErrorTracking.failingService
              (ErrorTracking.mkUnified (Some ErrorTracking.Sentry)) "boom" None)
    as (Hret & _ & Hlog).
  split; [exact Hret|].
  apply (Hlog ErrorTracking.Sentry "network down"); reflexivity.
Defined.

(** * Further properties *)

(** ** Feature flags: construction, accessors, middleware, repository choice *)

Section FeatureFlagsMoreFacts.
Import FeatureFlags FeatureFlagsService.
Implicit Types (env : Env) (config : FeatureFlagsConfig).

Lemma getConfig_id config : getConfig config = config.
Proof. by destruct config. Qed.

Lemma crossFieldErrors_missing env :
  crossFieldErrors env (selectedProviders env) <> [] -> missingCombination env.
Proof.
  unfold crossFieldErrors, mongoErrors, postgresErrors, redisErrors,
    missingCombination, mongoUrlMissing, databaseUrlMissing, redisHostMissing,
    unset.
  cbn [database cache selectedProviders]. intros Hne.
  destruct (bool_decide (optionValue env DATABASE_OPTION =
                         DatabaseProvider.MONGOOSE_MONGODB)) eqn:Em.
  - apply bool_decide_eq_true in Em.
    destruct (truthy (configGet env "MONGODB_URL")) eqn:Eu; [|by left].
    cbn [negb app] in Hne.
    destruct (arrayIncludes _ (optionValue env DATABASE_OPTION)) eqn:Ep.
    + rewrite Em in Ep. by vm_compute in Ep.
    + cbn [app] in Hne. right. right.
      destruct (bool_decide (optionValue env CACHE_OPTION = CacheProvider.REDIS))
        eqn:Ec; [|done].
      apply bool_decide_eq_true in Ec.
      by destruct (truthy (configGet env "REDIS_HOST")).
  - cbn [app] in Hne.
    destruct (arrayIncludes _ (optionValue env DATABASE_OPTION)) eqn:Ep.
    + apply arrayIncludes_spec in Ep.
      destruct (truthy (configGet env "DATABASE_URL")) eqn:Eu.
      * cbn [negb app] in Hne. right. right.
        destruct (bool_decide (optionValue env CACHE_OPTION = CacheProvider.REDIS))
          eqn:Ec; [|done].
        apply bool_decide_eq_true in Ec.
        by destruct (truthy (configGet env "REDIS_HOST")).
      * right. left. split; [|done].
        apply elem_of_cons in Ep as [Ep|Ep]; [by left|].
        apply elem_of_cons in Ep as [Ep|Ep]; [by right|].
        by apply elem_of_nil in Ep.
    + cbn [app] in Hne. right. right.
      destruct (bool_decide (optionValue env CACHE_OPTION = CacheProvider.REDIS))
        eqn:Ec; [|done].
      apply bool_decide_eq_true in Ec.
      by destruct (truthy (configGet env "REDIS_HOST")).
Qed.

Lemma selectedProviders_legal env :
  invalidOptions env = [] -> legalConfig (selectedProviders env).
Proof.
  intros Hnil.
  assert (forall o, o ∈ PROVIDER_OPTIONS -> optionValue env o ∈ validOptions o) as Hall.
  { intros o Ho. pose proof (invalidOptions_nil env o Hnil Ho) as H.
    unfold isInvalid in H. apply negb_false_iff in H.
    by apply arrayIncludes_spec in H. }
  unfold legalConfig; cbn [database errorTracking auth cache documentation logging
                           performance selectedProviders].
  repeat split.
  - apply (Hall DATABASE_OPTION). unfold PROVIDER_OPTIONS. set_solver.
  - apply (Hall ERROR_TRACKING_OPTION). unfold PROVIDER_OPTIONS. set_solver.
  - apply (Hall AUTH_OPTION). unfold PROVIDER_OPTIONS. set_solver.
  - apply (Hall CACHE_OPTION). unfold PROVIDER_OPTIONS. set_solver.
  - apply (Hall DOCUMENTATION_OPTION). unfold PROVIDER_OPTIONS. set_solver.
  - apply (Hall LOGGING_OPTION). unfold PROVIDER_OPTIONS. set_solver.
  - apply (Hall PERFORMANCE_OPTION). unfold PROVIDER_OPTIONS. set_solver.
Qed.

(** What a successful construction tells. *)
Lemma constructed_inv env logs config :
  FeatureFlagsService_new env = (logs, Return config) ->
  invalidOptions env = [] /\ ~ missingCombination env /\
  config = selectedProviders env /\ logs = [mkLog LogInfo VALIDATION_PASSED].
Proof.
  unfold FeatureFlagsService_new, loadAndValidateConfig.
  rewrite readProviders_first_invalid.
  destruct (invalidOptions env) as [|o rest] eqn:Hinv; [|done].
  cbn [bind app]. unfold validateConfiguration.
  destruct (collectErrors env (selectedProviders env)) as [|e errs] eqn:Herr;
    [|done].
  cbn. intros [= <- <-]. repeat split; try done.
  intros Hmiss. apply missingCombination_errors in Hmiss.
  unfold collectErrors in Herr. by apply app_eq_nil in Herr as [_ Herr].
Qed.

Lemma constructed_legal env logs config :
  FeatureFlagsService_new env = (logs, Return config) -> legalConfig config.
Proof.
  intros H. apply constructed_inv in H as (Hinv & _ & -> & _).
  by apply selectedProviders_legal.
Qed.

(** X1: the construction succeeds exactly when every enumerated option is
    legal and no required combination is missing; it then logs one line and
    holds, for each feature, the value of its variable or its default. *)
Theorem x1_construction_succeeds_iff env :
  (invalidOptions env = [] /\ ~ missingCombination env <->
   exists logs config, FeatureFlagsService_new env = (logs, Return config)) /\
  (forall logs config,
      FeatureFlagsService_new env = (logs, Return config) ->
      config = selectedProviders env /\ legalConfig config /\
      logs = [mkLog LogInfo VALIDATION_PASSED]).
Proof.
  split; [split|].
  - intros [Hinv Hmiss]. exists [mkLog LogInfo VALIDATION_PASSED], (selectedProviders env).
    unfold FeatureFlagsService_new, loadAndValidateConfig.
    rewrite readProviders_first_invalid, Hinv. cbn [bind app].
    unfold validateConfiguration, collectErrors.
    rewrite missingProviderErrors_nil by done.
    destruct (crossFieldErrors env (selectedProviders env)) as [|e errs] eqn:E;
      [done|].
    destruct Hmiss. apply crossFieldErrors_missing. by rewrite E.
  - intros (logs & config & H). by apply constructed_inv in H as (? & ? & _).
  - intros logs config H. pose proof (constructed_legal _ _ _ H).
    by apply constructed_inv in H as (_ & _ & ? & ?).
Qed.

(** X2: the configuration of a constructed service passes the middleware's
    own validation, so [use] fails only when the rest of the pipeline throws
    inside it: if [next] returns, [use] returns with the configuration
    attached to the request and logs nothing; if [next] throws, that error is
    reported as a feature configuration error. *)
Theorem x2_middleware_accepts_constructed env logs config
    (next : FeatureFlagsConfig -> option string) :
  FeatureFlagsService_new env = (logs, Return config) ->
  FeatureValidationMiddleware.validateFeatureConfiguration config = Return tt /\
  (next config = None ->
   FeatureValidationMiddleware.use config next = ([], Return config)) /\
  (forall message,
      next config = Some message ->
      outcome (FeatureValidationMiddleware.use config next)
        = Throw ("Feature configuration error: " +:+ message)).
Proof.
  intros H. apply constructed_legal in H as (Hd & He & Ha & Hc & Hdoc & Hl & Hp).
  assert (FeatureValidationMiddleware.validateFeatureConfiguration config
          = Return tt) as Hv.
  { unfold FeatureValidationMiddleware.validateFeatureConfiguration,
      FeatureValidationMiddleware.configurationErrors,
      FeatureValidationMiddleware.invalidProvider.
    rewrite getConfig_id.
    by rewrite !(proj2 (arrayIncludes_spec _ _)). }
  split; [exact Hv|].
  unfold FeatureValidationMiddleware.use. rewrite Hv, getConfig_id.
  split; [by intros ->|]. by intros message ->.
Qed.

Lemma x2_middleware_accepts_witness :
  FeatureValidationMiddleware.use (selectedProviders completeEnv) (fun _ => None)
    = ([], Return (selectedProviders completeEnv)).
Proof.
  destruct (x2_middleware_accepts_constructed completeEnv
              [mkLog LogInfo VALIDATION_PASSED] (selectedProviders completeEnv)
              (fun _ => None)) as (_ & Hret & _);
    [by vm_compute|].
  by apply Hret.
Defined.

(** X3: on the configuration of a constructed service the checkers agree:
    authentication is enabled exactly when the bearer or the API-key scheme
    is, the performance features exactly when throttling (and compression)
    is, benchmarking only with throttling, detailed logging only with
    logging. *)
Theorem x3_checkers_agree env logs config :
  FeatureFlagsService_new env = (logs, Return config) ->
  isAuthEnabled config = isBearerAuthEnabled config || isApiKeyAuthEnabled config /\
  isPerformanceEnabled config = isThrottlingEnabled config /\
  isThrottlingEnabled config = isCompressionEnabled config /\
  (isBenchmarkingEnabled config = true -> isThrottlingEnabled config = true) /\
  (isDetailedLoggingEnabled config = true -> isLoggingEnabled config = true).
Proof.
  intros H. apply constructed_legal in H as (_ & _ & Ha & _ & _ & Hl & Hp).
  unfold isAuthEnabled, isBearerAuthEnabled, isApiKeyAuthEnabled,
    isPerformanceEnabled, isThrottlingEnabled, isCompressionEnabled,
    isBenchmarkingEnabled, isDetailedLoggingEnabled, isLoggingEnabled.
  repeat split.
  - unfold VALID_PROVIDERS.AUTH in Ha.
    repeat (apply elem_of_cons in Ha as [->|Ha]); [by vm_compute..|].
    by apply elem_of_nil in Ha.
  - unfold VALID_PROVIDERS.PERFORMANCE in Hp.
    repeat (apply elem_of_cons in Hp as [->|Hp]); [by vm_compute..|].
    by apply elem_of_nil in Hp.
  - intros Hb. apply bool_decide_eq_true in Hb. rewrite Hb. by vm_compute.
  - intros Hd. apply bool_decide_eq_true in Hd. rewrite Hd. by vm_compute.
Qed.

Lemma x3_checkers_agree_witness :
  let config := selectedProviders completeEnv in
  isAuthEnabled config = isBearerAuthEnabled config || isApiKeyAuthEnabled config /\
  isPerformanceEnabled config = isThrottlingEnabled config /\
  isThrottlingEnabled config = isCompressionEnabled config /\
  (isBenchmarkingEnabled config = true -> isThrottlingEnabled config = true) /\
  (isDetailedLoggingEnabled config = true -> isLoggingEnabled config = true).
Proof.
  apply (x3_checkers_agree completeEnv [mkLog LogInfo VALIDATION_PASSED]).
  vm_compute. reflexivity.
Defined.

(** X4: for every legal value of every enumerated option,
    [getProviderDescription] knows the value unless it is ['none'] or
    ['basic']: for these two, which the table lists under prefixed keys
    only, it answers "Unknown provider"; for every other legal value it
    answers the table's text. *)
Theorem x4_descriptions_of_legal_values (o : ProviderOption) (value : string) :
  o ∈ PROVIDER_OPTIONS -> value ∈ validOptions o ->
  (value ∈ ["none"; "basic"] ->
   getProviderDescription value = Text (unknownProvider value)) /\
  (value ∉ ["none"; "basic"] ->
   exists text,
     ownProperty PROVIDER_DESCRIPTIONS value = Some text /\
     getProviderDescription value = Text text /\
     text <> unknownProvider value).
Proof.
  intros Ho Hv. unfold PROVIDER_OPTIONS in Ho.
  repeat (apply elem_of_cons in Ho as [->|Ho]);
    [..|by apply elem_of_nil in Ho];
    cbn in Hv;
    repeat (apply elem_of_cons in Hv as [->|Hv]);
    try (by apply elem_of_nil in Hv);
    (split;
     [ intros Hin; first [ by vm_compute | exfalso; revert Hin; compute_done ]
     | intros Hnot; first [ exfalso; apply Hnot; compute_done
                          | eexists; split; [by vm_compute|];
                            split; [by vm_compute|]; by vm_compute ] ]).
Qed.

Lemma x4_descriptions_witness :
  getProviderDescription "none" = Text (unknownProvider "none").
Proof.
  apply (x4_descriptions_of_legal_values CACHE_OPTION "none");
    [by repeat constructor | compute_done | compute_done].
Defined.

End FeatureFlagsMoreFacts.

Section MiddlewareFacts.
Import FeatureFlags FeatureFlagsService FeatureValidationMiddleware.
Variable memberText : string -> string.
Implicit Types (config featureFlags : FeatureFlagsConfig)
  (requirement : FeatureRequirement).

Lemma isAllowed_met featureFlags requirement :
  isAllowed (allowedProviders requirement)
    (getProperty (entries featureFlags) (feature requirement)) = true <->
  met featureFlags requirement.
Proof.
  unfold met, getProperty.
  destruct (ownProperty (entries featureFlags) (feature requirement)) as [v|].
  - cbn [isAllowed]. rewrite arrayIncludes_spec. split.
    + intros Hin. by exists v.
    + by intros (v' & [= <-] & Hin).
  - split; [by case_match|]. by intros (v & ? & _).
Qed.

Lemma requirementErrors_nil featureFlags requirement :
  requirementErrors memberText featureFlags requirement = [] <->
  met featureFlags requirement.
Proof.
  rewrite <- isAllowed_met. unfold requirementErrors.
  destruct (isAllowed _ _); cbn [negb]; [done|].
  split; [|done]. repeat case_match; done.
Qed.

Lemma flat_map_nil {A B} (f : A -> list B) (l : list A) :
  flat_map f l = [] <-> Forall (fun x => f x = []) l.
Proof.
  induction l as [|x l IH]; cbn [flat_map].
  - split; [constructor|done].
  - rewrite Forall_cons. split.
    + intros H. apply app_eq_nil in H as [Hx Hl]. by rewrite <- IH.
    + intros [Hx Hl]. rewrite Hx. by apply IH.
Qed.

Lemma forFeatures_passes_iff (requirements : list FeatureRequirement) featureFlags :
  forFeatures memberText requirements (Some featureFlags) = Return tt <->
  Forall (met featureFlags) requirements.
Proof.
  unfold forFeatures.
  destruct (flat_map _ requirements) as [|e errs] eqn:E.
  - split; [|done]. intros _. apply flat_map_nil in E.
    eapply Forall_impl; [exact E|]. intros r. apply requirementErrors_nil.
  - split; [done|]. intros Hall.
    assert (flat_map (requirementErrors memberText featureFlags) requirements = [])
      as Hnil.
    { apply flat_map_nil. eapply Forall_impl; [exact Hall|].
      intros r. apply requirementErrors_nil. }
    congruence.
Qed.

(** X5: the middleware built by [forFeatures] lets a request through exactly
    when the request carries the feature flags and every requirement names
    a feature of the configuration whose provider is among the allowed
    ones; without the flags it rejects, whatever the requirements. *)
Theorem x5_forFeatures_passes_iff (requirements : list FeatureRequirement)
    (featureFlags : option FeatureFlagsConfig) :
  forFeatures memberText requirements featureFlags = Return tt <->
  exists config, featureFlags = Some config /\ Forall (met config) requirements.
Proof.
  destruct featureFlags as [config|].
  - rewrite forFeatures_passes_iff. split.
    + intros H. by exists config.
    + by intros (config' & [= <-] & H).
  - split; [done|]. by intros (config & ? & _).
Qed.

Lemma single_requirement_met config (name : string) (allowed : list string)
    (message : option string) (value : string) :
  ownProperty (entries config) name = Some value ->
  forFeatures memberText [mkRequirement name allowed message] (Some config)
    = Return tt <->
  value ∈ allowed.
Proof.
  intros Hv. rewrite forFeatures_passes_iff, Forall_singleton.
  unfold met; cbn [feature allowedProviders]. rewrite Hv. split.
  - by intros (v & [= <-] & Hin).
  - intros Hin. by exists value.
Qed.

(** X6: on the configuration of a constructed service, the middlewares
    [requireAuth()], [requireCache()], [requireErrorTracking()] and
    [requirePerformance()], called without providers, let a request through
    exactly when the service reports the feature as enabled. *)
Theorem x6_require_defaults_match_checkers env logs config :
  FeatureFlagsService_new env = (logs, Return config) ->
  (requireAuth memberText None (Some config) = Return tt <->
   isAuthEnabled config = true) /\
  (requireCache memberText None (Some config) = Return tt <->
   isCacheEnabled config = true) /\
  (requireErrorTracking memberText None (Some config) = Return tt <->
   isErrorTrackingEnabled config = true) /\
  (requirePerformance memberText None (Some config) = Return tt <->
   isPerformanceEnabled config = true).
Proof.
  intros H. apply constructed_legal in H as (_ & He & Ha & Hc & _ & _ & Hp).
  unfold requireAuth, requireCache, requireErrorTracking, requirePerformance,
    orDefault; cbn [given].
  split; [|split; [|split]].
  - rewrite (single_requirement_met config "auth" _ _ (auth config)) by done.
    unfold isAuthEnabled. unfold VALID_PROVIDERS.AUTH in Ha.
    repeat (apply elem_of_cons in Ha as [->|Ha]);
      [..|by apply elem_of_nil in Ha];
      (split; [intros Hin; first [by vm_compute | exfalso; revert Hin; compute_done]
              | intros Hen; first [compute_done | by vm_compute in Hen]]).
  - rewrite (single_requirement_met config "cache" _ _ (cache config)) by done.
    unfold isCacheEnabled. unfold VALID_PROVIDERS.CACHE in Hc.
    repeat (apply elem_of_cons in Hc as [->|Hc]);
      [..|by apply elem_of_nil in Hc];
      (split; [intros Hin; first [by vm_compute | exfalso; revert Hin; compute_done]
              | intros Hen; first [compute_done | by vm_compute in Hen]]).
  - rewrite (single_requirement_met config "errorTracking" _ _ (errorTracking config))
      by done.
    unfold isErrorTrackingEnabled. unfold VALID_PROVIDERS.ERROR_TRACKING in He.
    repeat (apply elem_of_cons in He as [->|He]);
      [..|by apply elem_of_nil in He];
      (split; [intros Hin; first [by vm_compute | exfalso; revert Hin; compute_done]
              | intros Hen; first [compute_done | by vm_compute in Hen]]).
  - rewrite (single_requirement_met config "performance" _ _ (performance config))
      by done.
    unfold isPerformanceEnabled. unfold VALID_PROVIDERS.PERFORMANCE in Hp.
    repeat (apply elem_of_cons in Hp as [->|Hp]);
      [..|by apply elem_of_nil in Hp];
      (split; [intros Hin; first [by vm_compute | exfalso; revert Hin; compute_done]
              | intros Hen; first [compute_done | by vm_compute in Hen]]).
Qed.

End MiddlewareFacts.

Lemma x6_require_defaults_witness :
  let config := FeatureFlags.selectedProviders FeatureFlagsService.completeEnv in
  (FeatureValidationMiddleware.requireAuth (fun name => name) None (Some config)
     = Return tt <->
   FeatureFlagsService.isAuthEnabled config = true) /\
  (FeatureValidationMiddleware.requireCache (fun name => name) None (Some config)
     = Return tt <->
   FeatureFlagsService.isCacheEnabled config = true) /\
  (FeatureValidationMiddleware.requireErrorTracking (fun name => name) None
     (Some config) = Return tt <->
   FeatureFlags.isErrorTrackingEnabled config = true) /\
  (FeatureValidationMiddleware.requirePerformance (fun name => name) None
     (Some config) = Return tt <->
   FeatureFlagsService.isPerformanceEnabled config = true).
Proof.
  apply (x6_require_defaults_match_checkers (fun name => name)
           FeatureFlagsService.completeEnv
           [mkLog LogInfo FeatureFlags.VALIDATION_PASSED]).
  vm_compute. reflexivity.
Defined.

Section RepositoryProviderFacts.
Import FeatureFlags RepositoryProvider.

(** X7: for the configuration of a constructed service and the three
    repository classes the Todos module passes, both factories return a
    repository and never throw, and it is the class of the configured
    provider; for a provider outside the three, both throw "Unknown
    database provider". *)
Theorem x7_repository_selected env logs config :
  FeatureFlagsService_new env = (logs, Return config) ->
  (exists repository,
      classOf (database config) = Some repository /\
      useFactory todoRepositoryOptions (database config) = Return repository /\
      createRepository (database config) (Some PrismaTodoRepository)
        (Some DrizzleTodoRepository) (Some MongooseTodoRepository)
        = Return repository) /\
  (forall (T : Type) (options : @RepositoryProviderOptions T) provider,
      provider ∉ VALID_PROVIDERS.DATABASE ->
      useFactory options provider
        = Throw ("Unknown database provider: " +:+ provider) /\
      createRepository provider (prismaRepository options)
        (drizzleRepository options) (mongooseRepository options)
        = Throw ("Unknown database provider: " +:+ provider)).
Proof.
  intros H. apply constructed_legal in H as (H & _).
  split.
  - unfold VALID_PROVIDERS.DATABASE in H.
    repeat (apply elem_of_cons in H as [->|H]); [..|by apply elem_of_nil in H];
      eexists; by vm_compute.
  - intros T options provider Hnot.
    unfold useFactory, createRepository.
    rewrite !bool_decide_eq_false_2; [done|intros ->; apply Hnot; compute_done..].
Qed.

Lemma x7_repository_selected_witness :
  exists repository,
    classOf "prisma-postgresql" = Some repository /\
    useFactory todoRepositoryOptions "prisma-postgresql" = Return repository.
Proof.
  destruct (x7_repository_selected FeatureFlagsService.completeEnv
              [mkLog LogInfo VALIDATION_PASSED]
              (selectedProviders FeatureFlagsService.completeEnv))
    as [(repository & Hclass & Hfactory & _) _]; [by vm_compute|].
  exists repository. split; [exact Hclass | exact Hfactory].
Defined.

End RepositoryProviderFacts.

(** ** Repositories: round trips, frames and filters *)

Section KeyedListFacts.
Context {A : Type} (key : A -> string).
Implicit Types (l : list A) (k : string).

Lemma filter_key_absent k l :
  k ∉ map key l -> List.filter (fun y => bool_decide (key y = k)) l = [].
Proof.
  induction l as [|y l IH]; intros Hnot; [done|].
  cbn [map] in Hnot. apply not_elem_of_cons in Hnot as [Hne Hrest].
  cbn [List.filter]. rewrite bool_decide_eq_false_2 by congruence. by apply IH.
Qed.

Lemma filter_key_snoc k l x :
  List.filter (fun y => bool_decide (key y = k)) (l ++ [x]) =
  List.filter (fun y => bool_decide (key y = k)) l ++
  (if bool_decide (key x = k) then [x] else []).
Proof. by rewrite List.filter_app. Qed.

Lemma filter_key_removed k k' l :
  List.filter (fun y => bool_decide (key y = k'))
    (List.filter (fun y => negb (bool_decide (key y = k))) l) =
  if bool_decide (k' = k) then []
  else List.filter (fun y => bool_decide (key y = k')) l.
Proof.
  induction l as [|y l IH]; [by case_bool_decide|].
  cbn [List.filter].
  destruct (bool_decide (k' = k)) eqn:Ek;
    destruct (bool_decide (key y = k)) eqn:E;
    destruct (bool_decide (key y = k')) eqn:E';
    cbn [negb List.filter]; rewrite ?E', ?IH; try done;
    try apply bool_decide_eq_true in Ek; try apply bool_decide_eq_false in Ek;
    try apply bool_decide_eq_true in E; try apply bool_decide_eq_false in E;
    try apply bool_decide_eq_true in E'; try apply bool_decide_eq_false in E';
    congruence.
Qed.

Lemma filter_key_updated (g : A -> A) k k' l :
  (forall y, key (g y) = key y) -> k' <> k ->
  List.filter (fun y => bool_decide (key y = k'))
    (map (fun y => if bool_decide (key y = k) then g y else y) l) =
  List.filter (fun y => bool_decide (key y = k')) l.
Proof.
  intros Hg Hne. induction l as [|y l IH]; [done|].
  cbn [map List.filter]. rewrite IH.
  destruct (bool_decide (key y = k)) eqn:E; [|done].
  apply bool_decide_eq_true in E. rewrite Hg.
  rewrite !bool_decide_eq_false_2; [done|congruence..].
Qed.

Lemma map_update_absent (g : A -> A) k l :
  k ∉ map key l ->
  map (fun y => if bool_decide (key y = k) then g y else y) l = l.
Proof.
  induction l as [|y l IH]; intros Hnot; [done|].
  cbn [map] in *. apply not_elem_of_cons in Hnot as [Hne Hrest].
  rewrite bool_decide_eq_false_2 by congruence. by rewrite IH.
Qed.

Lemma map_key_updated (g : A -> A) k l :
  (forall y, key (g y) = key y) ->
  map key (map (fun y => if bool_decide (key y = k) then g y else y) l) = map key l.
Proof.
  intros Hg. induction l as [|y l IH]; [done|].
  cbn [map]. rewrite IH. by case_bool_decide; rewrite ?Hg.
Qed.

End KeyedListFacts.

Section RepositoryMoreFacts.
Import Samples.
Implicit Types (id : string) (row todo : Todo.t) (doc : TodoDocument.t)
  (table : list Todo.t) (coll : Mongoose.Collection).

Lemma prisma_findById_eq id table :
  Prisma.findById id table =
    head (List.filter (fun r => bool_decide (Todo.id r = id)) table).
Proof.
  unfold Prisma.findById, Prisma.todo_findUnique, Prisma.idEq.
  destruct (head _) as [r|]; [by rewrite withMetadata_id|done].
Qed.

Lemma drizzle_findById_eq id table :
  Drizzle.findById id table =
    head (List.filter (fun r => bool_decide (Todo.id r = id)) table).
Proof.
  unfold Drizzle.findById, Drizzle.first, Drizzle.idEq. by destruct (head _).
Qed.

Lemma mongoose_findById_eq id coll :
  Mongoose.findById id coll =
    Mongoose.mapDocumentToEntity <$>
      head (List.filter (fun d => bool_decide (TodoDocument.cuid d = id)) coll).
Proof.
  unfold Mongoose.findById, Mongoose.findOne.
  change (List.filter (Mongoose.matches (Mongoose.ByCuid id)) coll)
    with (List.filter (fun d => bool_decide (TodoDocument.cuid d = id)) coll).
  by destruct (head _).
Qed.

(** *** create, then findById *)

Lemma head_snoc_fresh {A} (key : A -> string) (l : list A) (x : A) (k : string) :
  (k = key x -> key x ∉ map key l) ->
  head (List.filter (fun y => bool_decide (key y = k)) (l ++ [x])) =
  if bool_decide (key x = k) then Some x
  else head (List.filter (fun y => bool_decide (key y = k)) l).
Proof.
  intros Hfresh. rewrite filter_key_snoc. case_bool_decide as E.
  - subst k. rewrite (filter_key_absent key) by auto. done.
  - by rewrite app_nil_r.
Qed.

(** X8: creating a record under an id no stored record has makes
    [findById] of that id return exactly the record [create] returned, and
    leaves [findById] of every other id as it was; on each repository
    (Mongoose: when the document passes its validation). *)
Theorem x8_create_then_findById (data : CreateTodoInput.t) id
    (createdNow updatedNow : Date) :
  (forall table, id ∉ map Todo.id table ->
      let result := Prisma.create data id createdNow updatedNow table in
      Todo.id (snd result) = id /\
      Prisma.findById id (fst result) = Some (snd result) /\
      forall id', id' <> id ->
        Prisma.findById id' (fst result) = Prisma.findById id' table) /\
  (forall table, id ∉ map Todo.id table ->
      let result := Drizzle.create data id createdNow updatedNow table in
      (exists created, snd result = Some created /\ Todo.id created = id) /\
      Drizzle.findById id (fst result) = snd result /\
      forall id', id' <> id ->
        Drizzle.findById id' (fst result) = Drizzle.findById id' table) /\
  (forall coll coll' created, id ∉ map TodoDocument.cuid coll ->
      Mongoose.create data id createdNow coll = Return (coll', created) ->
      Todo.id created = id /\
      Mongoose.findById id coll' = Some created /\
      forall id', id' <> id ->
        Mongoose.findById id' coll' = Mongoose.findById id' coll).
Proof.
  split; [|split].
  - intros table Hfresh result. subst result. unfold Prisma.create.
    cbn [Prisma.todo_create fst snd]. rewrite withMetadata_id.
    split; [done|]. split.
    + rewrite prisma_findById_eq, (head_snoc_fresh Todo.id) by done.
      by rewrite bool_decide_eq_true_2.
    + intros id' Hne. rewrite !prisma_findById_eq.
      rewrite (head_snoc_fresh Todo.id) by (by intros ->).
      by rewrite bool_decide_eq_false_2.
  - intros table Hfresh result. subst result. unfold Drizzle.create.
    cbn [fst snd Drizzle.first head]. split; [by eexists|]. split.
    + rewrite drizzle_findById_eq, (head_snoc_fresh Todo.id) by done.
      by rewrite bool_decide_eq_true_2.
    + intros id' Hne. rewrite !drizzle_findById_eq.
      rewrite (head_snoc_fresh Todo.id) by (by intros ->).
      by rewrite bool_decide_eq_false_2.
  - intros coll coll' created Hfresh. rewrite mongoose_create_eq. cbn zeta.
    case_match; [done|]. intros [= <- <-]. split; [done|]. split.
    + rewrite mongoose_findById_eq, (head_snoc_fresh TodoDocument.cuid) by done.
      by rewrite bool_decide_eq_true_2.
    + intros id' Hne. rewrite !mongoose_findById_eq.
      rewrite (head_snoc_fresh TodoDocument.cuid) by (by intros ->).
      by rewrite bool_decide_eq_false_2.
Qed.

(** *** delete of a stored record *)

Lemma removeFirst_other id id' coll :
  id' <> id ->
  List.filter (fun d => bool_decide (TodoDocument.cuid d = id'))
    (Mongoose.removeFirst (Mongoose.cuidEq id) coll) =
  List.filter (fun d => bool_decide (TodoDocument.cuid d = id')) coll.
Proof.
  intros Hne. induction coll as [|d coll IH]; [done|].
  cbn [Mongoose.removeFirst]. unfold Mongoose.cuidEq at 1.
  case_bool_decide as E; cbn [List.filter].
  - by rewrite bool_decide_eq_false_2 by congruence.
  - by rewrite IH.
Qed.

Lemma removeFirst_same id coll :
  NoDup (map TodoDocument.cuid coll) ->
  List.filter (fun d => bool_decide (TodoDocument.cuid d = id))
    (Mongoose.removeFirst (Mongoose.cuidEq id) coll) = [].
Proof.
  induction coll as [|d coll IH]; intros Hnd; [done|].
  cbn [map] in Hnd. apply NoDup_cons in Hnd as [Hd Hnd].
  cbn [Mongoose.removeFirst]. unfold Mongoose.cuidEq at 1.
  case_bool_decide as E.
  - subst id. by apply (filter_key_absent TodoDocument.cuid).
  - cbn [List.filter]. rewrite bool_decide_eq_false_2 by done. by apply IH.
Qed.

Lemma replaceFirst_other (g : TodoDocument.t -> TodoDocument.t) id id' coll :
  (forall d, TodoDocument.cuid (g d) = TodoDocument.cuid d) -> id' <> id ->
  List.filter (fun d => bool_decide (TodoDocument.cuid d = id'))
    (Mongoose.replaceFirst (Mongoose.cuidEq id) g coll) =
  List.filter (fun d => bool_decide (TodoDocument.cuid d = id')) coll.
Proof.
  intros Hg Hne. induction coll as [|d coll IH]; [done|].
  cbn [Mongoose.replaceFirst]. unfold Mongoose.cuidEq at 1.
  case_bool_decide as E; cbn [List.filter].
  - rewrite Hg. by rewrite !bool_decide_eq_false_2 by congruence.
  - by rewrite IH.
Qed.

Lemma replaceFirst_same (g : TodoDocument.t -> TodoDocument.t) doc coll :
  (forall d, TodoDocument.cuid (g d) = TodoDocument.cuid d) ->
  NoDup (map TodoDocument.cuid coll) -> doc ∈ coll ->
  head (List.filter (fun d => bool_decide (TodoDocument.cuid d = TodoDocument.cuid doc))
          (Mongoose.replaceFirst (Mongoose.cuidEq (TodoDocument.cuid doc)) g coll))
    = Some (g doc).
Proof.
  intros Hg. induction coll as [|d coll IH]; intros Hnd Hin;
    [by apply elem_of_nil in Hin|].
  cbn [map] in Hnd. apply NoDup_cons in Hnd as [Hd Hnd].
  cbn [Mongoose.replaceFirst]. unfold Mongoose.cuidEq at 1.
  apply elem_of_cons in Hin as [->|Hin].
  - rewrite bool_decide_eq_true_2 by done. cbn [List.filter].
    by rewrite Hg, bool_decide_eq_true_2.
  - rewrite bool_decide_eq_false_2.
    + cbn [List.filter]. rewrite bool_decide_eq_false_2; [by apply IH|].
      intros E. apply Hd. rewrite E. apply list_elem_of_fmap. by exists doc.
    + intros E. apply Hd. rewrite E. apply list_elem_of_fmap. by exists doc.
Qed.

(** X9: deleting a stored record (the key being unique) returns that record,
    after which [findById] of its id returns [null] and [findById] of every
    other id is as before; on each repository. *)
Theorem x9_delete_stored_record :
  (forall table row, NoDup (map Todo.id table) -> row ∈ table ->
      exists table',
        Prisma.delete (Todo.id row) table = Return (table', row) /\
        Prisma.findById (Todo.id row) table' = None /\
        forall id', id' <> Todo.id row ->
          Prisma.findById id' table' = Prisma.findById id' table) /\
  (forall table row, NoDup (map Todo.id table) -> row ∈ table ->
      exists table',
        Drizzle.delete (Todo.id row) table = (table', Some row) /\
        Drizzle.findById (Todo.id row) table' = None /\
        forall id', id' <> Todo.id row ->
          Drizzle.findById id' table' = Drizzle.findById id' table) /\
  (forall coll doc, NoDup (map TodoDocument.cuid coll) -> doc ∈ coll ->
      exists coll',
        Mongoose.delete (TodoDocument.cuid doc) coll
          = Return (coll', Mongoose.mapDocumentToEntity doc) /\
        Mongoose.findById (TodoDocument.cuid doc) coll' = None /\
        forall id', id' <> TodoDocument.cuid doc ->
          Mongoose.findById id' coll' = Mongoose.findById id' coll).
Proof.
  split; [|split].
  - intros table row Hnd Hin. eexists. split; [|split].
    + unfold Prisma.delete, Prisma.todo_delete, Prisma.todo_findUnique, Prisma.idEq.
      rewrite (head_filter_key Todo.id) by done. by rewrite withMetadata_id.
    + rewrite prisma_findById_eq, (filter_key_removed Todo.id).
      by rewrite bool_decide_eq_true_2.
    + intros id' Hne. rewrite !prisma_findById_eq, (filter_key_removed Todo.id).
      by rewrite bool_decide_eq_false_2.
  - intros table row Hnd Hin. eexists. split; [|split].
    + unfold Drizzle.delete, Drizzle.first, Drizzle.idEq.
      by rewrite (head_filter_key Todo.id).
    + rewrite drizzle_findById_eq, (filter_key_removed Todo.id).
      by rewrite bool_decide_eq_true_2.
    + intros id' Hne. rewrite !drizzle_findById_eq, (filter_key_removed Todo.id).
      by rewrite bool_decide_eq_false_2.
  - intros coll doc Hnd Hin. eexists. split; [|split].
    + unfold Mongoose.delete, Mongoose.findOneAndDelete, Mongoose.findOne.
      change (List.filter (Mongoose.matches (Mongoose.ByCuid (TodoDocument.cuid doc))) coll)
        with (List.filter (fun y => bool_decide (TodoDocument.cuid y = TodoDocument.cuid doc)) coll).
      by rewrite (head_filter_key TodoDocument.cuid).
    + by rewrite mongoose_findById_eq, removeFirst_same.
    + intros id' Hne. by rewrite !mongoose_findById_eq, removeFirst_other.
Qed.

(** *** update *)

(** X10: [update] of an id no stored record has: Prisma rejects with its
    record-not-found error, Mongoose throws "Todo with id ... not found"
    (once the patch passes the validators), and Drizzle resolves with
    [undefined], the table unchanged. *)
Theorem x10_update_absent id (data : UpdateTodoInput.t) (now : Date)
    (ptable : Prisma.Table) (dtable : Drizzle.Table) (coll : Mongoose.Collection) :
  id ∉ map Todo.id ptable ->
  id ∉ map Todo.id dtable ->
  id ∉ map TodoDocument.cuid coll ->
  Prisma.update id data now ptable = Throw PrismaRecordNotFound /\
  Drizzle.update id data now dtable = (dtable, None) /\
  isThrow (Mongoose.update id data now coll) = true /\
  (Mongoose.validateUpdate data = None ->
   Mongoose.update id data now coll = Throw (JsError (Mongoose.notFoundMessage id))).
Proof.
  intros Hp Hd Hm. split; [|split; [|split]].
  - unfold Prisma.update, Prisma.todo_update, Prisma.todo_findUnique, Prisma.idEq.
    by rewrite filter_id_absent.
  - unfold Drizzle.update, Drizzle.idEq, Drizzle.first.
    rewrite (map_update_absent Todo.id) by done. by rewrite filter_id_absent.
  - unfold Mongoose.update, Mongoose.findOneAndUpdate.
    rewrite findOne_cuid_absent by done. by destruct (Mongoose.validateUpdate data).
  - intros Hv. unfold Mongoose.update, Mongoose.findOneAndUpdate.
    by rewrite Hv, findOne_cuid_absent.
Qed.

Lemma x10_update_absent_witness :
  Prisma.update "missing" UpdateTodoInput.empty 3000 [older; newer]
    = Throw PrismaRecordNotFound /\
  Drizzle.update "missing" UpdateTodoInput.empty 3000 [older; newer]
    = ([older; newer], None) /\
  isThrow (Mongoose.update "missing" UpdateTodoInput.empty 3000 [olderDoc]) = true /\
  (Mongoose.validateUpdate UpdateTodoInput.empty = None ->
   Mongoose.update "missing" UpdateTodoInput.empty 3000 [olderDoc]
     = Throw (JsError (Mongoose.notFoundMessage "missing"))).
Proof.
  apply (x10_update_absent "missing" UpdateTodoInput.empty 3000 [older; newer]
           [older; newer] [olderDoc]); compute_done.
Defined.

Lemma drizzle_set_keeps now (data : UpdateTodoInput.t) row :
  Todo.id (Drizzle.set data now row) = Todo.id row.
Proof. done. Qed.

Lemma prisma_applyData_keeps now (data : UpdateTodoInput.t) row :
  Todo.id (Prisma.applyData data now row) = Todo.id row.
Proof. done. Qed.

(** X11: [update] of a stored record with any patch (the key being unique)
    returns a record with the same id and [createdAt]; its [updatedAt] is the
    clock reading on Drizzle and Mongoose, and on Prisma too when the patch
    holds a field, while Prisma returns the [updatedAt] the record had when
    the patch holds none.  Afterwards [findById] of that id returns the
    record [update] returned, and [findById] of every other id is as
    before; on each repository (Mongoose: when the patch passes the
    validators). *)
Theorem x11_update_stored_record (data : UpdateTodoInput.t) (now : Date) :
  (forall table row, NoDup (map Todo.id table) -> row ∈ table ->
      exists table' row',
        Prisma.update (Todo.id row) data now table = Return (table', row') /\
        Todo.id row' = Todo.id row /\ Todo.createdAt row' = Todo.createdAt row /\
        Todo.updatedAt row'
        = (if Prisma.writesNothing data then Todo.updatedAt row else now) /\
        Prisma.findById (Todo.id row) table' = Some row' /\
        forall id', id' <> Todo.id row ->
          Prisma.findById id' table' = Prisma.findById id' table) /\
  (forall table row, NoDup (map Todo.id table) -> row ∈ table ->
      exists table' row',
        Drizzle.update (Todo.id row) data now table = (table', Some row') /\
        Todo.id row' = Todo.id row /\ Todo.createdAt row' = Todo.createdAt row /\
        Todo.updatedAt row' = now /\
        Drizzle.findById (Todo.id row) table' = Some row' /\
        forall id', id' <> Todo.id row ->
          Drizzle.findById id' table' = Drizzle.findById id' table) /\
  (forall coll doc, NoDup (map TodoDocument.cuid coll) -> doc ∈ coll ->
      Mongoose.validateUpdate data = None ->
      exists coll' row',
        Mongoose.update (TodoDocument.cuid doc) data now coll = Return (coll', row') /\
        Todo.id row' = TodoDocument.cuid doc /\
        Todo.createdAt row' = TodoDocument.createdAt doc /\
        Todo.updatedAt row' = now /\
        Mongoose.findById (TodoDocument.cuid doc) coll' = Some row' /\
        forall id', id' <> TodoDocument.cuid doc ->
          Mongoose.findById id' coll' = Mongoose.findById id' coll).
Proof.
  split; [|split].
  - intros table row Hnd Hin. eexists _, _. split; [|split; [|split; [|split; [|split]]]].
    + unfold Prisma.update, Prisma.todo_update, Prisma.todo_findUnique, Prisma.idEq.
      rewrite (head_filter_key Todo.id) by done. by rewrite withMetadata_id.
    + done.
    + done.
    + done.
    + rewrite prisma_findById_eq. unfold Prisma.idEq.
      rewrite (filter_key_rewrite Todo.id) by done.
      by rewrite head_map, (head_filter_key Todo.id).
    + intros id' Hne. rewrite !prisma_findById_eq. unfold Prisma.idEq.
      by rewrite (filter_key_updated Todo.id).
  - intros table row Hnd Hin. eexists _, _. split; [|split; [|split; [|split; [|split]]]].
    + unfold Drizzle.update, Drizzle.idEq, Drizzle.first.
      rewrite (filter_key_rewrite Todo.id) by done.
      by rewrite head_map, (head_filter_key Todo.id).
    + done.
    + done.
    + done.
    + rewrite drizzle_findById_eq. unfold Drizzle.idEq.
      rewrite (filter_key_rewrite Todo.id) by done.
      by rewrite head_map, (head_filter_key Todo.id).
    + intros id' Hne. rewrite !drizzle_findById_eq. unfold Drizzle.idEq.
      by rewrite (filter_key_updated Todo.id).
  - intros coll doc Hnd Hin Hv. eexists _, _.
    split; [|split; [|split; [|split; [|split]]]].
    + unfold Mongoose.update, Mongoose.findOneAndUpdate, Mongoose.findOne.
      rewrite Hv.
      change (List.filter (Mongoose.matches (Mongoose.ByCuid (TodoDocument.cuid doc))) coll)
        with (List.filter (fun y => bool_decide (TodoDocument.cuid y = TodoDocument.cuid doc)) coll).
      by rewrite (head_filter_key TodoDocument.cuid).
    + done.
    + done.
    + done.
    + by rewrite mongoose_findById_eq, replaceFirst_same.
    + intros id' Hne. by rewrite !mongoose_findById_eq, replaceFirst_other.
Qed.

(** *** the filters and their order *)

Lemma StronglySorted_filter {A} (R : A -> A -> Prop) (p : A -> bool) (l : list A) :
  StronglySorted R l -> StronglySorted R (List.filter p l).
Proof.
  induction 1 as [|x l Hs IH Hall]; cbn [List.filter]; [constructor|].
  destruct (p x); [|done]. constructor; [done|].
  apply Forall_forall. intros y Hy. apply list_elem_of_In, filter_In in Hy as [Hy _].
  rewrite Forall_forall in Hall. by apply Hall, list_elem_of_In.
Qed.

Lemma map_entity_perm (docs docs' : list TodoDocument.t) :
  docs ≡ₚ docs' ->
  map Mongoose.mapDocumentToEntity docs ≡ₚ map Mongoose.mapDocumentToEntity docs'.
Proof. intros H. by apply fmap_Permutation. Qed.

(** X12: [findByCompleted] returns exactly the stored records with the given
    completion flag, each once; Prisma and Mongoose list them newest first,
    Drizzle oldest first. *)
Theorem x12_findByCompleted (completed : bool)
    (ptable : Prisma.Table) (dtable : Drizzle.Table) (coll : Mongoose.Collection) :
  (Prisma.findByCompleted completed ptable ≡ₚ
     filter (fun todo => Todo.completed todo = completed) ptable /\
   StronglySorted (newestFirst Todo.createdAt)
     (Prisma.findByCompleted completed ptable)) /\
  (Drizzle.findByCompleted completed dtable ≡ₚ
     filter (fun todo => Todo.completed todo = completed) dtable /\
   StronglySorted (oldestFirst Todo.createdAt)
     (Drizzle.findByCompleted completed dtable)) /\
  (Mongoose.findByCompleted completed coll ≡ₚ
     filter (fun todo => Todo.completed todo = completed) (records coll) /\
   StronglySorted (newestFirst Todo.createdAt)
     (Mongoose.findByCompleted completed coll)).
Proof.
  split; [|split].
  - unfold Prisma.findByCompleted, Prisma.todo_findMany. rewrite map_withMetadata.
    split; [|apply orderByDesc_sorted].
    rewrite orderByDesc_perm.
    rewrite (List_filter_stdpp _ (fun todo => Todo.completed todo = completed));
      [done|].
    intros todo. cbn [Prisma.matches]. apply bool_decide_eq_true.
  - unfold Drizzle.findByCompleted. split; [|apply orderByAsc_sorted].
    rewrite orderByAsc_perm.
    rewrite (List_filter_stdpp _ (fun todo => Todo.completed todo = completed));
      [done|].
    intros todo. apply bool_decide_eq_true.
  - unfold Mongoose.findByCompleted, Mongoose.find_sorted, records.
    split; [|apply StronglySorted_map_entity, orderByDesc_sorted].
    rewrite filter_entities. apply map_entity_perm. rewrite orderByDesc_perm.
    rewrite (List_filter_stdpp _
               (fun d => Todo.completed (Mongoose.mapDocumentToEntity d) = completed));
      [done|].
    intros d. cbn [Mongoose.matches]. apply bool_decide_eq_true.
Qed.

(** X13: the records [findByTags] returns are listed newest first by Prisma
    and Mongoose and oldest first by Drizzle. *)
Theorem x13_findByTags_order (tags : list string)
    (ptable : Prisma.Table) (dtable : Drizzle.Table) (coll : Mongoose.Collection) :
  StronglySorted (newestFirst Todo.createdAt) (Prisma.findByTags tags ptable) /\
  StronglySorted (oldestFirst Todo.createdAt) (Drizzle.findByTags tags dtable) /\
  StronglySorted (newestFirst Todo.createdAt) (Mongoose.findByTags tags coll).
Proof.
  split; [|split].
  - unfold Prisma.findByTags, Prisma.todo_findMany. rewrite map_withMetadata.
    apply orderByDesc_sorted.
  - unfold Drizzle.findByTags. apply StronglySorted_filter, orderByAsc_sorted.
  - unfold Mongoose.findByTags, Mongoose.find_sorted.
    apply StronglySorted_map_entity, orderByDesc_sorted.
Qed.

(** *** what Mongoose stores differently *)

(** X14: Prisma and Drizzle return the metadata a record was created with;
    the Mongoose repository never returns metadata: not from [create], even
    when metadata was given, and not from [findById] or [findAll]. *)
Theorem x14_metadata_kept_or_dropped (data : CreateTodoInput.t) (id : string)
    (createdNow updatedNow : Date)
    (ptable : Prisma.Table) (dtable : Drizzle.Table) (coll : Mongoose.Collection) :
  Todo.metadata (snd (Prisma.create data id createdNow updatedNow ptable))
    = CreateTodoInput.metadata data /\
  Todo.metadata <$> snd (Drizzle.create data id createdNow updatedNow dtable)
    = Some (CreateTodoInput.metadata data) /\
  (forall coll' created,
      Mongoose.create data id createdNow coll = Return (coll', created) ->
      Todo.metadata created = None) /\
  (forall id' todo, Mongoose.findById id' coll = Some todo -> Todo.metadata todo = None) /\
  Forall (fun todo => Todo.metadata todo = None) (Mongoose.findAll coll).
Proof.
  split; [done|]. split; [done|]. split; [|split].
  - intros coll' created. rewrite mongoose_create_eq. cbn zeta.
    case_match; [done|]. by intros [= _ <-].
  - intros id' todo. unfold Mongoose.findById.
    destruct (Mongoose.findOne _ coll); [|done]. by intros [= <-].
  - unfold Mongoose.findAll. apply Forall_map, Forall_forall. by intros d _.
Qed.

Lemma parseTitle_ok (title : string) :
  (1 <= String.length title <= 200)%nat ->
  TodoSchemas.parseTitle (Some (JString title)) = Return title.
Proof.
  intros [Hlo Hhi]. unfold TodoSchemas.parseTitle.
  rewrite (proj2 (Nat.ltb_ge _ _) Hlo). by rewrite (proj2 (Nat.ltb_ge _ _) Hhi).
Qed.

(** A body that holds a title only. *)
Lemma parse_title_only (coerceDate : Json -> option Date) (title : string) :
  (1 <= String.length title <= 200)%nat ->
  TodoSchemas.CreateTodoSchema_parse coerceDate (JObject [("title", JString title)])
    = Return (CreateTodoDto.mk title None false "medium" None [] None).
Proof.
  intros Hlen. unfold TodoSchemas.CreateTodoSchema_parse.
  change (TodoSchemas.getField "title" [("title", JString title)])
    with (Some (JString title)).
  rewrite (parseTitle_ok title Hlen). reflexivity.
Qed.

(** X15: a body whose title is all blanks (and of a length the schema
    allows) passes [CreateTodoSchema]; Prisma and Drizzle then store the
    title as given, while Mongoose, which trims the title before validating,
    rejects the record with a validation error on [title]. *)
Theorem x15_blank_title (coerceDate : Json -> option Date) (title : string)
    (id : string) (createdNow updatedNow : Date)
    (ptable : Prisma.Table) (dtable : Drizzle.Table) (coll : Mongoose.Collection) :
  (1 <= String.length title <= 200)%nat ->
  trim title = EmptyString ->
  exists dto,
    TodoSchemas.CreateTodoSchema_parse coerceDate (JObject [("title", JString title)])
      = Return dto /\
    Todo.title (snd (Prisma.create (CreateTodoDto.asInput dto) id createdNow
                       updatedNow ptable)) = title /\
    Todo.title <$> snd (Drizzle.create (CreateTodoDto.asInput dto) id createdNow
                          updatedNow dtable) = Some title /\
    Mongoose.create (CreateTodoDto.asInput dto) id createdNow coll
      = Throw (MongooseValidationError "title").
Proof.
  intros Hlen Hblank. eexists. split; [by apply parse_title_only|].
  split; [done|]. split; [done|].
  rewrite mongoose_create_eq.
  cbn [CreateTodoDto.asInput CreateTodoInput.title CreateTodoDto.title].
  by rewrite Hblank.
Qed.

Lemma x15_blank_title_witness :
  exists dto,
    TodoSchemas.CreateTodoSchema_parse epochOnly blankTitle = Return dto /\
    Todo.title (snd (Prisma.create (CreateTodoDto.asInput dto) "c" 3000 3000
                       [older])) = "   " /\
    Todo.title <$> snd (Drizzle.create (CreateTodoDto.asInput dto) "c" 3000 3000
                          [older]) = Some "   " /\
    Mongoose.create (CreateTodoDto.asInput dto) "c" 3000 [olderDoc]
      = Throw (MongooseValidationError "title").
Proof.
  apply (x15_blank_title epochOnly "   " "c" 3000 3000 [older] [older] [olderDoc]).
  - simpl. lia.
  - reflexivity.
Defined.

End RepositoryMoreFacts.

(** ** Controller *)

Section ControllerFacts.
Import Todos.

Lemma includes_comma_cons (c : ascii) (s : string) :
  includes (String c s) "," = false <-> c <> ","%char /\ includes s "," = false.
Proof.
  unfold includes at 1; fold includes. cbn [String.prefix].
  destruct (Ascii.ascii_dec ","%char c) as [<-|Hne].
  - destruct s; cbn; split; try done; by intros [? _].
  - cbn [orb]. split; [intros H; split; [congruence|done] | by intros [_ H]].
Qed.

Lemma splitComma_no_comma (piece : string) :
  includes piece "," = false -> splitComma piece = [piece].
Proof.
  induction piece as [|c piece IH]; [done|].
  intros H. apply includes_comma_cons in H as [Hc H].
  cbn [splitComma]. rewrite bool_decide_eq_false_2 by done. by rewrite IH.
Qed.

Lemma splitComma_piece (piece rest : string) :
  includes piece "," = false ->
  splitComma (piece +:+ ("," +:+ rest)) = piece :: splitComma rest.
Proof.
  induction piece as [|c piece IH]; intros H.
  - done.
  - apply includes_comma_cons in H as [Hc H]. specialize (IH H).
    change (String c piece +:+ ("," +:+ rest))
      with (String c (piece +:+ ("," +:+ rest))).
    cbn [splitComma]. rewrite bool_decide_eq_false_2 by done. by rewrite IH.
Qed.

(** Splitting what [join] put together gives the pieces back. *)
Lemma splitComma_join (pieces : list string) :
  pieces <> [] -> Forall (fun piece => includes piece "," = false) pieces ->
  splitComma (join "," pieces) = pieces.
Proof.
  induction pieces as [|piece pieces IH]; [done|]. intros _ Hall.
  apply Forall_cons in Hall as [Hp Hall].
  destruct pieces as [|piece' pieces]; [by apply splitComma_no_comma|].
  change (join "," (piece :: piece' :: pieces))
    with (piece +:+ ("," +:+ join "," (piece' :: pieces))).
  rewrite splitComma_piece by done. by rewrite IH.
Qed.

(** X16: [findOne] of an id no stored record has throws the [ApiError]
    "Todo with ID ... not found" with status 404, code [TODO_NOT_FOUND] and
    the id in its details, with each of the three repositories behind the
    service; [findOne] of a stored record (the key being unique) returns
    it. *)
Theorem x16_findOne_absent_is_404 (id : string) (now : Date)
    (ptable : Prisma.Table) (dtable : Drizzle.Table) (coll : Mongoose.Collection) :
  id ∉ map Todo.id ptable ->
  id ∉ map Todo.id dtable ->
  id ∉ map TodoDocument.cuid coll ->
  let error := ApiError.todoNotFound id now in
  findOne prismaTodoRepository id now ptable = Throw (Api error) /\
  findOne drizzleTodoRepository id now dtable = Throw (Api error) /\
  findOne mongooseTodoRepository id now coll = Throw (Api error) /\
  ApiError.statusCode error = 404 /\
  ApiError.code error = ApiError.TODO_NOT_FOUND /\
  ApiError.message error = "Todo with ID " +:+ id +:+ " not found" /\
  ApiError.details error = Some (JObject [("todoId", JString id)]).
Proof.
  intros Hp Hd Hm error. unfold findOne, service_findById.
  cbn [repo_findById prismaTodoRepository drizzleTodoRepository
       mongooseTodoRepository].
  rewrite prisma_findById_eq, drizzle_findById_eq, mongoose_findById_eq.
  rewrite !(filter_key_absent Todo.id) by done.
  rewrite (filter_key_absent TodoDocument.cuid) by done.
  done.
Qed.

Lemma x16_findOne_absent_witness :
  let error := ApiError.todoNotFound "missing" 3000 in
  findOne prismaTodoRepository "missing" 3000 [Samples.older] = Throw (Api error) /\
  findOne drizzleTodoRepository "missing" 3000 [Samples.older] = Throw (Api error) /\
  findOne mongooseTodoRepository "missing" 3000 [Samples.olderDoc]
    = Throw (Api error) /\
  ApiError.statusCode error = 404 /\
  ApiError.code error = ApiError.TODO_NOT_FOUND /\
  ApiError.message error = "Todo with ID " +:+ "missing" +:+ " not found" /\
  ApiError.details error = Some (JObject [("todoId", JString "missing")]).
Proof.
  apply (x16_findOne_absent_is_404 "missing" 3000 [Samples.older] [Samples.older]
           [Samples.olderDoc]); compute_done.
Defined.

(** X17: the controller's [findByTags] searches for the comma-separated
    pieces of the query, each trimmed: a query put together from pieces that
    hold no comma is taken apart into exactly those pieces.  A missing or
    empty query searches for no tag, and every repository then returns no
    record. *)
Theorem x17_findByTags_query (pieces : list string)
    (ptable : Prisma.Table) (dtable : Drizzle.Table) (coll : Mongoose.Collection) :
  (pieces <> [] -> join "," pieces <> EmptyString ->
   Forall (fun piece => includes piece "," = false) pieces ->
   tagArray (Some (join "," pieces)) = map trim pieces) /\
  tagArray None = [] /\ tagArray (Some EmptyString) = [] /\
  (forall query, query = None \/ query = Some EmptyString ->
     findByTags prismaTodoRepository query ptable = [] /\
     findByTags drizzleTodoRepository query dtable = [] /\
     findByTags mongooseTodoRepository query coll = []).
Proof.
  split; [|split; [done|split; [done|]]].
  - intros Hne Hjoin Hall. unfold tagArray, FeatureFlags.truthyStr.
    rewrite bool_decide_eq_false_2 by done. cbn [negb].
    by rewrite splitComma_join.
  - intros query Hq.
    assert (tagArray query = []) as E by (by destruct Hq as [-> | ->]).
    unfold findByTags, service_findByTags. rewrite E.
    cbn [repo_findByTags prismaTodoRepository drizzleTodoRepository
         mongooseTodoRepository].
    rewrite prisma_findByTags_spec, drizzle_findByTags_spec, mongoose_findByTags_spec.
    rewrite (filter_none (fun todo => sharesTag (Todo.tags todo) []))
      by (intros todo; apply no_tag_shared_with_nil).
    rewrite (filter_none (fun todo => sharesTag (Todo.tags todo) []))
      by (intros todo; apply no_tag_shared_with_nil).
    rewrite (filter_none
               (fun d => sharesTag (Todo.tags (Mongoose.mapDocumentToEntity d)) []))
      by (intros d; apply no_tag_shared_with_nil).
    by vm_compute.
Qed.

End ControllerFacts.

(** ** Authentication guards *)

Section AuthFacts.
Import FeatureFlags Auth.
Implicit Types (env : Env) (headers : Headers).

Lemma sliceFrom_prefix (p s : string) :
  String.prefix p s = true -> s = p +:+ sliceFrom (String.length p) s.
Proof.
  revert s. induction p as [|c p IH]; intros s H; [done|].
  destruct s as [|d s]; [done|]. cbn [String.prefix] in H.
  destruct (Ascii.ascii_dec c d) as [->|]; [|done].
  cbn [String.length sliceFrom]. change (String d p +:+ ?x) with (String d (p +:+ x)).
  f_equal. by apply IH.
Qed.

Lemma sliceFrom_app (p s : string) : sliceFrom (String.length p) (p +:+ s) = s.
Proof. induction p as [|c p IH]; [done|]. exact IH. Qed.

Lemma sliceFrom_bearer (token : string) :
  sliceFrom 7 ("Bearer " +:+ token) = token.
Proof. exact (sliceFrom_app "Bearer " token). Qed.

Lemma truthyStr_true (s : string) : truthyStr s = true <-> s <> EmptyString.
Proof.
  unfold truthyStr. rewrite negb_true_iff. split.
  - intros H. by apply bool_decide_eq_false in H.
  - intros H. by apply bool_decide_eq_false.
Qed.

Lemma truthy_true (v : option string) :
  truthy v = true <-> exists s, v = Some s /\ s <> EmptyString.
Proof.
  destruct v as [s|]; cbn [truthy].
  - fold (truthyStr s). rewrite truthyStr_true. split.
    + intros H. by exists s.
    + by intros (s' & [= <-] & H).
  - split; [done|]. by intros (s & ? & _).
Qed.

Lemma apiKeySent_truthy headers (key : string) :
  apiKeySent headers key -> truthy (headers !! "x-api-key") = true.
Proof. intros [Hk Hne]. apply truthy_true. by exists key. Qed.

Lemma bearer_header_inv (authHeader : string) :
  startsWithBearer authHeader = true ->
  authHeader = "Bearer " +:+ sliceFrom 7 authHeader /\ truthyStr authHeader = true.
Proof.
  intros H. pose proof (sliceFrom_prefix "Bearer " authHeader H) as E.
  split; [exact E|]. apply truthyStr_true. by destruct authHeader.
Qed.

(** X18: the bearer-token guard accepts every non-empty token: for a route
    that is not public and a request whose [authorization] header is
    ["Bearer "] followed by any non-empty text, it returns [true] and sets
    the same fixed user, whatever the token and whatever the configuration
    ([JWT_SECRET] included); and so does the composite guard when no API key
    header is sent. *)
Theorem x18_bearer_guard_accepts_any_token env headers (token : string) :
  bearerSent headers token ->
  BearerTokenGuard.canActivate env false headers = Return (Some TokenUser) /\
  (truthy (headers !! "x-api-key") = false ->
   CompositeAuthGuard.canActivate env false headers = Return (Some TokenUser)).
Proof.
  intros [Hauth Htoken].
  assert (BearerTokenGuard.canActivate env false headers = Return (Some TokenUser))
    as Hb.
  { unfold BearerTokenGuard.canActivate, BearerTokenGuard.extractTokenFromHeader.
    rewrite Hauth.
    assert (startsWithBearer ("Bearer " +:+ token) = true) as Hs
      by apply prefix_app.
    rewrite Hs. destruct (bearer_header_inv _ Hs) as [_ ->]. cbn [negb orb].
    rewrite (sliceFrom_bearer token).
    by rewrite (proj2 (truthyStr_true token) Htoken). }
  split; [exact Hb|]. intros Hkey.
  unfold CompositeAuthGuard.canActivate. rewrite Hkey, Hauth.
  assert (startsWithBearer ("Bearer " +:+ token) = true) as -> by apply prefix_app.
  exact Hb.
Qed.

Lemma x18_bearer_guard_witness :
  BearerTokenGuard.canActivate keyEnv false bearerOnly = Return (Some TokenUser) /\
  (truthy (bearerOnly !! "x-api-key") = false ->
   CompositeAuthGuard.canActivate keyEnv false bearerOnly = Return (Some TokenUser)).
Proof.
  apply (x18_bearer_guard_accepts_any_token keyEnv bearerOnly "anything").
  split; [reflexivity | discriminate].
Defined.

(** X19: the composite guard lets a request through exactly when the route
    is public, or the request sends a non-empty [x-api-key] equal to the
    configured [API_KEY], or it sends no (or an empty) [x-api-key] and a
    non-empty bearer token.  An API key header takes precedence: with a
    non-empty [x-api-key] that differs from [API_KEY] (or with no [API_KEY]
    configured) the request is rejected as "Invalid API key" whatever its
    [authorization] header; with neither header it is rejected as
    "Authentication required". *)
Theorem x19_composite_guard env (isPublic : bool) headers :
  ((exists user, CompositeAuthGuard.canActivate env isPublic headers = Return user) <->
   isPublic = true \/
   (exists key, apiKeySent headers key /\ env !! "API_KEY" = Some key) \/
   (truthy (headers !! "x-api-key") = false /\
    exists token, bearerSent headers token)) /\
  (forall key,
      isPublic = false -> apiKeySent headers key -> env !! "API_KEY" <> Some key ->
      CompositeAuthGuard.canActivate env isPublic headers = Throw "Invalid API key") /\
  (isPublic = false -> truthy (headers !! "x-api-key") = false ->
   headers !! "authorization" = None ->
   CompositeAuthGuard.canActivate env isPublic headers
     = Throw "Authentication required").
Proof.
  split; [|split].
  - unfold CompositeAuthGuard.canActivate.
    destruct isPublic; [split; [by left | by eexists]|].
    destruct (truthy (headers !! "x-api-key")) eqn:Hkey.
    + apply truthy_true in Hkey as (key & Hk & Hne).
      unfold ApiKeyGuard.canActivate, ApiKeyGuard.extractApiKey, configGet.
      assert (truthy (Some key) = true) as Ht by (apply truthy_true; by exists key).
      rewrite Hk, Ht. cbv iota. rewrite Ht. cbn [negb].
      case_bool_decide as E.
      * split; [|by eexists]. intros _. right. left. by exists key.
      * split; [by intros [? ?]|].
        intros [?|[(key' & [Hk' _] & Henv)|[? _]]]; try done.
        rewrite Hk in Hk'. injection Hk' as <-. by rewrite Henv in E.
    + destruct (headers !! "authorization") as [authHeader|] eqn:Hauth.
      * destruct (startsWithBearer authHeader) eqn:Hs.
        -- destruct (bearer_header_inv _ Hs) as [Eh Ht].
           unfold BearerTokenGuard.canActivate,
             BearerTokenGuard.extractTokenFromHeader.
           rewrite Hauth, Hs, Ht. cbn [negb orb].
           destruct (truthyStr (sliceFrom 7 authHeader)) eqn:Etok; cbn [negb].
           ++ split; [|by eexists]. intros _. right. right. split; [done|].
              exists (sliceFrom 7 authHeader). split; [by rewrite <- Eh|].
              by apply truthyStr_true.
           ++ split; [by intros [? ?]|].
              intros [?|[(key & Hk & _)|[_ (token & [Ha Hne])]]]; try done.
              ** apply apiKeySent_truthy in Hk. congruence.
              ** rewrite Hauth in Ha. injection Ha as ->. rewrite (sliceFrom_bearer token) in Etok.
                 apply truthyStr_true in Hne. congruence.
        -- split; [by intros [? ?]|].
           intros [?|[(key & Hk & _)|[_ (token & [Ha Hne])]]]; try done.
           ** apply apiKeySent_truthy in Hk. congruence.
           ** rewrite Hauth in Ha. injection Ha as ->.
              assert (startsWithBearer ("Bearer " +:+ token) = true) as Hp
                by apply prefix_app.
              congruence.
      * split; [by intros [? ?]|].
        intros [?|[(key & Hk & _)|[_ (token & [Ha Hne])]]]; try done.
        ** apply apiKeySent_truthy in Hk. congruence.
        ** congruence.
  - intros key -> [Hk Hne] Henv. unfold CompositeAuthGuard.canActivate.
    assert (truthy (Some key) = true) as Ht by (apply truthy_true; by exists key).
    unfold ApiKeyGuard.canActivate, ApiKeyGuard.extractApiKey, configGet.
    rewrite Hk, !Ht. cbv iota. rewrite ?Ht. cbn [negb].
    by rewrite bool_decide_eq_false_2 by congruence.
  - intros -> Hkey Hauth. unfold CompositeAuthGuard.canActivate.
    by rewrite Hkey, Hauth.
Qed.

End AuthFacts.

(** ** Sanitising *)

Section SanitizeFacts.
Import FeatureFlags Auth Sanitize.

(** Induction on a JSON value, the items of an array and the values of an
    object being covered by the hypothesis. *)
Lemma Json_induction (P : Json -> Prop) :
  P JNull -> (forall b, P (JBool b)) -> (forall n, P (JNumber n)) ->
  (forall s, P (JString s)) ->
  (forall items, Forall P items -> P (JArray items)) ->
  (forall entries, Forall (fun entry => P entry.2) entries -> P (JObject entries)) ->
  forall value, P value.
Proof.
  intros HN HB HZ HS HA HO. fix IH 1.
  intros [| b | n | s | items | entries]; [done..| |].
  - apply HA. induction items as [|item items IHi]; constructor; [apply IH | exact IHi].
  - apply HO. induction entries as [|[key held] entries IHe]; constructor;
      [apply IH | exact IHe].
Qed.

Lemma sanitizeBody_object (entries : list (string * Json)) :
  sanitizeBody (JObject entries) = JObject (map sanitizeEntry entries).
Proof.
  cbn [sanitizeBody]. f_equal.
  induction entries as [|[key held] entries IH]; [done|].
  cbn [map]. by rewrite <- IH.
Qed.

Lemma sanitize_indexed (start : nat) (items : list Json) :
  (fix indexed (index : nat) (items : list Json) : list (string * Json) :=
     match items with
     | [] => []
     | item :: rest =>
         (pretty index, sanitizeValue (pretty index) item (sanitizeBody item))
           :: indexed (S index) rest
     end) start items
  = map sanitizeEntry
        (imap (fun index item => (pretty (start + index)%nat, item)) items).
Proof.
  revert start. induction items as [|item items IH]; intros start; [done|].
  rewrite IH. cbn [imap map]. rewrite Nat.add_0_r. f_equal.
  f_equal. apply imap_ext. intros i x _. cbn. by rewrite Nat.add_succ_r.
Qed.

(** An array is sanitised as the object of its items by index. *)
Lemma sanitizeBody_array (items : list Json) :
  sanitizeBody (JArray items) = sanitizeBody (JObject (arrayEntries items)).
Proof.
  rewrite sanitizeBody_object. cbn [sanitizeBody]. f_equal.
  apply (sanitize_indexed 0).
Qed.

Lemma exposes_object (entries : list (string * Json)) :
  exposes (JObject entries)
  = existsb (fun entry =>
               if isSensitive entry.1 then negb (isRedacted entry.2)
               else exposes entry.2)
            entries.
Proof.
  cbn [exposes]. induction entries as [|[key held] entries IH]; [done|].
  cbn [existsb fst snd]. by rewrite <- IH.
Qed.

Lemma existsb_false {A} (f : A -> bool) (l : list A) :
  existsb f l = false <-> Forall (fun x => f x = false) l.
Proof.
  induction l as [|x l IH]; cbn [existsb].
  - split; [constructor | done].
  - rewrite orb_false_iff, IH, Forall_cons. done.
Qed.

Lemma isObject_sanitizeBody (value : Json) :
  isObject value = false -> sanitizeBody value = value.
Proof. by destruct value. Qed.

Lemma sanitizeValue_eq (key : string) (value : Json) :
  sanitizeValue key value (sanitizeBody value)
  = if isSensitive key then REDACTED else sanitizeBody value.
Proof.
  unfold sanitizeValue. destruct (isSensitive key); [done|].
  destruct (isObject value) eqn:E; [done|]. by rewrite isObject_sanitizeBody.
Qed.

Lemma sanitizeBody_exposes_nothing (body : Json) :
  exposes (sanitizeBody body) = false.
Proof.
  induction body as [| | | | items IH | entries IH] using Json_induction;
    [done..| |].
  - rewrite sanitizeBody_array, sanitizeBody_object, exposes_object.
    apply existsb_false, Forall_map, Forall_forall.
    intros [key item] Hin. cbn [sanitizeEntry fst snd].
    rewrite sanitizeValue_eq. destruct (isSensitive key); [done|].
    unfold arrayEntries in Hin. apply elem_of_lookup_imap in Hin as (i & x & [= _ <-] & Hx).
    rewrite Forall_forall in IH. apply IH. by eapply list_elem_of_lookup_2.
  - rewrite sanitizeBody_object, exposes_object.
    apply existsb_false, Forall_map, Forall_forall.
    intros [key held] Hin. cbn [sanitizeEntry fst snd].
    rewrite sanitizeValue_eq. destruct (isSensitive key); [done|].
    rewrite Forall_forall in IH. by apply (IH (key, held)).
Qed.

(** X20: after [sanitizeBody] no sensitive key, at any depth of the body
    (inside nested objects and inside the items of arrays), holds anything
    but the text [[REDACTED]]. *)
Theorem x20_sanitizeBody_redacts_at_every_depth (body : Json) :
  exposes (sanitizeBody body) = false.
Proof. apply sanitizeBody_exposes_nothing. Qed.

Lemma toLowerCaseChar_not_K (c : ascii) : toLowerCaseChar c <> "K"%char.
Proof. by destruct c as [[] [] [] [] [] [] [] []]; vm_compute. Qed.

Lemma hasChar_toLowerCase (s : string) : hasChar "K" (toLowerCase s) = false.
Proof.
  induction s as [|c s IH]; [done|]. cbn [toLowerCase hasChar].
  rewrite IH, orb_false_r. apply bool_decide_eq_false. intros E.
  by apply (toLowerCaseChar_not_K c).
Qed.

Lemma prefix_hasChar (c : ascii) (needle hay : string) :
  String.prefix needle hay = true -> hasChar c needle = true -> hasChar c hay = true.
Proof.
  revert hay. induction needle as [|d needle IH]; intros hay Hp Hc; [done|].
  destruct hay as [|e hay]; [done|]. cbn [String.prefix] in Hp.
  destruct (Ascii.ascii_dec d e) as [->|]; [|done].
  cbn [hasChar] in *. apply orb_true_iff in Hc as [Hc|Hc].
  - by rewrite Hc.
  - rewrite (IH hay Hp Hc). apply orb_true_r.
Qed.

Lemma includes_hasChar (c : ascii) (needle hay : string) :
  includes hay needle = true -> hasChar c needle = true -> hasChar c hay = true.
Proof.
  intros Hi Hc. induction hay as [|e hay IH].
  - cbn [includes] in Hi. rewrite orb_false_r in Hi.
    by apply (prefix_hasChar c needle).
  - cbn [includes] in Hi. apply orb_true_iff in Hi as [Hi|Hi].
    + by apply (prefix_hasChar c needle).
    + cbn [hasChar]. rewrite (IH Hi). apply orb_true_r.
Qed.

Lemma apiKey_never_matches (key : string) :
  includes (toLowerCase key) "apiKey" = false.
Proof.
  destruct (includes (toLowerCase key) "apiKey") eqn:E; [|done].
  apply (includes_hasChar "K") in E; [|done].
  by rewrite hasChar_toLowerCase in E.
Qed.

(** X21: the entry ['apiKey'] of [sensitiveKeys] never matches, the key
    being compared in lower case: a key is redacted exactly when its
    lower-case form contains [password], [token], [secret] or
    [authorization].  So a key whose lower-case form is [apikey], [api_key]
    or [x-api-key] is not sensitive, and what it holds (if no object) is
    reported as it is. *)
Theorem x21_apiKey_is_not_redacted (key : string) :
  includes (toLowerCase key) "apiKey" = false /\
  isSensitive key
    = existsb (fun word => includes (toLowerCase key) word) lowerCaseWords /\
  (toLowerCase key ∈ ["apikey"; "api_key"; "x-api-key"] ->
   isSensitive key = false /\
   forall held before after,
     isObject held = false ->
     sanitizeBody (JObject (before ++ (key, held) :: after))
     = JObject (map sanitizeEntry before ++ (key, held) :: map sanitizeEntry after)).
Proof.
  assert (isSensitive key
          = existsb (fun word => includes (toLowerCase key) word) lowerCaseWords)
    as Hs.
  { unfold isSensitive, sensitiveKeys, lowerCaseWords. cbn [existsb].
    by rewrite apiKey_never_matches. }
  split; [apply apiKey_never_matches|]. split; [exact Hs|].
  intros Hkey.
  assert (isSensitive key = false) as Hn.
  { rewrite Hs. set_unfold in Hkey.
    destruct Hkey as [-> | [-> | [-> | []]]]; by vm_compute. }
  split; [exact Hn|]. intros held before after Hheld.
  rewrite sanitizeBody_object, map_app. cbn [map]. do 3 f_equal.
  unfold sanitizeEntry, sanitizeValue. cbn [fst snd]. by rewrite Hn, Hheld.
Qed.

Lemma sanitizeEntry_idemp (entry : string * Json) :
  sanitizeBody (sanitizeBody entry.2) = sanitizeBody entry.2 ->
  sanitizeEntry (sanitizeEntry entry) = sanitizeEntry entry.
Proof.
  destruct entry as [key held]. cbn [fst snd]. intros IH.
  unfold sanitizeEntry. cbn [fst snd]. rewrite !sanitizeValue_eq.
  destruct (isSensitive key); [done|]. by rewrite IH.
Qed.

Lemma sanitizeBody_object_idemp (entries : list (string * Json)) :
  Forall (fun entry => sanitizeBody (sanitizeBody entry.2) = sanitizeBody entry.2)
         entries ->
  sanitizeBody (sanitizeBody (JObject entries)) = sanitizeBody (JObject entries).
Proof.
  intros IH. rewrite !sanitizeBody_object. f_equal. rewrite map_map.
  apply map_ext_Forall. eapply Forall_impl; [exact IH|].
  intros entry. apply sanitizeEntry_idemp.
Qed.

(** X22: [sanitizeBody] is idempotent: sanitising a sanitised body changes
    nothing.  An array comes out as the object of its items by index,
    sanitised as that object is. *)
Theorem x22_sanitizeBody_idempotent (body : Json) :
  sanitizeBody (sanitizeBody body) = sanitizeBody body /\
  (forall items, body = JArray items ->
     sanitizeBody body = JObject (map sanitizeEntry (arrayEntries items))).
Proof.
  split.
  - induction body as [| | | | items IH | entries IH] using Json_induction;
      [done..| |].
    + rewrite sanitizeBody_array. apply sanitizeBody_object_idemp.
      apply Forall_forall. intros [key item] Hin.
      apply elem_of_lookup_imap in Hin as (i & x & [= _ <-] & Hx).
      rewrite Forall_forall in IH. apply IH. by eapply list_elem_of_lookup_2.
    + by apply sanitizeBody_object_idemp.
  - intros items ->. by rewrite sanitizeBody_array, sanitizeBody_object.
Qed.

(** X23: [sanitizeHeaders] reports a header exactly when its name is on the
    list of allowed headers and the request holds a non-empty value for it,
    and reports that value; each name at most once.  The [authorization],
    [cookie] and [x-api-key] headers are never reported. *)
Theorem x23_sanitizeHeaders_allow_list (headers : option Headers) :
  (forall name value,
     (name, value) ∈ sanitizeHeaders headers <->
     name ∈ allowedHeaders /\ value <> EmptyString /\
     exists sent, headers = Some sent /\ sent !! name = Some value) /\
  NoDup (sanitizeHeaders headers).*1 /\
  (forall name value,
     name ∈ ["authorization"; "cookie"; "x-api-key"] ->
     (name, value) ∉ sanitizeHeaders headers).
Proof.
  assert (forall name value,
     (name, value) ∈ sanitizeHeaders headers <->
     name ∈ allowedHeaders /\ value <> EmptyString /\
     exists sent, headers = Some sent /\ sent !! name = Some value) as Hchar.
  { intros name value. unfold sanitizeHeaders. rewrite list_elem_of_omap. split.
    - intros (header & Hin & Hsome).
      destruct headers as [sent|]; [|done]. cbn [mbind option_bind] in Hsome.
      destruct (sent !! header) as [v|] eqn:Hv; [|done].
      destruct (truthyStr v) eqn:Ht; [|done]. injection Hsome as <- <-.
      split; [done|]. split; [by apply truthyStr_true|]. by exists sent.
    - intros (Hin & Hne & sent & -> & Hv). exists name. split; [done|].
      cbn [mbind option_bind]. rewrite Hv.
      by rewrite (proj2 (truthyStr_true value) Hne). }
  split; [exact Hchar|]. split.
  - unfold sanitizeHeaders.
    assert (NoDup allowedHeaders) as Hnd
      by (apply (bool_decide_unpack (NoDup allowedHeaders)); by vm_compute).
    revert Hnd. generalize allowedHeaders as names.
    induction names as [|name names IH]; intros Hnd; [constructor|].
    apply NoDup_cons in Hnd as [Hnot Hnd]. specialize (IH Hnd). cbn [omap list_omap].
    destruct (headers ≫= (.!! name)) as [v|]; [|exact IH].
    destruct (truthyStr v); [|exact IH]. cbn [fmap list_fmap fst].
    apply NoDup_cons. split; [|exact IH].
    intros Hin. apply list_elem_of_fmap in Hin as ([name' v'] & -> & Hin).
    apply list_elem_of_omap in Hin as (header & Hh & Hsome).
    destruct (headers ≫= (.!! header)) as [w|]; [|done].
    destruct (truthyStr w); [|done]. injection Hsome as <- <-. done.
  - intros name value Hname Hin. apply Hchar in Hin as [Hin _].
    set_unfold in Hname. unfold allowedHeaders in Hin. set_unfold in Hin.
    destruct Hname as [-> | [-> | [-> | []]]];
      repeat (destruct Hin as [Hin|Hin]; [discriminate|]); done.
Qed.

End SanitizeFacts.

(** ** The dispatcher and the exception filter *)

Section DispatcherFacts.
Import FeatureFlags Auth Sanitize ErrorTracking ErrorTrackingMethods.
Variables bugsnagService sentryService postHogService : IErrorTrackingService.
Variable others : ServiceId -> OtherMethods.

Lemma active_service_is_configured (featureFlags : FeatureFlagsConfig)
    (s : ServiceId) :
  activeService (UnifiedErrorTrackingService_new featureFlags).2 = Some s ->
  getErrorTrackingProvider featureFlags = providerOf s.
Proof.
  unfold UnifiedErrorTrackingService_new, initializeService.
  destruct (negb (isErrorTrackingEnabled featureFlags)); [done|].
  repeat (case_bool_decide as E; [intros [= <-]; exact E | clear E]). done.
Qed.

Lemma guarded_forwarded (call : Call) (thrown : option Thrown) (failure : string)
    (s : ServiceId) :
  addressee call = Some s ->
  forwarded (guarded call thrown failure) = [call] /\
  Forall (fun c => forall s', addressee c = Some s' -> s' = s)
         (guarded call thrown failure).
Proof.
  intros Hc. unfold forwarded, guarded.
  destruct thrown as [err|]; cbn [List.filter addressee]; rewrite Hc;
    (rewrite bool_decide_eq_true_2 by by eexists);
    [rewrite bool_decide_eq_false_2 by (by intros [? ?])|];
    (split; [done|]); repeat constructor; cbn; congruence.
Qed.

Lemma captureExceptionCalls_cases (this : UnifiedErrorTrackingService)
    (error : Error) (metadata : option Metadata) :
  let result :=
    captureExceptionCalls bugsnagService sentryService postHogService
                          this error metadata in
  result.2 = Return tt /\
  match activeService this with
  | None => forwarded result.1 = []
  | Some s =>
      forwarded result.1 = [Basic (CaptureException s error metadata)]
  end /\
  Forall (fun c => forall s, addressee c = Some s -> activeService this = Some s)
         result.1.
Proof.
  unfold captureExceptionCalls, captureException.
  destruct (activeService this) as [s|]; [|by repeat constructor].
  destruct (captureException_impl _ error metadata);
    cbn; (split; [done|]); (split; [done|]); repeat constructor; cbn; congruence.
Qed.

Lemma guarded_wellBehaved (this : UnifiedErrorTrackingService) (s : ServiceId)
    (call : Call) (thrown : option Thrown) (failure : string) :
  activeService this = Some s -> addressee call = Some s ->
  wellBehaved this (guarded call thrown failure, Return tt).
Proof.
  intros Hs Hc. destruct (guarded_forwarded call thrown failure s Hc) as [Hf Ha].
  unfold wellBehaved. cbn [fst snd]. rewrite Hf.
  split; [done|]. split; [done|]. split; [congruence|].
  eapply Forall_impl; [exact Ha|]. intros c H s' Hs'. by rewrite (H s' Hs').
Qed.

Lemma nothing_wellBehaved (this : UnifiedErrorTrackingService) :
  wellBehaved this ([], Return tt).
Proof. unfold wellBehaved. cbn. repeat split; [lia | constructor]. Qed.

Lemma captureExceptionCalls_wellBehaved (this : UnifiedErrorTrackingService)
    (error : Error) (metadata : option Metadata) :
  wellBehaved this
    (captureExceptionCalls bugsnagService sentryService postHogService
                           this error metadata).
Proof.
  destruct (captureExceptionCalls_cases this error metadata) as (Hr & Hf & Ha).
  unfold wellBehaved. split; [done|]. split; [|split; [|done]].
  - revert Hf. destruct (activeService this); intros ->; cbn; lia.
  - intros Hn. by rewrite Hn in Hf.
Qed.

Lemma methods_wellBehaved (this : UnifiedErrorTrackingService)
    (message : string) (level : option string) (metadata : option Metadata)
    (userId : string) (email name category : option string)
    (data : option Metadata) (request : Request) (statusCode : option Z)
    (timestamp : string) :
  Forall (wellBehaved this)
    [captureMessage bugsnagService sentryService postHogService others
                    this message level metadata;
     setUser others this userId email name;
     addBreadcrumb others this message category data;
     flush others this;
     captureHttpException bugsnagService sentryService postHogService
                          this message request statusCode email timestamp].
Proof.
  repeat apply Forall_cons_2; [| | | | |constructor].
  - unfold captureMessage.
    destruct (activeService this) as [s|] eqn:Hs; [|by repeat constructor].
    destruct (captureMessage_impl (others s)) as [impl|].
    + by apply (guarded_wellBehaved this s).
    + pose proof (captureExceptionCalls_wellBehaved this message metadata) as H.
      destruct (captureExceptionCalls _ _ _ this message metadata)
        as [calls [[]|err]]; [exact H|].
      by destruct H as [? _].
  - unfold setUser. destruct (activeService this) as [s|] eqn:Hs;
      [by apply (guarded_wellBehaved this s) | apply nothing_wellBehaved].
  - unfold addBreadcrumb. destruct (activeService this) as [s|] eqn:Hs;
      [|apply nothing_wellBehaved].
    destruct (addBreadcrumb_impl (others s));
      [by apply (guarded_wellBehaved this s) | apply nothing_wellBehaved].
  - unfold flush. destruct (activeService this) as [s|] eqn:Hs;
      [|apply nothing_wellBehaved].
    destruct (flush_impl (others s));
      [by apply (guarded_wellBehaved this s) | apply nothing_wellBehaved].
  - apply captureExceptionCalls_wellBehaved.
Qed.

(** X24: on the service the constructor sets up from a configuration,
    [captureMessage], [setUser], [addBreadcrumb], [flush] and
    [captureHttpException] all return normally, whatever the injected
    services do; each forwards at most one call, and only to the service of
    the configured error-tracking provider; with a provider that is none of
    [bugsnag], [sentry], [posthog] nothing is forwarded.  A message for an
    active service that has no [captureMessage] is forwarded to its
    [captureException], as an error with the message as its text. *)
Theorem x24_dispatcher_forwards_to_configured_service
    (featureFlags : FeatureFlagsConfig)
    (message : string) (level : option string) (metadata : option Metadata)
    (userId : string) (email name category : option string)
    (data : option Metadata) (request : Request) (statusCode : option Z)
    (timestamp : string) :
  let this := (UnifiedErrorTrackingService_new featureFlags).2 in
  let results :=
    [captureMessage bugsnagService sentryService postHogService others
                    this message level metadata;
     setUser others this userId email name;
     addBreadcrumb others this message category data;
     flush others this;
     captureHttpException bugsnagService sentryService postHogService
                          this message request statusCode email timestamp] in
  Forall (fun result : Result =>
            result.2 = Return tt /\
            (length (forwarded result.1) <= 1)%nat /\
            Forall (fun call => forall s,
                      addressee call = Some s ->
                      getErrorTrackingProvider featureFlags = providerOf s)
                   result.1)
         results /\
  (getErrorTrackingProvider featureFlags ∉
     [ErrorTrackingProvider.BUGSNAG; ErrorTrackingProvider.SENTRY;
      ErrorTrackingProvider.POSTHOG] ->
   Forall (fun result : Result => forwarded result.1 = []) results) /\
  (forall s,
     activeService this = Some s -> captureMessage_impl (others s) = None ->
     forwarded
       (captureMessage bugsnagService sentryService postHogService others
                       this message level metadata).1
     = [Basic (CaptureException s message metadata)]).
Proof.
  intros this results.
  pose proof (methods_wellBehaved this message level metadata userId email name
                category data request statusCode timestamp) as Hall.
  fold results in Hall. split; [|split].
  - eapply Forall_impl; [exact Hall|]. intros result (Hr & Hl & _ & Ha).
    split; [done|]. split; [done|]. eapply Forall_impl; [exact Ha|].
    intros call H s Hs. apply active_service_is_configured. by apply H.
  - intros Hnot. eapply Forall_impl; [exact Hall|].
    intros result (_ & _ & Hn & _). apply Hn.
    by apply no_provider_no_active_service.
  - intros s Hs Himpl. unfold captureMessage. rewrite Hs, Himpl.
    pose proof (captureExceptionCalls_cases this message metadata) as (Hr & Hf & _).
    rewrite Hs in Hf.
    destruct (captureExceptionCalls _ _ _ this message metadata)
      as [calls [[]|err]]; [exact Hf | done].
Qed.

Lemma allowed_headers_not_sensitive :
  Forall (fun name => isSensitive name = false) allowedHeaders.
Proof. by repeat constructor. Qed.

Lemma sanitizeHeaders_allowed (headers : option Headers) :
  Forall (fun header => header.1 ∈ allowedHeaders) (sanitizeHeaders headers).
Proof.
  apply Forall_forall. intros [name value] Hin.
  apply list_elem_of_omap in Hin as (header & Hin & Hsome).
  destruct (headers ≫= (.!! header)) as [v|]; [|done].
  destruct (truthyStr v); [|done]. by injection Hsome as <- <-.
Qed.

Lemma headers_expose_nothing (headers : option Headers) :
  exposes (JObject (map (fun header => (header.1, JString header.2))
                        (sanitizeHeaders headers))) = false.
Proof.
  rewrite exposes_object. apply existsb_false, Forall_map.
  eapply Forall_impl; [apply sanitizeHeaders_allowed|].
  intros [name value] Hin. cbn [fst snd] in *.
  pose proof allowed_headers_not_sensitive as Hall.
  rewrite Forall_forall in Hall. by rewrite (Hall name Hin).
Qed.

Lemma exposes_app (before after : list (string * Json)) :
  exposes (JObject (before ++ after))
  = exposes (JObject before) || exposes (JObject after).
Proof. rewrite !exposes_object. apply existsb_app. Qed.

Lemma exposes_prop (name : string) (value : option Json) :
  isSensitive name = false ->
  exposes (JObject (prop name value)) = from_option exposes false value.
Proof.
  intros Hn. destruct value as [value|]; [|done].
  cbn [prop]. rewrite exposes_object. cbn [existsb fst snd].
  by rewrite Hn, orb_false_r.
Qed.

Lemma exposes_cons (name : string) (value : Json) (rest : list (string * Json)) :
  isSensitive name = false ->
  exposes (JObject ((name, value) :: rest))
  = exposes value || exposes (JObject rest).
Proof. intros Hn. rewrite !exposes_object. cbn [existsb fst snd]. by rewrite Hn. Qed.

Lemma httpMetadata_exposure (error : Error) (request : Request)
    (statusCode : option Z) (userId : option string) (timestamp : string) :
  exposes (JObject (httpMetadata error request statusCode userId timestamp))
  = from_option exposes false (query request)
    || from_option exposes false (params request).
Proof.
  unfold httpMetadata.
  repeat first [ rewrite exposes_app
               | (rewrite exposes_cons by done)
               | (rewrite exposes_prop by done) ].
  rewrite headers_expose_nothing.
  assert (from_option exposes false (sanitizeBody <$> body request) = false) as ->
    by (destruct (body request); [apply sanitizeBody_exposes_nothing | done]).
  assert (forall text, from_option exposes false (JString <$> text) = false) as Hs
    by (by intros []).
  rewrite !Hs.
  assert (from_option exposes false
            match userId with
            | Some id =>
                if truthyStr id then Some (JObject [("id", JString id)]) else None
            | None => None
            end = false) as ->
    by (destruct userId as [id|]; [destruct (truthyStr id)|]; done).
  cbn [exposes orb]. by rewrite !orb_false_r.
Qed.

(** X25: in the metadata that [captureHttpException] hands to the tracker,
    the request body is sanitised and the headers are cut down to the allowed
    ones, but the query and the route parameters go out as they came: the
    metadata holds an unredacted sensitive key exactly when the query or the
    parameters of the request hold one. *)
Theorem x25_http_metadata_exposure (error : Error) (request : Request)
    (statusCode : option Z) (userId : option string) (timestamp : string) :
  exposes (JObject (httpMetadata error request statusCode userId timestamp))
  = from_option exposes false (query request)
    || from_option exposes false (params request).
Proof. apply httpMetadata_exposure. Qed.

End DispatcherFacts.

Section FilterFacts.
Import FeatureFlags Auth Sanitize ErrorTracking ErrorTrackingMethods.
Import UnifiedExceptionFilter.
Variables bugsnagService sentryService postHogService : IErrorTrackingService.
Variable others : ServiceId -> OtherMethods.

Lemma setUser_cases (this : UnifiedErrorTrackingService) (userId : string)
    (email name : option string) :
  let result := setUser others this userId email name in
  result.2 = Return tt /\
  forall s error metadata, Basic (CaptureException s error metadata) ∉ result.1.
Proof.
  unfold setUser, guarded. destruct (activeService this) as [s|]; cbn.
  - destruct (setUser_impl _ _ _ _); (split; [done|]);
      intros s' error metadata Hin; set_unfold in Hin;
      destruct_or?; simplify_eq; done.
  - split; [done|]. intros s' error metadata Hin. by set_unfold in Hin.
Qed.

Lemma captureHttpException_cases (this : UnifiedErrorTrackingService)
    (error : Error) (request : Request) (statusCode : option Z)
    (userId : option string) (timestamp : string) :
  let result :=
    captureHttpException bugsnagService sentryService postHogService this
                         error request statusCode userId timestamp in
  result.2 = Return tt /\
  forall s error' metadata,
    Basic (CaptureException s error' metadata) ∈ result.1 ->
    metadata = Some (httpMetadata error request statusCode userId timestamp).
Proof.
  unfold captureHttpException, captureExceptionCalls, captureException.
  destruct (activeService this) as [s|].
  - destruct (captureException_impl _ _ _); cbn; (split; [done|]);
      intros s' error' metadata Hin; set_unfold in Hin;
      destruct_or?; simplify_eq; done.
  - cbn. split; [done|]. intros s' error' metadata Hin. set_unfold in Hin.
    destruct_or?; simplify_eq; done.
Qed.

Lemma errorOf_throws (exception : Exception) (err : Thrown) :
  errorOf exception = Throw err -> exception = IsOther None /\ err = NOT_CONVERTIBLE.
Proof. destruct exception as [| |[text|]]; try done. by intros [= <-]. Qed.

Lemma errorOf_returns (exception : Exception) (error : Error) :
  errorOf exception = Return error -> exception <> IsOther None.
Proof. by destruct exception as [| |[text|]]. Qed.

(** X26: the exception filter answers exactly the exceptions it can convert
    and whose status Fastify accepts, whatever the request and whatever the
    error tracker does: [catch] sends a response if and only if the thrown
    value is an [Error] or has a string conversion, and its status (the one
    of the [HttpException], 500 for anything else) lies in 100..599.  For a
    value without a string conversion it throws a [TypeError] before
    anything is reported or sent; for a status out of range it throws after
    reporting.  A response that is sent has the status of the
    [HttpException], and 500 with the message "Internal server error" for
    anything else; the code in its body is [INTERNAL_SERVER_ERROR] from
    status 500 on and [CLIENT_ERROR] below; the body holds a stack only
    outside production and only for an [Error].  Whatever metadata reaches
    the tracker holds an unredacted sensitive key only if the query or the
    route parameters of the request do. *)
Theorem x26_filter_responds_iff (this : UnifiedErrorTrackingService)
    (env : Env) (exception : Exception) (request : Request)
    (trackedAt sentAt : string) :
  let result :=
    catch bugsnagService sentryService postHogService others
          this env exception request trackedAt sentAt in
  ((exists response, result.2 = Return response) <-> answerable exception) /\
  (exception = IsOther None ->
   result.2 = Throw NOT_CONVERTIBLE /\
   forall s error metadata, Basic (CaptureException s error metadata) ∉ result.1) /\
  (exception <> IsOther None -> ~ 100 <= statusOf exception <= 599 ->
   result.2 = Throw BAD_STATUS_CODE) /\
  (forall response,
     result.2 = Return response ->
     status response = statusOf exception /\
     statusCode (sent response) = status response /\
     success (sent response) = false /\
     path (sent response) = url request /\
     timestamp (sent response) = sentAt /\
     match exception with
     | IsHttpException code text _ =>
         status response = code /\ message (sent response) = text
     | IsError _ _ | IsOther _ =>
         status response = 500 /\
         message (sent response) = "Internal server error"
     end /\
     (500 <= status response -> code (sent response) = "INTERNAL_SERVER_ERROR") /\
     (status response < 500 -> code (sent response) = "CLIENT_ERROR") /\
     (env !! "NODE_ENV" = Some "production" \/ isError exception = false ->
      stack (sent response) = None)) /\
  (forall s error metadata,
     Basic (CaptureException s error metadata) ∈ result.1 ->
     exists entries,
       metadata = Some entries /\
       exposes (JObject entries)
       = from_option exposes false (query request)
         || from_option exposes false (params request)).
Proof.
  cbv zeta. unfold catch, answerable.
  set (userId := user request ≫= user_id).
  set (first :=
         if truthy userId
         then setUser others this (default EmptyString userId)
                      (user request ≫= user_email) None
         else ([], Return tt)).
  assert (first.2 = Return tt /\
          forall s error metadata,
            Basic (CaptureException s error metadata) ∉ first.1) as [Hf1 Hf2].
  { subst first. destruct (truthy userId); [apply setUser_cases|].
    split; [done|]. intros s error metadata Hin. by set_unfold in Hin. }
  destruct first as [calls1 outcome1]. cbn [fst snd] in Hf1, Hf2. subst outcome1.
  destruct (errorOf exception) as [error|err] eqn:Herr.
  2:{ apply errorOf_throws in Herr as [-> ->]. cbn [fst snd].
      split; [split; [by intros [? ?] | by intros [? _]]|].
      split; [done|]. split; [done|]. split; [done|].
      intros s error metadata Hin. by apply Hf2 in Hin. }
  pose proof (errorOf_returns _ _ Herr) as Hconv.
  pose proof (captureHttpException_cases this error request
                (Some (statusOf exception)) userId trackedAt) as [Hc1 Hc2].
  destruct (captureHttpException _ _ _ this error request
              (Some (statusOf exception)) userId trackedAt)
    as [calls2 outcome2].
  cbn [fst snd] in Hc1, Hc2. subst outcome2.
  assert (forall s error' metadata (logged : list Call),
            (forall c, c ∈ logged -> addressee c = None) ->
            Basic (CaptureException s error' metadata) ∈ calls1 ++ calls2 ++ logged ->
            exists entries,
              metadata = Some entries /\
              exposes (JObject entries)
              = from_option exposes false (query request)
                || from_option exposes false (params request)) as Hmeta.
  { intros s error' metadata logged Hlog Hin.
    rewrite !elem_of_app in Hin. destruct Hin as [Hin | [Hin | Hin]].
    - by apply Hf2 in Hin.
    - apply Hc2 in Hin as ->. eexists. split; [done|].
      apply httpMetadata_exposure.
    - by apply Hlog in Hin. }
  assert (forall c,
            c ∈ (if notProduction env
                 then [Basic (Log LogError
                                  (method request +:+ " " +:+ url request
                                   +:+ " - Status: " +:+ pretty (statusOf exception))
                                  (logDetail exception))]
                 else []) -> addressee c = None) as Hlog.
  { intros c Hin. destruct (notProduction env); set_unfold in Hin; [|done].
    by destruct Hin as [-> | []]. }
  unfold reply_status. case_bool_decide as Hrange; cbn [fst snd].
  - split; [split; [done | by eexists]|].
    split; [done|]. split; [done|]. split.
    + intros response [= <-].
      cbn [status sent statusCode success path timestamp message code stack].
      do 5 (split; [done|]). split; [by destruct exception|].
      split; [intros H; by rewrite bool_decide_eq_true_2|].
      split; [intros H; rewrite bool_decide_eq_false_2 by lia; done|].
      intros [Hprod | Hnoerr].
      * unfold notProduction. by rewrite bool_decide_eq_true_2.
      * rewrite Hnoerr. by rewrite andb_false_r.
    + intros s error' metadata Hin. by apply (Hmeta s error' metadata _ Hlog).
  - split; [split; [by intros [? ?] | by intros [_ ?]]|].
    split; [done|]. split; [done|]. split; [done|].
    intros s error' metadata Hin. by apply (Hmeta s error' metadata _ Hlog).
Qed.

End FilterFacts.

(** ** The response cache *)

Section CacheFacts.
Import FeatureFlags ErrorTracking ErrorTrackingMethods Cache.
Variable ONE_MINUTE : Z.
Variable stringify : Json -> string.

Lemma property_keys_absent (options : CacheInvalidateOptions) :
  property "keys" (optionsObject options) = None.
Proof. by destruct options as [[p|] [t|]]. Qed.

Lemma property_pattern (options : CacheInvalidateOptions) :
  property "pattern" (optionsObject options) = JString <$> pattern options.
Proof. by destruct options as [[p|] [t|]]. Qed.

Lemma intercept_invalidate (options : option CacheInvalidateOptions)
    (handler : HandlerMetadata) (request : Request)
    (cached : string -> option Json) (handled : Outcome Thrown Json) :
  intercept ONE_MINUTE stringify (CacheInvalidate options handler) request
            cached handled
  = ((if truthy (default (mkInvalidate None None) options).(pattern)
      then [Warn PATTERN_WARNING] else []) ++ [Handle],
     handled).
Proof.
  unfold intercept, CacheInvalidate. cbn [CACHE_INVALIDATE_METADATA].
  rewrite property_keys_absent, property_pattern. cbn [deleteKeys jsTruthy negb].
  by destruct (pattern _) as [p|].
Qed.

(** X27: a request to a handler that carries [CacheInvalidate], whatever its
    options, never reaches the cache: the interceptor calls neither [del]
    nor [get] nor [set] of the cache manager (the options have no [keys] to
    delete, and a [pattern] only earns a warning on the console); it calls
    the handler once and hands on what the handler gives. *)
Theorem x27_invalidation_never_touches_cache
    (options : option CacheInvalidateOptions) (handler : HandlerMetadata)
    (request : Request) (cached : string -> option Json)
    (handled : Outcome Thrown Json) :
  let result :=
    intercept ONE_MINUTE stringify (CacheInvalidate options handler) request
              cached handled in
  result.2 = handled /\
  Forall (fun call => touchesCache call = false) result.1 /\
  List.filter (fun call => negb (touchesCache call)) result.1
  = (if truthy (default (mkInvalidate None None) options).(pattern)
     then [Warn PATTERN_WARNING] else []) ++ [Handle].
Proof.
  cbv zeta. rewrite intercept_invalidate. cbn [fst snd].
  destruct (truthy _); by repeat constructor.
Qed.

Lemma serve_write (options : option CacheInvalidateOptions)
    (handler : HandlerMetadata) (request : Request)
    (handled : Outcome Thrown Json) (store : Store) :
  (serve ONE_MINUTE stringify (CacheInvalidate options handler) request handled
         store).1 = store.
Proof.
  unfold serve. rewrite intercept_invalidate. cbn [fst].
  by destruct (truthy _).
Qed.

Lemma serveWrites_store
    (writes : list (option CacheInvalidateOptions * Request * Outcome Thrown Json))
    (store : Store) :
  serveWrites ONE_MINUTE stringify writes store = store.
Proof.
  unfold serveWrites. induction writes as [|write writes IH]; [done|].
  cbn [foldl]. by rewrite serve_write.
Qed.

(** X28: a cached response outlives every write.  After a read through a
    handler that carries [Cacheable] with a key prefix has missed the cache
    and stored the (truthy) response of the handler, any number of requests
    through handlers that carry [CacheInvalidate] leave the store as it is,
    and the same read is then answered with the stored response, the
    handler not being asked again, whatever it would give now. *)
Theorem x28_cached_read_outlives_writes
    (options : CacheableOptions) (prefix : string) (request : Request)
    (store : Store) (response : Json)
    (writes : list (option CacheInvalidateOptions * Request * Outcome Thrown Json))
    (later : Outcome Thrown Json) :
  keyPrefix options = Some prefix -> prefix <> EmptyString ->
  jsTruthy (Some response) = true ->
  jsTruthy (store !! generateCacheKey stringify prefix request) = false ->
  let read := Cacheable (Some options) undecorated in
  let first := serve ONE_MINUTE stringify read request (Return response) store in
  let afterWrites := serveWrites ONE_MINUTE stringify writes first.1 in
  first.2 = Return response /\
  afterWrites = first.1 /\
  serve ONE_MINUTE stringify read request later afterWrites
  = (afterWrites, Return response).
Proof.
  intros Hprefix Hne Hresp Hmiss read first afterWrites.
  assert (truthy (Some prefix) = true) as Ht by (by apply truthyStr_true).
  assert (first = (<[generateCacheKey stringify prefix request := response]> store,
                   Return response)) as Hfirst.
  { subst first read. unfold serve, intercept, Cacheable.
    cbn [CACHE_INVALIDATE_METADATA CACHE_KEY_METADATA CACHE_TTL_METADATA
         undecorated default from_option Datatypes.id].
    rewrite Hprefix, Ht. cbn [negb default from_option Datatypes.id].
    by rewrite Hmiss. }
  subst afterWrites. rewrite serveWrites_store, Hfirst. cbn [fst snd].
  split; [done|]. split; [done|].
  subst read. unfold serve, intercept, Cacheable.
  cbn [CACHE_INVALIDATE_METADATA CACHE_KEY_METADATA CACHE_TTL_METADATA
       undecorated default from_option Datatypes.id].
  rewrite Hprefix, Ht. cbn [negb default from_option Datatypes.id].
  assert ((<[generateCacheKey stringify prefix request := response]> store : Store)
            !! generateCacheKey stringify prefix request = Some response) as ->
    by apply lookup_insert_eq.
  by rewrite Hresp.
Qed.

(** X29: for a configuration the service was constructed with, the factory
    of the cache module gives a cache of 1000 entries living 60000 ms
    exactly when caching is enabled, the same for [redis] as for [memory],
    and a cache of no entries otherwise. *)
Theorem x29_cache_factory env logs (config : FeatureFlagsConfig) :
  FeatureFlagsService_new env = (logs, Return config) ->
  useFactory config
  = (if FeatureFlagsService.isCacheEnabled config
     then mkCacheOptions 60000 1000 else mkCacheOptions 0 0).
Proof.
  intros H. apply constructed_legal in H as (_ & _ & _ & Hcache & _).
  unfold useFactory, FeatureFlagsService.isCacheEnabled,
    FeatureFlagsService.getCacheProvider.
  unfold VALID_PROVIDERS.CACHE in Hcache. set_unfold in Hcache.
  destruct Hcache as [-> | [-> | [-> | []]]]; done.
Qed.

End CacheFacts.

Section CacheWitnesses.
Import FeatureFlags ErrorTracking ErrorTrackingMethods Cache.

Lemma x28_cached_read_witness :
  let stringify := fun _ : Json => "{}" in
  let read := Cacheable (Some (mkCacheable None (Some "todos:all"))) undecorated in
  let first := serve 60000 stringify read listRequest (Return (JArray [])) ∅ in
  let afterWrites :=
    serveWrites 60000 stringify
                [(Some todosInvalidate, updateRequest, Return JNull)] first.1 in
  first.2 = Return (JArray []) /\
  afterWrites = first.1 /\
  serve 60000 stringify read listRequest (Return (JArray [JNull])) afterWrites
  = (afterWrites, Return (JArray [])).
Proof.
  apply (x28_cached_read_outlives_writes 60000 (fun _ => "{}")
           (mkCacheable None (Some "todos:all")) "todos:all" listRequest ∅
           (JArray []) [(Some todosInvalidate, updateRequest, Return JNull)]
           (Return (JArray [JNull]))); done.
Defined.

Lemma x29_cache_factory_witness :
  useFactory (selectedProviders FeatureFlagsService.completeEnv)
  = (if FeatureFlagsService.isCacheEnabled (selectedProviders FeatureFlagsService.completeEnv)
     then mkCacheOptions 60000 1000 else mkCacheOptions 0 0).
Proof.
  apply (x29_cache_factory FeatureFlagsService.completeEnv [mkLog LogInfo VALIDATION_PASSED]
           (selectedProviders FeatureFlagsService.completeEnv)).
  by vm_compute.
Defined.

End CacheWitnesses.

(** ** MongooseTodoRepository: counts, priorities and overdue records *)

Section MongooseQueriesFacts.
Import Mongoose MongooseQueries.
Implicit Types (coll : Collection) (doc : TodoDocument.t) (todo : Todo.t).

Lemma filter_split_length {A} (p q : A -> bool) (l : list A) :
  (forall x, q x = negb (p x)) ->
  (length (List.filter p l) + length (List.filter q l) = length l)%nat.
Proof.
  intros Hq. induction l as [|x l IH]; [done|].
  cbn [List.filter]. rewrite (Hq x). destruct (p x); cbn [negb length]; lia.
Qed.

Lemma elem_of_List_filter {A} (p : A -> bool) (l : list A) (x : A) :
  x ∈ List.filter p l <-> x ∈ l /\ p x = true.
Proof. rewrite !list_elem_of_In. apply filter_In. Qed.

Lemma StronglySorted_map_due (docs : list TodoDocument.t) :
  StronglySorted (oldestFirst dueKey) docs ->
  StronglySorted dueFirst (map mapDocumentToEntity docs).
Proof.
  induction 1 as [|d docs Hs IH Hall]; cbn [map]; constructor; [done|].
  apply Forall_map. eapply Forall_impl; [exact Hall|]. by intros d'.
Qed.

(** X30: the further queries of the Mongoose repository agree with the
    others.  The counts for the two completion flags add up to [count], which
    is the number of records [findAll] lists, as [countByCompleted] is the
    number [findByCompleted] lists.  [findOverdue] returns exactly the
    records of [findByCompleted(false)] that have a due date before the
    clock reading (a record without a due date is never overdue), soonest
    due first.  [findByPriority] returns exactly the stored records of that
    priority, each once, newest first. *)
Theorem x30_mongoose_counts_overdue_priority (now : Date) coll :
  (countByCompleted true coll + countByCompleted false coll = count coll)%nat /\
  count coll = length (Mongoose.findAll coll) /\
  (forall completed,
     countByCompleted completed coll
     = length (Mongoose.findByCompleted completed coll)) /\
  (forall todo,
     todo ∈ findOverdue now coll <->
     todo ∈ Mongoose.findByCompleted false coll /\
     exists due, Todo.dueDate todo = Some due /\ due < now) /\
  StronglySorted dueFirst (findOverdue now coll) /\
  (forall priority,
     findByPriority priority coll
       ≡ₚ filter (fun todo => Todo.priority todo = Some priority) (records coll) /\
     StronglySorted (newestFirst Todo.createdAt) (findByPriority priority coll)).
Proof.
  split; [|split; [|split; [|split; [|split]]]].
  - apply filter_split_length. intros doc. cbn [matches].
    destruct (TodoDocument.completed doc); by vm_compute.
  - unfold count, Mongoose.findAll, find_sorted.
    rewrite length_map, (orderByDesc_perm TodoDocument.createdAt).
    clear. induction coll as [|doc coll IH]; [done|]. cbn. by rewrite <- IH.
  - intros completed. unfold countByCompleted, Mongoose.findByCompleted, find_sorted.
    by rewrite length_map, (orderByDesc_perm TodoDocument.createdAt).
  - intros todo. unfold findOverdue, Mongoose.findByCompleted, find_sorted.
    rewrite !list_elem_of_fmap.
    setoid_rewrite (orderByAsc_perm dueKey).
    setoid_rewrite (orderByDesc_perm TodoDocument.createdAt).
    setoid_rewrite elem_of_List_filter. unfold overdue. cbn [matches]. split.
    + intros (doc & -> & Hin & Hover).
      apply andb_true_iff in Hover as [Hdue Hdone].
      split; [by exists doc|].
      cbn [mapDocumentToEntity Todo.dueDate].
      destruct (TodoDocument.dueDate doc) as [due|]; [|done].
      exists due. split; [done|]. by apply bool_decide_eq_true in Hdue.
    + intros [(doc & -> & Hin & Hdone) (due & Hdue & Hlt)].
      exists doc. split; [done|]. split; [done|].
      cbn [mapDocumentToEntity Todo.dueDate] in Hdue. rewrite Hdue, Hdone.
      by rewrite bool_decide_eq_true_2.
  - apply StronglySorted_map_due, orderByAsc_sorted.
  - intros priority. unfold findByPriority. split.
    + rewrite (map_entity_perm _ _ (orderByDesc_perm TodoDocument.createdAt _)).
      unfold records. rewrite filter_entities. apply map_entity_perm.
      erewrite List_filter_stdpp; [reflexivity|]. intros doc.
      unfold priorityIs. cbn [mapDocumentToEntity Todo.priority].
      rewrite bool_decide_eq_true. split; [by intros -> | by intros [= ->]].
    + apply StronglySorted_map_entity, orderByDesc_sorted.
Qed.

End MongooseQueriesFacts.
